(** * Artisan Perfume Formulator: the mixture-analysis and compliance engine

    A shallow embedding of [utils/engine] (solvent breakdown, flash-point
    estimate, batch statistics, IFRA compliance check) and of the NCS
    constituent table [data/ncs], followed by the properties of the engine.

    Conventions of the embedding.
    - A JavaScript [number] is an exact rational [Q]: the arithmetic of the
      engine is read over the rationals, so rounding, overflow, [NaN] and the
      infinities of binary64 are outside the model.  Equality of numbers is
      [Qeq] ([==]).  Every divisor the engine can meet is either guarded
      ([totalBatchWeight], the solvent totals), replaced when zero (the
      solvent densities) or a non-zero literal, except the per-item density
      of [calculateStats].
    - A string is a [string] of bytes; [toLowerCase] and [trim] act on the
      ASCII letters and the ASCII white space.
    - The read-only tables that are objects keyed by strings ([IFRA_LIBRARY],
      the [limits] of an entry) are [gmap]s.  The two accumulators whose
      iteration order is observable (the [Map] of solvents, the [massByCas]
      object) are association lists in insertion order, updated in place.
      Keys are assumed not to be canonical array indices nor names
      inherited from [Object.prototype].
    - [INGREDIENTS] and [IFRA_LIBRARY] are parameters of the engine. *)

From Stdlib Require Import Ascii String QArith Lqa Sorted.
From stdpp Require Import base strings list gmap.

Local Open Scope Q_scope.
Local Open Scope string_scope.

(** ** JavaScript primitives used by the engine *)

Module Js.

(** [x < y] on numbers. *)
Definition Qltb (x y : Q) : bool := negb (Qle_bool y x).

(** [x || d] on numbers: [0] is falsy. *)
Definition orNum (x d : Q) : Q := if Qeq_bool x 0 then d else x.

(** [s || d] on strings: the empty string is falsy. *)
Definition orStr (s d : string) : string :=
  match s with EmptyString => d | _ => s end.

(** Truthiness of a [string | null]. *)
Definition truthy (o : option string) : option string :=
  match o with
  | Some EmptyString => None
  | _ => o
  end.

Definition lowerAscii (c : ascii) : ascii :=
  let n := nat_of_ascii c in
  if ((65 <=? n) && (n <=? 90))%nat then ascii_of_nat (n + 32) else c.

Fixpoint toLowerCase (s : string) : string :=
  match s with
  | EmptyString => EmptyString
  | String c r => String (lowerAscii c) (toLowerCase r)
  end.

(** [s.includes(sub)]. *)
Fixpoint includes (s sub : string) : bool :=
  String.prefix sub s
  || match s with
     | EmptyString => false
     | String _ r => includes r sub
     end.

Definition isSpace (c : ascii) : bool :=
  let n := nat_of_ascii c in
  ((9 <=? n) && (n <=? 13) || (n =? 32))%nat.

Fixpoint trimStart (s : string) : string :=
  match s with
  | EmptyString => EmptyString
  | String c r => if isSpace c then trimStart r else s
  end.

Fixpoint trimEnd (s : string) : string :=
  match s with
  | EmptyString => EmptyString
  | String c r =>
      match trimEnd r with
      | EmptyString => if isSpace c then EmptyString else String c EmptyString
      | r' => String c r'
      end
  end.

Definition trim (s : string) : string := trimEnd (trimStart s).

(** [Array.prototype.sort] is stable; [before y x] reads "the comparator
    is negative on [(y, x)]", so [x] is inserted after every element that
    must strictly precede it and before the first that need not. *)
Section Sort.
Context {A : Type} (before : A -> A -> bool).

Fixpoint insertSorted (x : A) (l : list A) : list A :=
  match l with
  | [] => [x]
  | y :: l' => if before y x then y :: insertSorted x l' else x :: l
  end.

Fixpoint sort (l : list A) : list A :=
  match l with
  | [] => []
  | x :: l' => insertSorted x (sort l')
  end.
End Sort.

(** An object or [Map] whose keys are read back in insertion order. *)
Section Ordered.
Context {V : Type}.

Fixpoint get (m : list (string * V)) (k : string) : option V :=
  match m with
  | [] => None
  | (k', v) :: m' => if String.eqb k' k then Some v else get m' k
  end.

Fixpoint set (m : list (string * V)) (k : string) (v : V)
  : list (string * V) :=
  match m with
  | [] => [(k, v)]
  | (k', v') :: m' =>
      if String.eqb k' k then (k, v) :: m' else (k', v') :: set m' k v
  end.
End Ordered.

End Js.

(** ** Data model ([types.ts]) *)

Module Ingredient.
Record t := mk {
  id : string;
  name : string;
  cas : string;
  family : string;
  note : string;
  odorProfile : string;
  density : Q;
  dilution : Q;
  solvent : string;
  costPerKg : Q
}.
End Ingredient.

Module IFRAEntry.
Record t := mk {
  name : string;
  type : string;
  limits : option (gmap string Q)
}.
End IFRAEntry.

Module NCSConstituent.
Record t := mk {
  name : string;
  cas : string;
  percent : Q
}.
End NCSConstituent.

Module NCS.
Record t := mk {
  id : string;
  constituents : list NCSConstituent.t
}.
End NCS.

Module FormulaItem.
Record t := mk {
  uuid : string;
  ingredientId : option string;
  name : string;
  cas : string;
  family : string;
  note : string;
  odorProfile : string;
  weight : Q;
  dilution : Q;
  solvent : string;
  costPerKg : Q;
  supplier : string;
  customDensity : option Q;
  accordId : option string
}.
End FormulaItem.

Module ComplianceResult.
Record t := mk {
  cas : string;
  name : string;
  totalMass : Q;
  concentration : Q;
  limit : Q;
  isCompliant : bool;
  sources : list string;
  reason : string
}.
End ComplianceResult.

Module SolventBreakdownEntry.
Record t := mk {
  name : string;
  mass : Q;
  volume : Q;
  massPct : Q;
  volPct : Q
}.
End SolventBreakdownEntry.

Inductive Rating := Safe | Low | Flammable | High.

Module FlashPoint.
Record t := mk {
  celsius : option Q;
  rating : Rating;
  warning : string
}.
End FlashPoint.

Module SolventAnalysis.
Record t := mk {
  breakdown : list SolventBreakdownEntry.t;
  totalSolventMass : Q;
  totalSolventVolume : Q;
  ethanolVvPct : Q;
  flashPointEstimate : FlashPoint.t
}.
End SolventAnalysis.

Module FormulationStats.
Record t := mk {
  totalWeight : Q;
  totalVolume : Q;
  totalCost : Q;
  ethanolMass : Q;
  concentrateMass : Q;
  solventAnalysis : SolventAnalysis.t
}.
End FormulationStats.

(** ** The NCS constituent table ([data/ncs]) *)

Definition NCS_DATA : list NCS.t :=
  [ NCS.mk "bergamot_oil" [
        NCSConstituent.mk "Limonene" "5989-27-5" 0.40;
        NCSConstituent.mk "Linalool" "78-70-6" 0.12;
        NCSConstituent.mk "Citral" "5392-40-5" 0.007;
        NCSConstituent.mk "Berzapten" "484-20-8" 0.002 ];
    NCS.mk "lemon_oil" [
        NCSConstituent.mk "Limonene" "5989-27-5" 0.68;
        NCSConstituent.mk "Citral" "5392-40-5" 0.025;
        NCSConstituent.mk "Geraniol" "106-24-1" 0.003 ];
    NCS.mk "sweet_orange_oil" [
        NCSConstituent.mk "Limonene" "5989-27-5" 0.95;
        NCSConstituent.mk "Linalool" "78-70-6" 0.005;
        NCSConstituent.mk "Citral" "5392-40-5" 0.001 ];
    NCS.mk "grapefruit_oil" [
        NCSConstituent.mk "Limonene" "5989-27-5" 0.90;
        NCSConstituent.mk "Citral" "5392-40-5" 0.005;
        NCSConstituent.mk "Nootkatone" "4674-50-4" 0.01 ];
    NCS.mk "mandarin_oil" [
        NCSConstituent.mk "Limonene" "5989-27-5" 0.72;
        NCSConstituent.mk "Dimethyl Anthranilate" "85-91-6" 0.003 ];
    NCS.mk "lime_oil_distilled" [
        NCSConstituent.mk "Limonene" "5989-27-5" 0.45;
        NCSConstituent.mk "Citral" "5392-40-5" 0.005 ];
    NCS.mk "lime_oil_expressed" [
        NCSConstituent.mk "Limonene" "5989-27-5" 0.55;
        NCSConstituent.mk "Citral" "5392-40-5" 0.04;
        NCSConstituent.mk "Geraniol" "106-24-1" 0.005 ];
    NCS.mk "petitgrain_oil" [
        NCSConstituent.mk "Linalool" "78-70-6" 0.25;
        NCSConstituent.mk "Limonene" "5989-27-5" 0.05;
        NCSConstituent.mk "Geraniol" "106-24-1" 0.03;
        NCSConstituent.mk "Citral" "5392-40-5" 0.001 ];
    NCS.mk "rose_otto" [
        NCSConstituent.mk "Citronellol" "106-22-9" 0.35;
        NCSConstituent.mk "Geraniol" "106-24-1" 0.18;
        NCSConstituent.mk "Eugenol" "97-53-0" 0.015;
        NCSConstituent.mk "Methyl Eugenol" "93-15-2" 0.012;
        NCSConstituent.mk "Farnesol" "4602-84-0" 0.01 ];
    NCS.mk "rose_abs" [
        NCSConstituent.mk "Phenylethyl Alcohol" "60-12-8" 0.65;
        NCSConstituent.mk "Citronellol" "106-22-9" 0.12;
        NCSConstituent.mk "Geraniol" "106-24-1" 0.07;
        NCSConstituent.mk "Eugenol" "97-53-0" 0.015;
        NCSConstituent.mk "Methyl Eugenol" "93-15-2" 0.008 ];
    NCS.mk "jasmine_grandiflorum" [
        NCSConstituent.mk "Benzyl Benzoate" "120-51-4" 0.12;
        NCSConstituent.mk "Benzyl Acetate" "140-11-4" 0.22;
        NCSConstituent.mk "Linalool" "78-70-6" 0.06;
        NCSConstituent.mk "Eugenol" "97-53-0" 0.005 ];
    NCS.mk "jasmine_sambac" [
        NCSConstituent.mk "Benzyl Alcohol" "100-51-6" 0.04;
        NCSConstituent.mk "Linalool" "78-70-6" 0.08;
        NCSConstituent.mk "Methyl Anthranilate" "134-20-3" 0.005 ];
    NCS.mk "ylang_ylang_oil" [
        NCSConstituent.mk "Linalool" "78-70-6" 0.18;
        NCSConstituent.mk "Benzyl Benzoate" "120-51-4" 0.08;
        NCSConstituent.mk "Benzyl Salicylate" "118-58-1" 0.04;
        NCSConstituent.mk "Geraniol" "106-24-1" 0.015;
        NCSConstituent.mk "Farnesol" "4602-84-0" 0.02;
        NCSConstituent.mk "Isoeugenol" "97-54-1" 0.008 ];
    NCS.mk "lavender_oil" [
        NCSConstituent.mk "Linalool" "78-70-6" 0.38;
        NCSConstituent.mk "Geraniol" "106-24-1" 0.005;
        NCSConstituent.mk "Coumarin" "91-64-5" 0.002 ];
    NCS.mk "neroli_oil" [
        NCSConstituent.mk "Linalool" "78-70-6" 0.36;
        NCSConstituent.mk "Limonene" "5989-27-5" 0.12;
        NCSConstituent.mk "Geraniol" "106-24-1" 0.03;
        NCSConstituent.mk "Farnesol" "4602-84-0" 0.03 ];
    NCS.mk "geranium_oil" [
        NCSConstituent.mk "Citronellol" "106-22-9" 0.35;
        NCSConstituent.mk "Geraniol" "106-24-1" 0.15;
        NCSConstituent.mk "Citral" "5392-40-5" 0.01 ];
    NCS.mk "clove_bud_oil" [
        NCSConstituent.mk "Eugenol" "97-53-0" 0.82;
        NCSConstituent.mk "Isoeugenol" "97-54-1" 0.001 ];
    NCS.mk "cinnamon_bark_oil" [
        NCSConstituent.mk "Cinnamal" "104-55-2" 0.65;
        NCSConstituent.mk "Eugenol" "97-53-0" 0.06;
        NCSConstituent.mk "Linalool" "78-70-6" 0.03 ];
    NCS.mk "cardamom_oil" [
        NCSConstituent.mk "Linalool" "78-70-6" 0.04;
        NCSConstituent.mk "Limonene" "5989-27-5" 0.02;
        NCSConstituent.mk "Citral" "5392-40-5" 0.003 ];
    NCS.mk "black_pepper_oil" [
        NCSConstituent.mk "Limonene" "5989-27-5" 0.18;
        NCSConstituent.mk "Linalool" "78-70-6" 0.005 ];
    NCS.mk "nutmeg_oil" [
        NCSConstituent.mk "Limonene" "5989-27-5" 0.04;
        NCSConstituent.mk "Isoeugenol" "97-54-1" 0.005;
        NCSConstituent.mk "Methyleugenol" "93-15-2" 0.005 ];
    NCS.mk "oakmoss_abs" [
        NCSConstituent.mk "Atranol" "526-37-4" 0.015;
        NCSConstituent.mk "Chloroatranol" "57074-21-2" 0.008 ];
    NCS.mk "patchouli_oil" [
        NCSConstituent.mk "Eugenol" "97-53-0" 0.001 ];
    NCS.mk "vetiver_oil" [
        NCSConstituent.mk "Isoeugenol" "97-54-1" 0.001 ];
    NCS.mk "sandalwood_oil" [
        NCSConstituent.mk "Farnesol" "4602-84-0" 0.005 ];
    NCS.mk "olibanum_oil" [
        NCSConstituent.mk "Limonene" "5989-27-5" 0.15;
        NCSConstituent.mk "Linalool" "78-70-6" 0.01 ] ].

(** ** Solvent analysis ([calculateSolventBreakdown], [estimateFlashPoint]) *)

Definition SOLVENT_DENSITIES : gmap string Q :=
  list_to_map
    [ ("Ethanol", 0.789); ("DPG", 1.02); ("IPM", 0.85); ("TEC", 1.12);
      ("BB", 1.12); ("Benzyl Benzoate", 1.12); ("Water", 1.0);
      ("Water (Aqua)", 1.0) ].

(** The reference curve: (ethanol % v/v, flash point in Celsius). *)
Definition points : list (Q * Q) :=
  [ (0, 100); (5, 62); (10, 49); (20, 36); (30, 29); (40, 26); (50, 24);
    (60, 22); (70, 21); (80, 20); (90, 17); (100, 13) ].

(** The interpolation loop over consecutive control points: the first
    segment that brackets the percentage decides, and the loop falls through
    to the pure-ethanol default when none does. *)
Fixpoint interpolate (pts : list (Q * Q)) (ethanolVvPct : Q) : Q :=
  match pts with
  | (p1Pct, p1Temp) :: (((p2Pct, p2Temp) :: _) as rest) =>
      if Qle_bool p1Pct ethanolVvPct && Qle_bool ethanolVvPct p2Pct then
        let ratio := (ethanolVvPct - p1Pct) / (p2Pct - p1Pct) in
        p1Temp + ratio * (p2Temp - p1Temp)
      else interpolate rest ethanolVvPct
  | _ => 13
  end.

Definition classify (estimatedC : Q) : Rating * string :=
  if Js.Qltb estimatedC 23 then
    (High, "High flammability / shipping constraints likely")
  else if Js.Qltb estimatedC 60 then
    (Flammable, "Flammable – review shipping/storage")
  else
    (Low, "Lower flammability (still validate)").

Definition estimateFlashPoint (ethanolVvPct : Q) : FlashPoint.t :=
  if Qle_bool ethanolVvPct 0 then
    FlashPoint.mk None Safe "Non-flammable solvent basis"
  else
    let estimatedC := interpolate points ethanolVvPct in
    let '(rating, warning) := classify estimatedC in
    FlashPoint.mk (Some estimatedC) rating warning.

Module SolventData.
(** The value type of [solventMap]. *)
Record t := mk { mass : Q; volume : Q }.
End SolventData.

Module SolventState.
(** The three variables the [forEach] of [calculateSolventBreakdown]
    updates. *)
Record t := mk {
  solventMap : list (string * SolventData.t);
  totalSolventMass : Q;
  totalSolventVolume : Q
}.
End SolventState.

(** Case 2 of the loop body: the name of a direct solvent line. *)
Definition normalizeSolventName (name : string) : string :=
  let lowerName := Js.toLowerCase name in
  if Js.includes lowerName "ethanol" || Js.includes lowerName "alcohol"
  then "Ethanol"
  else if Js.includes lowerName "dpg" then "DPG"
  else if Js.includes lowerName "ipm" then "IPM"
  else if Js.includes lowerName "tec" then "TEC"
  else if Js.includes lowerName "water" || Js.includes lowerName "aqua"
  then "Water"
  else if Js.includes lowerName "bb" || Js.includes lowerName "benzyl benzoate"
  then "BB"
  else name.

(** The branch the loop body takes for one item. *)
Inductive SolventCase := DilutedCarrier | DirectSolvent | NoSolvent.

Definition solventCase (item : FormulaItem.t) : SolventCase :=
  let dilution := Js.orNum (FormulaItem.dilution item) 1 in
  if Js.Qltb dilution 1 then DilutedCarrier
  else if (String.eqb (FormulaItem.family item) "Solvent"
           || String.eqb (FormulaItem.note item) "Solvent")
          && Qeq_bool dilution 1
  then DirectSolvent
  else NoSolvent.

(** [solventName] and [addedMass] at the end of the two cases. *)
Definition solventContribution (item : FormulaItem.t) : string * Q :=
  let dilution := Js.orNum (FormulaItem.dilution item) 1 in
  match solventCase item with
  | DilutedCarrier =>
      let solventName := Js.orStr (FormulaItem.solvent item) "Ethanol" in
      let solventName :=
        if String.eqb solventName "None" then "Ethanol" else solventName in
      (solventName, FormulaItem.weight item * (1 - dilution))
  | DirectSolvent =>
      (normalizeSolventName (FormulaItem.name item), FormulaItem.weight item)
  | NoSolvent => ("None", 0)
  end.

(** The "Accumulate" step of the loop body. *)
Definition accumulateSolvent (st : SolventState.t) (item : FormulaItem.t)
  : SolventState.t :=
  let '(solventName, addedMass) := solventContribution item in
  if Js.Qltb 0 addedMass && negb (String.eqb solventName "None") then
    let density :=
      match SOLVENT_DENSITIES !! solventName with
      | Some d => Js.orNum d 1.0
      | None => 1.0
      end in
    let addedVol := addedMass / density in
    let current :=
      default (SolventData.mk 0 0)
              (Js.get (SolventState.solventMap st) solventName) in
    SolventState.mk
      (Js.set (SolventState.solventMap st) solventName
         (SolventData.mk (SolventData.mass current + addedMass)
                         (SolventData.volume current + addedVol)))
      (SolventState.totalSolventMass st + addedMass)
      (SolventState.totalSolventVolume st + addedVol)
  else st.

Definition solventLoop (formula : list FormulaItem.t) : SolventState.t :=
  fold_left accumulateSolvent formula (SolventState.mk [] 0 0).

Definition breakdownEntry (totalSolventMass totalSolventVolume : Q)
    (kv : string * SolventData.t) : SolventBreakdownEntry.t :=
  let '(name, data) := kv in
  SolventBreakdownEntry.mk name (SolventData.mass data)
    (SolventData.volume data)
    (if Js.Qltb 0 totalSolventMass
     then SolventData.mass data / totalSolventMass * 100 else 0)
    (if Js.Qltb 0 totalSolventVolume
     then SolventData.volume data / totalSolventVolume * 100 else 0).

(** The comparator [(a, b) => b.mass - a.mass] is negative on [(a, b)]
    when [a] is the heavier. *)
Definition heavier (a b : SolventBreakdownEntry.t) : bool :=
  Js.Qltb (SolventBreakdownEntry.mass b - SolventBreakdownEntry.mass a) 0.

Definition isEthanol (b : SolventBreakdownEntry.t) : bool :=
  String.eqb (SolventBreakdownEntry.name b) "Ethanol".

Definition calculateSolventBreakdown (formula : list FormulaItem.t)
  : SolventAnalysis.t :=
  let st := solventLoop formula in
  let totalSolventMass := SolventState.totalSolventMass st in
  let totalSolventVolume := SolventState.totalSolventVolume st in
  let breakdown :=
    Js.sort heavier
      (map (breakdownEntry totalSolventMass totalSolventVolume)
           (SolventState.solventMap st)) in
  let ethanolEntry := find isEthanol breakdown in
  let ethanolVol :=
    match ethanolEntry with
    | Some e => SolventBreakdownEntry.volume e
    | None => 0
    end in
  let ethanolVvPct :=
    if Js.Qltb 0 totalSolventVolume
    then ethanolVol / totalSolventVolume * 100 else 0 in
  SolventAnalysis.mk breakdown totalSolventMass totalSolventVolume
    ethanolVvPct (estimateFlashPoint ethanolVvPct).

(** ** Batch statistics and compliance ([calculateStats], [checkCompliance]) *)

Module StatsState.
(** The accumulators of the [forEach] of [calculateStats]. *)
Record t := mk {
  totalWeight : Q;
  totalVolume : Q;
  totalCost : Q;
  concentrateMass : Q
}.
End StatsState.

Module CasState.
(** The two accumulators of [checkCompliance].  A [Set] of sources is
    read back by [Array.from] in insertion order: a duplicate-free list. *)
Record t := mk {
  massByCas : list (string * Q);
  sourcesByCas : gmap string (list string)
}.
End CasState.

(** [set.add(x)]. *)
Definition setAdd (s : list string) (x : string) : list string :=
  if existsb (String.eqb x) s then s else (s ++ [x])%list.

(** [massByCas[cas] = (massByCas[cas] || 0) + m], then the registration of
    the source in [sourcesByCas[cas]] (created when missing). *)
Definition attribute (st : CasState.t) (cas : string) (m : Q)
    (source : string) : CasState.t :=
  let previous :=
    match Js.get (CasState.massByCas st) cas with
    | Some v => Js.orNum v 0
    | None => 0
    end in
  CasState.mk
    (Js.set (CasState.massByCas st) cas (previous + m))
    (<[cas := setAdd (default [] (CasState.sourcesByCas st !! cas)) source]>
       (CasState.sourcesByCas st)).

(** The template literal naming a hidden constituent. *)
Definition hiddenSource (itemName constituentName : string) : string :=
  itemName ++ " (Hidden " ++ constituentName ++ ")".

Definition findNcs (ingredientId : string) : option NCS.t :=
  find (fun n => String.eqb (NCS.id n) ingredientId) NCS_DATA.

(** The body of the [forEach] of [checkCompliance]. *)
Definition attributeItem (st : CasState.t) (item : FormulaItem.t)
  : CasState.t :=
  let realMass := FormulaItem.weight item * FormulaItem.dilution item in
  let directCas := Js.trim (FormulaItem.cas item) in
  let st1 :=
    if negb (String.eqb directCas "") && negb (String.eqb directCas "Mixture")
    then attribute st directCas realMass (FormulaItem.name item)
    else st in
  match Js.truthy (FormulaItem.ingredientId item) with
  | Some ingredientId =>
      match findNcs ingredientId with
      | Some ncsProfile =>
          fold_left
            (fun s constituent =>
               let constituentMass :=
                 realMass * NCSConstituent.percent constituent in
               attribute s (NCSConstituent.cas constituent) constituentMass
                 (hiddenSource (FormulaItem.name item)
                               (NCSConstituent.name constituent)))
            (NCS.constituents ncsProfile) st1
      | None => st1
      end
  | None => st1
  end.

Definition casLoop (formula : list FormulaItem.t) : CasState.t :=
  fold_left attributeItem formula (CasState.mk [] ∅).

(** The comparator of the final sort is negative on [(a, b)] exactly when
    [a] is non-compliant and [b] compliant. *)
Definition failsFirst (a b : ComplianceResult.t) : bool :=
  negb (ComplianceResult.isCompliant a) && ComplianceResult.isCompliant b.

(** The limit, in percent, the checker applies to an entry. *)
Definition limitPercentOf (entry : IFRAEntry.t) (targetCategory : string) : Q :=
  match IFRAEntry.limits entry with
  | Some limits =>
      match limits !! targetCategory with
      | Some v => v
      | None =>
          if String.eqb (IFRAEntry.type entry) "prohibited" then 0 else 100
      end
  | None => if String.eqb (IFRAEntry.type entry) "prohibited" then 0 else 100
  end.

Section Engine.

Context (INGREDIENTS : list Ingredient.t).
Context (IFRA_LIBRARY : gmap string IFRAEntry.t).

Definition densityOf (item : FormulaItem.t) : Q :=
  let dbIng :=
    match Js.truthy (FormulaItem.ingredientId item) with
    | Some ingredientId =>
        find (fun i => String.eqb (Ingredient.id i) ingredientId) INGREDIENTS
    | None => None
    end in
  match FormulaItem.customDensity item with
  | Some d => d
  | None =>
      match dbIng with
      | Some ing => Ingredient.density ing
      | None => 1.0
      end
  end.

Definition statsStep (st : StatsState.t) (item : FormulaItem.t)
  : StatsState.t :=
  let density := densityOf item in
  let vol := FormulaItem.weight item / density in
  let activeMass := FormulaItem.weight item * FormulaItem.dilution item in
  StatsState.mk
    (StatsState.totalWeight st + FormulaItem.weight item)
    (StatsState.totalVolume st + vol)
    (StatsState.totalCost st
     + FormulaItem.weight item / 1000 * FormulaItem.costPerKg item)
    (StatsState.concentrateMass st + activeMass).

Definition calculateStats (formula : list FormulaItem.t)
  : FormulationStats.t :=
  let st := fold_left statsStep formula (StatsState.mk 0 0 0 0) in
  let solventAnalysis := calculateSolventBreakdown formula in
  let ethEntry := find isEthanol (SolventAnalysis.breakdown solventAnalysis) in
  let ethanolMass :=
    match ethEntry with
    | Some e => SolventBreakdownEntry.mass e
    | None => 0
    end in
  FormulationStats.mk
    (StatsState.totalWeight st) (StatsState.totalVolume st)
    (StatsState.totalCost st) ethanolMass
    (StatsState.concentrateMass st) solventAnalysis.

(** The body of the loop over [Object.keys(massByCas)]: the row pushed for
    one CAS number, if the library knows it. *)
Definition complianceRow (sourcesByCas : gmap string (list string))
    (totalBatchWeight : Q) (targetCategory : string)
    (kv : string * Q) : option ComplianceResult.t :=
  let '(cas, totalMass) := kv in
  match IFRA_LIBRARY !! cas with
  | Some entry =>
      let concentration := totalMass / totalBatchWeight in
      let limitPercent := limitPercentOf entry targetCategory in
      let limitDecimal := limitPercent / 100 in
      let isCompliant := Qle_bool concentration limitDecimal in
      Some (ComplianceResult.mk cas (IFRAEntry.name entry) totalMass
              concentration limitDecimal isCompliant
              (default [] (sourcesByCas !! cas))
              (if String.eqb (IFRAEntry.type entry) "prohibited"
               then "Prohibited" else "Restriction"))
  | None => None
  end.

Definition checkCompliance (formula : list FormulaItem.t)
    (totalBatchWeight : Q) (targetCategory : string)
  : list ComplianceResult.t :=
  if Qeq_bool totalBatchWeight 0 then []
  else
    let st := casLoop formula in
    let results :=
      omap (complianceRow (CasState.sourcesByCas st) totalBatchWeight
              targetCategory)
           (CasState.massByCas st) in
    Js.sort failsFirst results.

End Engine.

(** ** Reference definitions

    The quantities the properties are stated with: sums over a formula, the
    density and the carrier name as the specification words them, the
    per-item contributions to a CAS number, and sample items and libraries. *)

(** Linear interpolation between two control points, as the specification
    words it. *)
Definition lerp (p1 t1 p2 t2 x : Q) : Q :=
  t1 + (x - p1) / (p2 - p1) * (t2 - t1).

(** Consecutive control points. *)
Definition segments (pts : list (Q * Q)) : list ((Q * Q) * (Q * Q)) :=
  zip pts (tail pts).

Fixpoint sumQ (l : list Q) : Q :=
  match l with
  | [] => 0
  | x :: l' => x + sumQ l'
  end.

(** The sum of [f] over the items of a formula. *)
Definition sumOver (f : FormulaItem.t -> Q) (formula : list FormulaItem.t) : Q :=
  sumQ (map f formula).

Section MasterList.
Context (INGREDIENTS : list Ingredient.t).

(** The master record a formula item links to: the first ingredient of
    the master list with the item's (non-empty) id. *)
Definition linkedIngredient (item : FormulaItem.t) : option Ingredient.t :=
  match FormulaItem.ingredientId item with
  | Some i =>
      if String.eqb i "" then None
      else find (fun g => String.eqb (Ingredient.id g) i) INGREDIENTS
  | None => None
  end.

(** The density of an item, in the words of the specification. *)
Definition specDensity (item : FormulaItem.t) : Q :=
  match FormulaItem.customDensity item, linkedIngredient item with
  | Some d, _ => d
  | None, Some g => Ingredient.density g
  | None, None => 1
  end.

End MasterList.

(** The mass recorded for a carrier name so far. *)
Definition carrierMass (st : SolventState.t) (name : string) : Q :=
  SolventData.mass
    (default (SolventData.mk 0 0) (Js.get (SolventState.solventMap st) name)).

(** The carrier name of a diluted item, in the words of the specification. *)
Definition declaredCarrier (item : FormulaItem.t) : string :=
  if String.eqb (FormulaItem.solvent item) ""
     || String.eqb (FormulaItem.solvent item) "None"
  then "Ethanol" else FormulaItem.solvent item.

Definition taggedSolvent (item : FormulaItem.t) : Prop :=
  FormulaItem.family item = "Solvent" \/ FormulaItem.note item = "Solvent".

Definition massesOf (m : list (string * SolventData.t)) : list Q :=
  map (fun kv => SolventData.mass kv.2) m.

(** The mass accumulated for a CAS number so far. *)
Definition casMass (st : CasState.t) (cas : string) : Q :=
  default 0 (Js.get (CasState.massByCas st) cas).

(** What an item attributes to [cas] directly, through its own CAS. *)
Definition directMass (item : FormulaItem.t) (cas : string) : Q :=
  let directCas := Js.trim (FormulaItem.cas item) in
  if negb (String.eqb directCas "") && negb (String.eqb directCas "Mixture")
     && String.eqb directCas cas
  then FormulaItem.weight item * FormulaItem.dilution item
  else 0.

(** What an item attributes to [cas] through the constituents of the
    natural complex substance it is linked to. *)
Definition hiddenMass (item : FormulaItem.t) (cas : string) : Q :=
  match Js.truthy (FormulaItem.ingredientId item) with
  | Some ingredientId =>
      match findNcs ingredientId with
      | Some ncsProfile =>
          sumQ (map (fun k =>
                       if String.eqb (NCSConstituent.cas k) cas
                       then FormulaItem.weight item * FormulaItem.dilution item
                            * NCSConstituent.percent k
                       else 0)
                    (NCS.constituents ncsProfile))
      | None => 0
      end
  | None => 0
  end.

Module Sample.

(** A line as the editor creates it: free text or linked to the master
    list, with the fields the engine does not read left empty. *)
Definition line (ingredientId : option string) (name cas family note : string)
    (weight dilution : Q) (solvent : string) : FormulaItem.t :=
  FormulaItem.mk "" ingredientId name cas family note "" weight dilution
    solvent 0 "" None None.

Definition bergamot : FormulaItem.t :=
  line (Some "bergamot_oil") "Bergamot Oil" "Mixture" "Citrus" "Top"
       1000 1.0 "None".

(** A freshly added, still unweighed, 50 % dilution. *)
Definition unweighedDilution : FormulaItem.t :=
  line None "Vanillin 50%" "121-33-5" "Custom" "Base" 0 0.5 "DPG".

Definition neatMusk : FormulaItem.t :=
  line None "Musk" "" "Custom" "Base" 10 1 "None".

Definition tincture : FormulaItem.t :=
  line None "Tincture" "" "Custom" "Middle" 10 0.2 "".

Definition perfumersAlcohol : FormulaItem.t :=
  line None "Perfumer's Alcohol" "64-17-5" "Solvent" "Solvent" 80 1 "None".

(** A direct solvent line whose name is the word the loop uses for
    "no solvent". *)
Definition solventNamedNone : FormulaItem.t :=
  line None "None" "" "Solvent" "Solvent" 10 1 "None".

End Sample.

Module SampleLibrary.

(** A prohibited substance that nevertheless carries a category table. *)
Definition prohibitedWithTable : gmap string IFRAEntry.t :=
  {[ "484-20-8" :=
       IFRAEntry.mk "Bergapten" "prohibited" (Some {[ "4" := 0.4 ]}) ]}.

(** A restricted substance with a limit for category 4 only. *)
Definition limoneneCategory4 : gmap string IFRAEntry.t :=
  {[ "5989-27-5" :=
       IFRAEntry.mk "Limonene" "restricted" (Some {[ "4" := 10 ]}) ]}.

Definition bergaptenCategory4 : gmap string IFRAEntry.t :=
  {[ "484-20-8" :=
       IFRAEntry.mk "Bergapten" "restricted" (Some {[ "4" := 0.4 ]}) ]}.

(** Sweet orange oil entered under the CAS number of its main
    constituent. *)
Definition orangeAsLimonene : FormulaItem.t :=
  Sample.line (Some "sweet_orange_oil") "Sweet Orange Oil" "5989-27-5"
              "Citrus" "Top" 1000 1 "None".

(** A line placed in the accord "a1". *)
Definition inAccord (item : FormulaItem.t) : FormulaItem.t :=
  FormulaItem.mk (FormulaItem.uuid item) (FormulaItem.ingredientId item)
    (FormulaItem.name item) (FormulaItem.cas item) (FormulaItem.family item)
    (FormulaItem.note item) (FormulaItem.odorProfile item)
    (FormulaItem.weight item) (FormulaItem.dilution item)
    (FormulaItem.solvent item) (FormulaItem.costPerKg item)
    (FormulaItem.supplier item) (FormulaItem.customDensity item) (Some "a1").

End SampleLibrary.

(** ** The editor's derived values and the batch tools ([App], [BatchTools])

    Text typed by the user reaches these functions through [parseFloat];
    here they take the parsed number ([NaN], which every guard below
    rejects, is not a value of the model).  A function that returns without
    updating the formula yields [None]. *)

(** [Math.max(a, b)]. *)
Definition mathMax (a b : Q) : Q := if Js.Qltb a b then b else a.

(** [{ ...item, weight: w }]. *)
Definition withWeight (item : FormulaItem.t) (w : Q) : FormulaItem.t :=
  FormulaItem.mk (FormulaItem.uuid item) (FormulaItem.ingredientId item)
    (FormulaItem.name item) (FormulaItem.cas item) (FormulaItem.family item)
    (FormulaItem.note item) (FormulaItem.odorProfile item) w
    (FormulaItem.dilution item) (FormulaItem.solvent item)
    (FormulaItem.costPerKg item) (FormulaItem.supplier item)
    (FormulaItem.customDensity item) (FormulaItem.accordId item).

(** [{ ...item, costPerKg: c }]. *)
Definition withCostPerKg (item : FormulaItem.t) (c : Q) : FormulaItem.t :=
  FormulaItem.mk (FormulaItem.uuid item) (FormulaItem.ingredientId item)
    (FormulaItem.name item) (FormulaItem.cas item) (FormulaItem.family item)
    (FormulaItem.note item) (FormulaItem.odorProfile item)
    (FormulaItem.weight item) (FormulaItem.dilution item)
    (FormulaItem.solvent item) c (FormulaItem.supplier item)
    (FormulaItem.customDensity item) (FormulaItem.accordId item).

(** [a === b] for a [string | null] against a string. *)
Definition sameId (a : option string) (b : string) : bool :=
  match a with
  | Some s => String.eqb s b
  | None => false
  end.

(** [formula.map(item => ({ ...item, weight: item.weight * ratio }))]. *)
Definition scaleBy (ratio : Q) (formula : list FormulaItem.t)
  : list FormulaItem.t :=
  map (fun item => withWeight item (FormulaItem.weight item * ratio)) formula.

Module NoteBuckets.
(** The four accumulators of the note breakdown. *)
Record t := mk { top : Q; mid : Q; base : Q; other : Q }.
End NoteBuckets.

Module NoteBreakdown.
Record t := mk { top : Q; mid : Q; base : Q; other : Q; solvent : Q }.
End NoteBreakdown.

(** The body of the [forEach] of [noteBreakdown]; [item.dilution ?? 1] is
    the dilution, a number. *)
Definition noteStep (acc : NoteBuckets.t) (item : FormulaItem.t)
  : NoteBuckets.t :=
  let active := FormulaItem.weight item * FormulaItem.dilution item in
  let n := Js.toLowerCase (Js.orStr (FormulaItem.note item) "") in
  if String.eqb n "top" then
    NoteBuckets.mk (NoteBuckets.top acc + active) (NoteBuckets.mid acc)
      (NoteBuckets.base acc) (NoteBuckets.other acc)
  else if String.eqb n "middle" || String.eqb n "heart" then
    NoteBuckets.mk (NoteBuckets.top acc) (NoteBuckets.mid acc + active)
      (NoteBuckets.base acc) (NoteBuckets.other acc)
  else if String.eqb n "base" then
    NoteBuckets.mk (NoteBuckets.top acc) (NoteBuckets.mid acc)
      (NoteBuckets.base acc + active) (NoteBuckets.other acc)
  else if String.eqb n "solvent" then acc
  else
    NoteBuckets.mk (NoteBuckets.top acc) (NoteBuckets.mid acc)
      (NoteBuckets.base acc) (NoteBuckets.other acc + active).

Definition noteBreakdown (INGREDIENTS : list Ingredient.t)
    (formula : list FormulaItem.t) : NoteBreakdown.t :=
  let stats := calculateStats INGREDIENTS formula in
  let acc := fold_left noteStep formula (NoteBuckets.mk 0 0 0 0) in
  let aromaticsMass :=
    NoteBuckets.top acc + NoteBuckets.mid acc + NoteBuckets.base acc
    + NoteBuckets.other acc in
  let solvent :=
    mathMax 0 (FormulationStats.totalWeight stats - aromaticsMass) in
  NoteBreakdown.mk (NoteBuckets.top acc) (NoteBuckets.mid acc)
    (NoteBuckets.base acc) (NoteBuckets.other acc) solvent.

(** The filter behind [nonCompliantCount], the printed issue list and the
    exported one: [!c.isCompliant || c.limit === 0]. *)
Definition isIssue (r : ComplianceResult.t) : bool :=
  negb (ComplianceResult.isCompliant r)
  || Qeq_bool (ComplianceResult.limit r) 0.

Definition nonCompliantCount (complianceReport : list ComplianceResult.t)
  : nat :=
  length (List.filter isIssue complianceReport).

(** The share of an item shown in its row and exported. *)
Definition percentOf (stats : FormulationStats.t) (item : FormulaItem.t) : Q :=
  if Js.Qltb 0 (FormulationStats.totalWeight stats)
  then FormulaItem.weight item / FormulationStats.totalWeight stats * 100
  else 0.

Inductive ScaleMode := ScaleTotal | ScaleIngredient.

(** [handleScale] of the batch tools. *)
Definition handleScale (target : Q) (scaleMode : ScaleMode)
    (targetIngredientId : string) (formula : list FormulaItem.t)
    (stats : FormulationStats.t) : option (list FormulaItem.t) :=
  if Qeq_bool target 0 || Qle_bool target 0 then None
  else
    match scaleMode with
    | ScaleTotal =>
        if Qeq_bool (FormulationStats.totalWeight stats) 0 then None
        else Some (scaleBy (target / FormulationStats.totalWeight stats)
                           formula)
    | ScaleIngredient =>
        match find (fun i => sameId (FormulaItem.ingredientId i)
                                    targetIngredientId) formula with
        | Some item =>
            if Qeq_bool (FormulaItem.weight item) 0 then None
            else Some (scaleBy (target / FormulaItem.weight item) formula)
        | None => None
        end
    end.

(** [items.reduce((sum, i) => sum + i.weight, 0)]. *)
Definition weightOf (items : list FormulaItem.t) : Q :=
  fold_left (fun sum i => sum + FormulaItem.weight i) items 0.

(** [handleScaleAccord]; [targetWeight] is the parsed answer to the prompt,
    absent when the prompt is cancelled, left empty or not a number. *)
Definition handleScaleAccord (accordId : string) (targetWeight : option Q)
    (formula : list FormulaItem.t) : option (list FormulaItem.t) :=
  let groupItems :=
    List.filter (fun i => sameId (FormulaItem.accordId i) accordId) formula in
  match groupItems with
  | [] => None
  | _ =>
      let currentWeight := weightOf groupItems in
      if Qle_bool currentWeight 0 then None
      else
        match targetWeight with
        | None => None
        | Some targetWeight =>
            if Js.Qltb targetWeight 0 then None
            else
              let ratio := targetWeight / currentWeight in
              Some (map (fun item =>
                           if sameId (FormulaItem.accordId item) accordId
                           then withWeight item (FormulaItem.weight item * ratio)
                           else item)
                        formula)
        end
  end.

(** ** Quantities used to state the further properties *)

(** What an item adds to [totalSolventMass]: the mass its case produces,
    when the accumulation step lets it through. *)
Definition solventMassOf (item : FormulaItem.t) : Q :=
  let '(solventName, addedMass) := solventContribution item in
  if Js.Qltb 0 addedMass && negb (String.eqb solventName "None")
  then addedMass else 0.

Definition volumesOf (m : list (string * SolventData.t)) : list Q :=
  map (fun kv => SolventData.volume kv.2) m.

(** The density the accumulation step divides by. *)
Definition solventDensity (solventName : string) : Q :=
  match SOLVENT_DENSITIES !! solventName with
  | Some d => Js.orNum d 1.0
  | None => 1.0
  end.


(** What every entry of the solvent map satisfies: a name other than None,
    a positive mass and a positive volume. *)
Definition solventEntryOk (kv : string * SolventData.t) : Prop :=
  kv.1 <> "None" /\ 0 < SolventData.mass kv.2 /\ 0 < SolventData.volume kv.2.



(** The active mass an item adds to the four aromatic buckets of the note
    breakdown: nothing for a note that reads "solvent". *)
Definition aromaticOf (item : FormulaItem.t) : Q :=
  if String.eqb (Js.toLowerCase (FormulaItem.note item)) "solvent" then 0
  else FormulaItem.weight item * FormulaItem.dilution item.

Definition bucketsTotal (acc : NoteBuckets.t) : Q :=
  NoteBuckets.top acc + NoteBuckets.mid acc + NoteBuckets.base acc
  + NoteBuckets.other acc.

(** An entry typed prohibited that has no number for the category. *)
Definition bannedOutright (entry : IFRAEntry.t) (targetCategory : string)
  : Prop :=
  IFRAEntry.type entry = "prohibited"
  /\ forall limits, IFRAEntry.limits entry = Some limits ->
                    limits !! targetCategory = None.

(** ** Accord templates and inventory costs ([App])

    Identifiers drawn by [crypto.randomUUID] and the clock read by
    [Date.now] are inputs of the functions below. *)

Module AccordGroup.
Record t := mk { id : string; name : string; collapsed : option bool }.
End AccordGroup.

Module AccordTemplateItem.
Record t := mk {
  ratio : Q;
  ingredientId : option string;
  name : string;
  cas : string;
  family : string;
  note : string;
  odorProfile : string;
  dilution : Q;
  solvent : string;
  costPerKg : Q;
  supplier : string;
  customDensity : option Q
}.
End AccordTemplateItem.

Module AccordTemplate.
Record t := mk {
  id : string;
  name : string;
  createdAt : Q;
  items : list AccordTemplateItem.t
}.
End AccordTemplate.

Module InventoryItem.
Record t := mk {
  id : string;
  ingredientId : string;
  name : string;
  family : string;
  lotNumber : string;
  purchaseDate : string;
  shelfLife : Q;
  stockAmount : Q;
  pricePaid : Q;
  costPerKg : Q
}.
End InventoryItem.

(** One item of a saved template: its share of the accord and the copied
    fields. *)
Definition toTemplateItem (totalWeight : Q) (i : FormulaItem.t)
  : AccordTemplateItem.t :=
  AccordTemplateItem.mk (FormulaItem.weight i / totalWeight)
    (FormulaItem.ingredientId i) (FormulaItem.name i) (FormulaItem.cas i)
    (FormulaItem.family i) (FormulaItem.note i) (FormulaItem.odorProfile i)
    (FormulaItem.dilution i) (FormulaItem.solvent i) (FormulaItem.costPerKg i)
    (FormulaItem.supplier i) (FormulaItem.customDensity i).

(** [handleSaveAsTemplate]: the template appended to the list of
    templates, if any. *)
Definition handleSaveAsTemplate (newId : string) (now : Q) (name : string)
    (saveTemplateGroupId : option string)
    (accordGroups : list AccordGroup.t) (formula : list FormulaItem.t)
  : option AccordTemplate.t :=
  match Js.truthy saveTemplateGroupId with
  | None => None
  | Some groupId =>
      let group :=
        find (fun g => String.eqb (AccordGroup.id g) groupId) accordGroups in
      let items :=
        List.filter (fun i => sameId (FormulaItem.accordId i) groupId)
                    formula in
      match group, items with
      | None, _ => None
      | Some _, [] => None
      | Some _, _ =>
          let totalWeight := weightOf items in
          if Qle_bool totalWeight 0 then None
          else Some (AccordTemplate.mk newId (Js.trim name) now
                       (map (toTemplateItem totalWeight) items))
      end
  end.

(** One line instantiated from a template item. *)
Definition fromTemplateItem (uuid newGroupId : string) (targetWeight : Q)
    (tItem : AccordTemplateItem.t) : FormulaItem.t :=
  FormulaItem.mk uuid (AccordTemplateItem.ingredientId tItem)
    (AccordTemplateItem.name tItem) (AccordTemplateItem.cas tItem)
    (AccordTemplateItem.family tItem) (AccordTemplateItem.note tItem)
    (AccordTemplateItem.odorProfile tItem)
    (AccordTemplateItem.ratio tItem * targetWeight)
    (AccordTemplateItem.dilution tItem) (AccordTemplateItem.solvent tItem)
    (AccordTemplateItem.costPerKg tItem) (AccordTemplateItem.supplier tItem)
    (AccordTemplateItem.customDensity tItem) (Some newGroupId).

(** [handleInsertTemplate]: the new accord groups and the new formula;
    [uuidOf k] is the identifier drawn for the [k]-th line. *)
Definition handleInsertTemplate (newGroupId : string) (uuidOf : nat -> string)
    (templateId : string) (targetWeight : Q)
    (accordTemplates : list AccordTemplate.t)
    (accordGroups : list AccordGroup.t) (formula : list FormulaItem.t)
  : option (list AccordGroup.t * list FormulaItem.t) :=
  match find (fun t => String.eqb (AccordTemplate.id t) templateId)
             accordTemplates with
  | None => None
  | Some template =>
      let newGroup :=
        AccordGroup.mk newGroupId (AccordTemplate.name template) (Some false) in
      let newItems :=
        imap (fun k tItem =>
                fromTemplateItem (uuidOf k) newGroupId targetWeight tItem)
             (AccordTemplate.items template) in
      Some ((accordGroups ++ [newGroup])%list, (formula ++ newItems)%list)
  end.

(** The inventory item whose price [handleSyncCosts] gives to a line: by
    ingredient id, else by the CAS number of the master record, else by
    name. *)
Definition inventoryMatch (INGREDIENTS : list Ingredient.t)
    (inventory : list InventoryItem.t) (fItem : FormulaItem.t)
  : option InventoryItem.t :=
  let byId :=
    match Js.truthy (FormulaItem.ingredientId fItem) with
    | Some ingredientId =>
        find (fun inv => String.eqb (InventoryItem.ingredientId inv)
                                    ingredientId) inventory
    | None => None
    end in
  let byCas :=
    match byId with
    | Some _ => byId
    | None =>
        if negb (String.eqb (FormulaItem.cas fItem) "")
           && (4 <? String.length (FormulaItem.cas fItem))%nat
        then
          find (fun inv =>
                  match find (fun i => String.eqb (Ingredient.id i)
                                         (InventoryItem.ingredientId inv))
                             INGREDIENTS with
                  | Some dbIng =>
                      String.eqb (Ingredient.cas dbIng) (FormulaItem.cas fItem)
                  | None => false
                  end) inventory
        else None
    end in
  match byCas with
  | Some _ => byCas
  | None =>
      let formulaName := Js.trim (Js.toLowerCase (FormulaItem.name fItem)) in
      find (fun inv =>
              String.eqb (Js.trim (Js.toLowerCase (InventoryItem.name inv)))
                         formulaName) inventory
  end.

(** [handleSyncCosts]: the new formula, unless the inventory is empty. *)
Definition handleSyncCosts (INGREDIENTS : list Ingredient.t)
    (inventory : list InventoryItem.t) (formula : list FormulaItem.t)
  : option (list FormulaItem.t) :=
  match inventory with
  | [] => None
  | _ =>
      Some (map (fun fItem =>
                   match inventoryMatch INGREDIENTS inventory fItem with
                   | Some m => withCostPerKg fItem (InventoryItem.costPerKg m)
                   | None => fItem
                   end) formula)
  end.

(** A line rebuilt from a template against the line it was saved from:
    the same weight and the same copied fields. *)
Definition sameLine (old new : FormulaItem.t) : Prop :=
  FormulaItem.weight new == FormulaItem.weight old
  /\ FormulaItem.ingredientId new = FormulaItem.ingredientId old
  /\ FormulaItem.name new = FormulaItem.name old
  /\ FormulaItem.cas new = FormulaItem.cas old
  /\ FormulaItem.family new = FormulaItem.family old
  /\ FormulaItem.note new = FormulaItem.note old
  /\ FormulaItem.odorProfile new = FormulaItem.odorProfile old
  /\ FormulaItem.dilution new = FormulaItem.dilution old
  /\ FormulaItem.solvent new = FormulaItem.solvent old
  /\ FormulaItem.costPerKg new = FormulaItem.costPerKg old
  /\ FormulaItem.supplier new = FormulaItem.supplier old
  /\ FormulaItem.customDensity new = FormulaItem.customDensity old.

Module SampleAccord.

Definition groups : list AccordGroup.t :=
  [AccordGroup.mk "a1" "Base accord" (Some false)].

Definition formula : list FormulaItem.t :=
  [SampleLibrary.inAccord Sample.tincture; Sample.perfumersAlcohol;
   SampleLibrary.inAccord Sample.neatMusk].

(** The template [handleSaveAsTemplate] builds from the accord "a1" of
    [formula]. *)
Definition template : AccordTemplate.t :=
  AccordTemplate.mk "t1" "Base" 0
    (map (toTemplateItem (0 + 10 + 10))
         [SampleLibrary.inAccord Sample.tincture;
          SampleLibrary.inAccord Sample.neatMusk]).

Definition uuidOf (k : nat) : string :=
  match k with
  | O => "u0"
  | _ => "u1"
  end.

Definition inventory : list InventoryItem.t :=
  [InventoryItem.mk "s1" "bergamot_oil" "Bergamot Oil" "Citrus" "L1"
     "2024-01-01" 12 100 30 300].

End SampleAccord.

(** Two lines that differ at most in their cost per kilogram. *)
Definition costOnly (old new : FormulaItem.t) : Prop :=
  exists c, new = withCostPerKg old c.

(** ** The solvent calculator ([BatchTools]) *)

(** [s.split(' ')[0]]. *)
Fixpoint firstWord (s : string) : string :=
  match s with
  | EmptyString => EmptyString
  | String c r => if Ascii.eqb c " " then EmptyString else String c (firstWord r)
  end.

(** [l.findIndex(p)], absent for [-1]. *)
Fixpoint findIndex {A : Type} (p : A -> bool) (l : list A) : option nat :=
  match l with
  | [] => None
  | x :: l' => if p x then Some O else option_map S (findIndex p l')
  end.

(** Name and [idMatch] of the solvents offered by the calculator. *)
Definition STANDARD_SOLVENTS : list (string * string) :=
  [ ("Ethanol", "ethanol"); ("DPG", "dpg"); ("IPM", "ipm"); ("TEC", "tec");
    ("BB (Benzyl Benzoate)", "benzyl benzoate"); ("Water (Aqua)", "water");
    ("Jojoba Oil", "jojoba") ].

(** The master record the calculator takes a new solvent row from. *)
Definition solventIngredient (INGREDIENTS : list Ingredient.t)
    (selectedSolvent : string) : option Ingredient.t :=
  let solventNameLower := Js.toLowerCase selectedSolvent in
  let dbIng :=
    find (fun i =>
            Js.includes (Js.toLowerCase (Ingredient.name i)) solventNameLower
            || negb (String.eqb (Ingredient.cas i) "")
               && Js.includes (Js.toLowerCase (Ingredient.name i))
                              solventNameLower)
         INGREDIENTS in
  let dbIng :=
    match dbIng with
    | Some _ => dbIng
    | None =>
        match find (fun s => String.eqb s.1 selectedSolvent)
                   STANDARD_SOLVENTS with
        | Some std =>
            find (fun i => Js.includes (Js.toLowerCase (Ingredient.name i))
                                       std.2) INGREDIENTS
        | None => None
        end
    end in
  match dbIng with
  | Some _ => dbIng
  | None => find (fun i => String.eqb (Ingredient.family i) "Solvent")
                 INGREDIENTS
  end.

(** The row the calculator creates when the formula has no row of the
    selected solvent. *)
Definition newSolventRow (INGREDIENTS : list Ingredient.t) (uuid : string)
    (selectedSolvent : string) (weight : Q) : FormulaItem.t :=
  let dbIng := solventIngredient INGREDIENTS selectedSolvent in
  FormulaItem.mk uuid
    (Some (match dbIng with
           | Some g => Js.orStr (Ingredient.id g) "custom-solvent"
           | None => "custom-solvent"
           end))
    (match dbIng with
     | Some g => Js.orStr (Ingredient.name g) selectedSolvent
     | None => selectedSolvent
     end)
    (match dbIng with
     | Some g => Ingredient.cas g
     | None => ""
     end)
    "Solvent" "Solvent" "Solvent" weight 1.0 "None"
    (match dbIng with
     | Some g => Js.orNum (Ingredient.costPerKg g) 10
     | None => 10
     end)
    "" None None.

(** [handleAdjustSolvent]; the row a found index points to always exists. *)
Definition handleAdjustSolvent (INGREDIENTS : list Ingredient.t)
    (uuid : string) (targetPercent : Q) (selectedSolvent : string)
    (formula : list FormulaItem.t) (stats : FormulationStats.t)
  : option (list FormulaItem.t) :=
  if Qeq_bool targetPercent 0 || Qle_bool targetPercent 0
     || Qle_bool 100 targetPercent
  then None
  else if Qeq_bool (FormulationStats.concentrateMass stats) 0 then None
  else
    let requiredTotalWeight :=
      FormulationStats.concentrateMass stats / (targetPercent / 100) in
    let solventNameLower := Js.toLowerCase selectedSolvent in
    let solventIndex :=
      findIndex
        (fun i =>
           Js.includes (Js.toLowerCase (FormulaItem.name i)) solventNameLower
           || String.eqb (FormulaItem.family i) "Solvent"
              && Js.includes (Js.toLowerCase (FormulaItem.name i))
                   (Js.toLowerCase (firstWord selectedSolvent)))
        formula in
    let solventRow :=
      match solventIndex with
      | Some k => formula !! k
      | None => None
      end in
    let currentSolventRowWeight :=
      match solventRow with
      | Some row => FormulaItem.weight row
      | None => 0
      end in
    let weightOfEverythingElse :=
      FormulationStats.totalWeight stats - currentSolventRowWeight in
    let newTotalSolventWeight :=
      requiredTotalWeight - weightOfEverythingElse in
    if Qle_bool newTotalSolventWeight 0 then None
    else
      match solventIndex, solventRow with
      | Some k, Some row =>
          Some (<[k := withWeight row newTotalSolventWeight]> formula)
      | Some _, None => None
      | None, _ =>
          Some (formula
                ++ [newSolventRow INGREDIENTS uuid selectedSolvent
                      newTotalSolventWeight])%list
      end.

(** The sources recorded for a CAS number so far. *)
Definition casSources (st : CasState.t) (cas : string) : list string :=
  default [] (CasState.sourcesByCas st !! cas).

(** The CAS number an item is attributed to directly, if any. *)
Definition directCasOf (item : FormulaItem.t) : option string :=
  let directCas := Js.trim (FormulaItem.cas item) in
  if negb (String.eqb directCas "") && negb (String.eqb directCas "Mixture")
  then Some directCas else None.

(** The constituent profile an item is expanded through, if any. *)
Definition linkedProfile (item : FormulaItem.t) : option NCS.t :=
  match Js.truthy (FormulaItem.ingredientId item) with
  | Some ingredientId => findNcs ingredientId
  | None => None
  end.

(** ** Editing a line ([updateItem] of [App], the row of [IngredientRow])

    Only the new formula is modelled; the debounced session log that
    [updateItem] also feeds does not read or change the formula.  Its
    callers pass numbers for the numeric fields, on which [parseFloat] is
    the identity. *)

(** [safeFloat]: [parseFloat(val) || 0]. *)
Definition safeFloat (val : Q) : Q := Js.orNum val 0.

Inductive TextField :=
  FieldName | FieldCas | FieldFamily | FieldNote | FieldOdorProfile
| FieldSolvent | FieldSupplier.

Inductive NumberField := FieldDilution | FieldCostPerKg.

(** The field and the value [updateItem] is called with.  The fields are
    those of a line other than [uuid] and [ingredientId], which no caller
    passes; [EditVolume] is the pseudo-field [volume]. *)
Inductive Edit :=
| EditWeight (value : Q)
| EditVolume (value : Q)
| EditCustomDensity (value : Q)
| EditNumber (field : NumberField) (value : Q)
| EditText (field : TextField) (value : string)
| EditAccordId (value : option string).

Definition setText (field : TextField) (value : string) (i : FormulaItem.t)
  : FormulaItem.t :=
  FormulaItem.mk (FormulaItem.uuid i) (FormulaItem.ingredientId i)
    (match field with FieldName => value | _ => FormulaItem.name i end)
    (match field with FieldCas => value | _ => FormulaItem.cas i end)
    (match field with FieldFamily => value | _ => FormulaItem.family i end)
    (match field with FieldNote => value | _ => FormulaItem.note i end)
    (match field with
     | FieldOdorProfile => value
     | _ => FormulaItem.odorProfile i
     end)
    (FormulaItem.weight i) (FormulaItem.dilution i)
    (match field with FieldSolvent => value | _ => FormulaItem.solvent i end)
    (FormulaItem.costPerKg i)
    (match field with FieldSupplier => value | _ => FormulaItem.supplier i end)
    (FormulaItem.customDensity i) (FormulaItem.accordId i).

Definition setNumber (field : NumberField) (value : Q) (i : FormulaItem.t)
  : FormulaItem.t :=
  FormulaItem.mk (FormulaItem.uuid i) (FormulaItem.ingredientId i)
    (FormulaItem.name i) (FormulaItem.cas i) (FormulaItem.family i)
    (FormulaItem.note i) (FormulaItem.odorProfile i) (FormulaItem.weight i)
    (match field with FieldDilution => value | _ => FormulaItem.dilution i end)
    (FormulaItem.solvent i)
    (match field with
     | FieldCostPerKg => value
     | _ => FormulaItem.costPerKg i
     end)
    (FormulaItem.supplier i) (FormulaItem.customDensity i)
    (FormulaItem.accordId i).

Definition setCustomDensity (value : Q) (i : FormulaItem.t) : FormulaItem.t :=
  FormulaItem.mk (FormulaItem.uuid i) (FormulaItem.ingredientId i)
    (FormulaItem.name i) (FormulaItem.cas i) (FormulaItem.family i)
    (FormulaItem.note i) (FormulaItem.odorProfile i) (FormulaItem.weight i)
    (FormulaItem.dilution i) (FormulaItem.solvent i) (FormulaItem.costPerKg i)
    (FormulaItem.supplier i) (Some value) (FormulaItem.accordId i).

Definition setAccordId (value : option string) (i : FormulaItem.t)
  : FormulaItem.t :=
  FormulaItem.mk (FormulaItem.uuid i) (FormulaItem.ingredientId i)
    (FormulaItem.name i) (FormulaItem.cas i) (FormulaItem.family i)
    (FormulaItem.note i) (FormulaItem.odorProfile i) (FormulaItem.weight i)
    (FormulaItem.dilution i) (FormulaItem.solvent i) (FormulaItem.costPerKg i)
    (FormulaItem.supplier i) (FormulaItem.customDensity i) value.

(** The new item [updateItem] computes from the old one. *)
Definition applyEdit (INGREDIENTS : list Ingredient.t) (edit : Edit)
    (oldItem : FormulaItem.t) : FormulaItem.t :=
  let density := densityOf INGREDIENTS oldItem in
  match edit with
  | EditWeight value => withWeight oldItem (safeFloat value)
  | EditVolume value =>
      let vol := safeFloat value in
      let calculatedWeight := vol * density in
      withWeight oldItem calculatedWeight
  | EditCustomDensity value =>
      setCustomDensity (Js.orNum (safeFloat value) 1.0) oldItem
  | EditNumber field value => setNumber field value oldItem
  | EditText field value => setText field value oldItem
  | EditAccordId value => setAccordId value oldItem
  end.

Definition updateItem (INGREDIENTS : list Ingredient.t) (uuid : string)
    (edit : Edit) (prev : list FormulaItem.t) : list FormulaItem.t :=
  match findIndex (fun i => String.eqb (FormulaItem.uuid i) uuid) prev with
  | None => prev
  | Some itemIndex =>
      match prev !! itemIndex with
      | Some oldItem =>
          <[itemIndex := applyEdit INGREDIENTS edit oldItem]> prev
      | None => prev
      end
  end.

(** The two masses the row of a line shows. *)
Definition rowRealMass (item : FormulaItem.t) : Q :=
  Js.orNum (FormulaItem.weight item) 0 * Js.orNum (FormulaItem.dilution item) 1.

Definition rowSolventMass (item : FormulaItem.t) : Q :=
  Js.orNum (FormulaItem.weight item) 0
  * (1 - Js.orNum (FormulaItem.dilution item) 1).

(** * Properties *)

(** ** Numbers and comparisons *)

Lemma Qltb_lt (x y : Q) : Js.Qltb x y = true <-> x < y.
Proof.
  unfold Js.Qltb. rewrite negb_true_iff.
  destruct (Qle_bool y x) eqn:E.
  - apply Qle_bool_iff in E. split; [discriminate | intros H; lra].
  - split; [intros _ | reflexivity].
    destruct (Qlt_le_dec x y) as [H | H]; [exact H |].
    apply Qle_bool_iff in H. congruence.
Qed.

Lemma Qltb_ge (x y : Q) : Js.Qltb x y = false <-> y <= x.
Proof.
  unfold Js.Qltb. rewrite negb_false_iff. apply Qle_bool_iff.
Qed.

Lemma Qle_bool_gt (x y : Q) : Qle_bool x y = false <-> y < x.
Proof.
  rewrite <- Qltb_lt. unfold Js.Qltb. now rewrite negb_true_iff.
Qed.

Lemma Qeq_bool_false (x y : Q) : Qeq_bool x y = false <-> ~ x == y.
Proof.
  split.
  - intros E H. apply Qeq_bool_iff in H. congruence.
  - intros H. destruct (Qeq_bool x y) eqn:E; [| reflexivity].
    apply Qeq_bool_iff in E. contradiction.
Qed.

Lemma orNum_zero (x : Q) : Js.orNum x 0 == x.
Proof.
  unfold Js.orNum. destruct (Qeq_bool x 0) eqn:E; [| reflexivity].
  apply Qeq_bool_iff in E. now rewrite E.
Qed.

(** Turns the boolean tests in the context into (in)equalities of [Q]. *)
Ltac qprops :=
  repeat match goal with
    | H : Qle_bool _ _ = true |- _ => apply Qle_bool_iff in H
    | H : Qle_bool _ _ = false |- _ => apply Qle_bool_gt in H
    | H : Js.Qltb _ _ = true |- _ => apply Qltb_lt in H
    | H : Js.Qltb _ _ = false |- _ => apply Qltb_ge in H
    | H : Qeq_bool _ _ = true |- _ => apply Qeq_bool_iff in H
    | H : Qeq_bool _ _ = false |- _ => apply Qeq_bool_false in H
    | H : (_ && _) = true |- _ => apply andb_true_iff in H; destruct H
    end.

(** Evaluates the reciprocals of constant differences, which [lra] does not
    do by itself. *)
Ltac qconst :=
  unfold Qdiv in *;
  repeat match goal with
    | |- context [ / (?a - ?b) ] =>
        let v := eval vm_compute in (/ (a - b)) in
        change (/ (a - b)) with v
    | H : context [ / (?a - ?b) ] |- _ =>
        let v := eval vm_compute in (/ (a - b)) in
        change (/ (a - b)) with v in H
    end.

(** ** The flash-point estimator *)

(** The loop stops at the first segment that brackets [x]; when it stops at
    none, [x] lies beyond every later control point and the default stands.
    Nothing is assumed of the curve. *)
Lemma interpolate_scan (x : Q) (pts : list (Q * Q)) :
  forall p t, p <= x ->
    Exists (fun s => (s.1.1 <= x /\ x <= s.2.1)
                     /\ interpolate ((p, t) :: pts) x
                        = lerp s.1.1 s.1.2 s.2.1 s.2.2 x)
           (segments ((p, t) :: pts))
    \/ (Forall (fun q => q.1 < x) pts /\ interpolate ((p, t) :: pts) x = 13).
Proof.
  induction pts as [| [p2 t2] rest IH]; intros p t Hp.
  - right. split; [constructor | reflexivity].
  - cbn [interpolate].
    destruct (Qle_bool p x && Qle_bool x p2) eqn:E.
    + left. apply Exists_cons_hd. qprops. cbn [fst snd].
      split; [split; assumption | reflexivity].
    + assert (Hp2 : p2 < x).
      { apply andb_false_iff in E. destruct E as [E | E]; qprops; lra. }
      destruct (IH p2 t2) as [H | [H1 H2]]; [lra | |].
      * left. apply Exists_cons_tl. exact H.
      * right. split; [constructor; assumption | exact H2].
Qed.

Lemma interpolate_cases (x : Q) :
  0 < x ->
  Exists (fun s => (s.1.1 <= x /\ x <= s.2.1)
                   /\ interpolate points x = lerp s.1.1 s.1.2 s.2.1 s.2.2 x)
         (segments points)
  \/ (100 < x /\ interpolate points x = 13).
Proof.
  intros Hx. destruct (interpolate_scan x (tail points) 0 100) as [H | [H1 H2]].
  - lra.
  - left. exact H.
  - right. split; [| exact H2].
    unfold points in H1. cbn [tail] in H1.
    exact (Forall_lookup_1 _ _ 10%nat (100, 13) H1 eq_refl).
Qed.

(** Splits on the twelve places where a positive [x] can lie, replacing
    [interpolate points x] by its value there. *)
Ltac curve_cases x Hx :=
  let H := fresh "H" in
  let f := fresh "f" in
  let Ef := fresh "Ef" in
  pose proof (interpolate_cases x Hx) as H;
  remember (interpolate points x) as f eqn:Ef; clear Ef;
  unfold segments, points in H; cbn [zip zip_with tail] in H;
  destruct H as [H | [? H]];
  [ repeat (apply Exists_cons in H; destruct H as [[[? ?] H] | H]);
    [ .. | apply Exists_nil in H; destruct H ];
    cbn [fst snd] in * |- ; unfold lerp in H
  | ];
  subst f.

Lemma interpolate_bounds (x : Q) :
  0 < x -> 13 <= interpolate points x /\ interpolate points x <= 100.
Proof.
  intros Hx. curve_cases x Hx; qconst; split; lra.
Qed.

(** Along the curve the estimate never rises. *)
Lemma interpolate_antitone (x y : Q) :
  0 < x -> x <= y -> interpolate points y <= interpolate points x.
Proof.
  intros Hx Hxy. assert (Hy : 0 < y) by lra.
  curve_cases x Hx; curve_cases y Hy; qconst; lra.
Qed.

(** Any segment that brackets [x] gives the estimate, not only the first:
    two segments that both bracket [x] meet at [x]. *)
Lemma interpolate_bracket (x : Q) (i : nat) (p1 t1 p2 t2 : Q) :
  0 < x ->
  points !! i = Some (p1, t1) -> points !! S i = Some (p2, t2) ->
  p1 <= x -> x <= p2 ->
  interpolate points x == lerp p1 t1 p2 t2 x.
Proof.
  intros Hx H1 H2 Hl Hr.
  do 11 (destruct i as [| i];
         [ cbn in H1, H2; injection H1 as <- <-; injection H2 as <- <-;
           unfold lerp; curve_cases x Hx; qconst; lra | ]).
  cbn in H2. discriminate.
Qed.

Lemma classify_rating (c : Q) :
  (c < 23 -> (classify c).1 = High)
  /\ (23 <= c -> c < 60 -> (classify c).1 = Flammable)
  /\ (60 <= c -> (classify c).1 = Low)
  /\ (classify c).1 <> Safe.
Proof.
  unfold classify.
  destruct (Js.Qltb c 23) eqn:E1; [| destruct (Js.Qltb c 60) eqn:E2];
    qprops; cbn [fst]; repeat split; intros; try reflexivity;
    try discriminate; exfalso; lra.
Qed.

Lemma estimateFlashPoint_positive (pct : Q) :
  0 < pct ->
  FlashPoint.celsius (estimateFlashPoint pct) = Some (interpolate points pct)
  /\ FlashPoint.rating (estimateFlashPoint pct)
     = (classify (interpolate points pct)).1.
Proof.
  intros H. unfold estimateFlashPoint.
  destruct (Qle_bool pct 0) eqn:E; [qprops; exfalso; lra |].
  destruct (classify (interpolate points pct)); split; reflexivity.
Qed.

(** C4, as the code has it: no estimate and [Safe] exactly at or below 0 %;
    above 0 % the temperature interpolated on the fixed curve (13 from 100 %
    on), rated [High] below 23, [Flammable] in [23, 60), [Low] from 60.  At
    70 % the estimate is 21, which lies below 23: the rating there is [High]. *)
Theorem flash_point_estimate (pct : Q) :
  points = [ (0, 100); (5, 62); (10, 49); (20, 36); (30, 29); (40, 26);
             (50, 24); (60, 22); (70, 21); (80, 20); (90, 17); (100, 13) ]
  /\ (pct <= 0 ->
      estimateFlashPoint pct
      = FlashPoint.mk None Safe "Non-flammable solvent basis")
  /\ (FlashPoint.rating (estimateFlashPoint pct) = Safe -> pct <= 0)
  /\ (0 < pct ->
      exists c,
        FlashPoint.celsius (estimateFlashPoint pct) = Some c
        /\ (forall i p1 t1 p2 t2,
              points !! i = Some (p1, t1) -> points !! S i = Some (p2, t2) ->
              p1 <= pct -> pct <= p2 -> c == lerp p1 t1 p2 t2 pct)
        /\ (100 <= pct -> c == 13)
        /\ (c < 23 -> FlashPoint.rating (estimateFlashPoint pct) = High)
        /\ (23 <= c -> c < 60 ->
            FlashPoint.rating (estimateFlashPoint pct) = Flammable)
        /\ (60 <= c -> FlashPoint.rating (estimateFlashPoint pct) = Low))
  /\ (exists c,
        FlashPoint.celsius (estimateFlashPoint 70) = Some c /\ c == 21)
  /\ FlashPoint.rating (estimateFlashPoint 70) = High.
Proof.
  split; [reflexivity |]. split; [| split; [| split; [| split]]].
  - intros H. unfold estimateFlashPoint.
    apply Qle_bool_iff in H. now rewrite H.
  - intros H. destruct (Qlt_le_dec 0 pct) as [Hp | Hp]; [| exact Hp].
    destruct (estimateFlashPoint_positive pct Hp) as [_ Hr].
    rewrite Hr in H. now apply classify_rating in H.
  - intros Hp. exists (interpolate points pct).
    destruct (estimateFlashPoint_positive pct Hp) as [Hc Hr]. rewrite Hr.
    destruct (classify_rating (interpolate points pct)) as (H1 & H2 & H3 & _).
    repeat split; try assumption.
    + intros i p1 t1 p2 t2. now apply interpolate_bracket.
    + intros H. curve_cases pct Hp; qconst; lra.
  - exists (interpolate points 70). split; reflexivity.
  - reflexivity.
Qed.

Lemma flash_point_estimate_witness :
  exists c,
    FlashPoint.celsius (estimateFlashPoint 45) = Some c
    /\ c == lerp 40 26 50 24 45
    /\ FlashPoint.rating (estimateFlashPoint 45) = Flammable.
Proof.
  destruct (flash_point_estimate 45) as (_ & _ & _ & H & _).
  destruct H as (c & Hc & Hl & _ & _ & Hf & _); [reflexivity |].
  exists c. split; [exact Hc |].
  assert (Hv : c == lerp 40 26 50 24 45).
  { apply (Hl 5%nat); [reflexivity | reflexivity | discriminate | discriminate]. }
  split; [exact Hv |].
  apply Hf; rewrite Hv; unfold lerp; [discriminate | reflexivity].
Defined.

(** C4, the example at 70 % as stated: the estimate is 21 but the
    rating is not [Flammable]. *)
Lemma flash_point_70_not_flammable :
  (exists c, FlashPoint.celsius (estimateFlashPoint 70) = Some c /\ c == 21)
  /\ FlashPoint.rating (estimateFlashPoint 70) <> Flammable.
Proof.
  split; [| discriminate].
  exists (interpolate points 70). split; reflexivity.
Qed.

(** C8: for 0 < x <= y both estimates exist and the one at y is not above
    the one at x. *)
Theorem flash_point_monotone (x y : Q) :
  0 < x -> x <= y ->
  exists cx cy,
    FlashPoint.celsius (estimateFlashPoint x) = Some cx
    /\ FlashPoint.celsius (estimateFlashPoint y) = Some cy
    /\ cy <= cx.
Proof.
  intros Hx Hxy. assert (Hy : 0 < y) by lra.
  exists (interpolate points x), (interpolate points y).
  destruct (estimateFlashPoint_positive x Hx) as [-> _].
  destruct (estimateFlashPoint_positive y Hy) as [-> _].
  split; [reflexivity |]. split; [reflexivity |].
  now apply interpolate_antitone.
Qed.

Lemma flash_point_monotone_witness :
  exists cx cy,
    FlashPoint.celsius (estimateFlashPoint 30) = Some cx
    /\ FlashPoint.celsius (estimateFlashPoint 75) = Some cy
    /\ cy <= cx.
Proof.
  apply (flash_point_monotone 30 75); [reflexivity | discriminate].
Defined.

(** ** Insertion-ordered maps and the stable sort *)

Section OrderedFacts.
Context {V : Type}.
Implicit Types (m : list (string * V)) (k : string) (v : V).

Lemma get_set_eq m k v : Js.get (Js.set m k v) k = Some v.
Proof.
  induction m as [| [k' v'] m IH]; cbn.
  - now rewrite String.eqb_refl.
  - destruct (String.eqb k' k) eqn:E; cbn.
    + now rewrite String.eqb_refl.
    + now rewrite E.
Qed.

Lemma get_set_ne m k k' v : k <> k' -> Js.get (Js.set m k v) k' = Js.get m k'.
Proof.
  intros Hne. induction m as [| [k0 v0] m IH]; cbn.
  - apply String.eqb_neq in Hne. now rewrite Hne.
  - destruct (String.eqb k0 k) eqn:E; cbn.
    + apply String.eqb_eq in E. subst k0.
      apply String.eqb_neq in Hne. now rewrite Hne.
    + now rewrite IH.
Qed.

Lemma get_None_keys m k : Js.get m k = None <-> k ∉ m.*1.
Proof.
  induction m as [| [k' v'] m IH]; cbn.
  - split; [intros _; apply not_elem_of_nil | reflexivity].
  - rewrite not_elem_of_cons. destruct (String.eqb k' k) eqn:E.
    + apply String.eqb_eq in E. split; [discriminate | intros [H _]; congruence].
    + apply String.eqb_neq in E. rewrite IH. split; [split; congruence | tauto].
Qed.

Lemma get_Some_elem m k v : Js.get m k = Some v -> (k, v) ∈ m.
Proof.
  induction m as [| [k' v'] m IH]; cbn; [discriminate |].
  destruct (String.eqb k' k) eqn:E.
  - apply String.eqb_eq in E. intros [= <-]. subst. apply list_elem_of_here.
  - intros H. apply list_elem_of_further. now apply IH.
Qed.

Lemma elem_get_Some m k v : NoDup m.*1 -> (k, v) ∈ m -> Js.get m k = Some v.
Proof.
  induction m as [| [k' v'] m IH]; cbn; intros Hnd Hin.
  - now apply elem_of_nil in Hin.
  - apply NoDup_cons in Hnd as [Hk Hnd].
    apply elem_of_cons in Hin as [[= -> ->] | Hin].
    + now rewrite String.eqb_refl.
    + destruct (String.eqb k' k) eqn:E; [| now apply IH].
      apply String.eqb_eq in E. subst k'. exfalso. apply Hk.
      apply list_elem_of_fmap. exists (k, v). split; [reflexivity | exact Hin].
Qed.

Lemma set_keys m k v :
  (Js.set m k v).*1
  = match Js.get m k with Some _ => m.*1 | None => (m.*1 ++ [k])%list end.
Proof.
  induction m as [| [k' v'] m IH]; cbn; [reflexivity |].
  destruct (String.eqb k' k) eqn:E; cbn.
  - apply String.eqb_eq in E. now subst.
  - rewrite IH. now destruct (Js.get m k).
Qed.

Lemma set_NoDup m k v : NoDup m.*1 -> NoDup (Js.set m k v).*1.
Proof.
  intros H. rewrite set_keys. destruct (Js.get m k) eqn:E; [exact H |].
  apply NoDup_app. split; [exact H |]. split; [| apply NoDup_singleton].
  intros x Hx Hk. apply list_elem_of_singleton in Hk. subst x.
  now apply get_None_keys in E.
Qed.
End OrderedFacts.

Section SortFacts.
Context {A : Type} (before : A -> A -> bool).

Lemma insertSorted_perm (x : A) (l : list A) :
  Js.insertSorted before x l ≡ₚ x :: l.
Proof.
  induction l as [| y l IH]; cbn; [reflexivity |].
  destruct (before y x); [| reflexivity].
  rewrite IH. apply Permutation_swap.
Qed.

Lemma sort_perm (l : list A) : Js.sort before l ≡ₚ l.
Proof.
  induction l as [| x l IH]; cbn; [reflexivity |].
  now rewrite insertSorted_perm, IH.
Qed.
End SortFacts.

(** ** Sums *)

Lemma sumQ_app (l1 l2 : list Q) : sumQ (l1 ++ l2) == sumQ l1 + sumQ l2.
Proof.
  induction l1 as [| x l1 IH]; cbn [sumQ app] in *; [ring |].
  rewrite IH. ring.
Qed.

Lemma sumQ_perm (l1 l2 : list Q) : l1 ≡ₚ l2 -> sumQ l1 == sumQ l2.
Proof.
  induction 1 as [| x l1 l2 _ IH | x y l | l1 l2 l3 _ IH1 _ IH2];
    cbn [sumQ] in *.
  - reflexivity.
  - now rewrite IH.
  - ring.
  - now rewrite IH1.
Qed.

Lemma sumQ_map_ext {A : Type} (f g : A -> Q) (l : list A) :
  (forall a, f a == g a) -> sumQ (map f l) == sumQ (map g l).
Proof.
  intros H. induction l as [| x l IH]; cbn [sumQ map]; [reflexivity |].
  now rewrite IH, H.
Qed.

Lemma sumQ_map_scale {A : Type} (f : A -> Q) (c : Q) (l : list A) :
  sumQ (map (fun a => f a * c) l) == sumQ (map f l) * c.
Proof.
  induction l as [| x l IH]; cbn [sumQ map] in *; [ring |].
  rewrite IH. ring.
Qed.

(** ** Batch statistics *)

Section Stats.
Context (INGREDIENTS : list Ingredient.t).

Lemma densityOf_spec (item : FormulaItem.t) :
  densityOf INGREDIENTS item == specDensity INGREDIENTS item.
Proof.
  unfold densityOf, specDensity, linkedIngredient, Js.truthy.
  destruct (FormulaItem.customDensity item); [reflexivity |].
  destruct (FormulaItem.ingredientId item) as [[| c i] |]; cbn [String.eqb];
    try reflexivity.
  destruct (find _ INGREDIENTS); reflexivity.
Qed.

Lemma stats_fold (formula : list FormulaItem.t) :
  forall st,
    let st' := fold_left (statsStep INGREDIENTS) formula st in
    StatsState.totalWeight st'
    == StatsState.totalWeight st + sumOver FormulaItem.weight formula
    /\ StatsState.totalVolume st'
       == StatsState.totalVolume st
          + sumOver (fun i => FormulaItem.weight i / specDensity INGREDIENTS i)
                    formula
    /\ StatsState.totalCost st'
       == StatsState.totalCost st
          + sumOver (fun i => FormulaItem.weight i / 1000
                              * FormulaItem.costPerKg i) formula
    /\ StatsState.concentrateMass st'
       == StatsState.concentrateMass st
          + sumOver (fun i => FormulaItem.weight i * FormulaItem.dilution i)
                    formula.
Proof.
  unfold sumOver.
  induction formula as [| item formula IH]; intros st; cbn [fold_left map sumQ].
  - repeat split; ring.
  - destruct (IH (statsStep INGREDIENTS st item)) as (H1 & H2 & H3 & H4).
    cbv zeta in *. rewrite H1, H2, H3, H4. clear.
    cbn [statsStep StatsState.totalWeight StatsState.totalVolume
         StatsState.totalCost StatsState.concentrateMass].
    rewrite densityOf_spec. repeat split; ring.
Qed.

Lemma calculateStats_sums (formula : list FormulaItem.t) :
  FormulationStats.totalWeight (calculateStats INGREDIENTS formula)
  == sumOver FormulaItem.weight formula
  /\ FormulationStats.totalVolume (calculateStats INGREDIENTS formula)
     == sumOver (fun i => FormulaItem.weight i / specDensity INGREDIENTS i)
                formula
  /\ FormulationStats.totalCost (calculateStats INGREDIENTS formula)
     == sumOver (fun i => FormulaItem.weight i / 1000
                          * FormulaItem.costPerKg i) formula
  /\ FormulationStats.concentrateMass (calculateStats INGREDIENTS formula)
     == sumOver (fun i => FormulaItem.weight i * FormulaItem.dilution i)
                formula.
Proof.
  destruct (stats_fold formula (StatsState.mk 0 0 0 0)) as (H1 & H2 & H3 & H4).
  cbv zeta in *.
  cbn [StatsState.totalWeight StatsState.totalVolume StatsState.totalCost
       StatsState.concentrateMass] in *.
  unfold calculateStats.
  cbn [FormulationStats.totalWeight FormulationStats.totalVolume
       FormulationStats.totalCost FormulationStats.concentrateMass].
  rewrite H1, H2, H3, H4. repeat split; ring.
Qed.

(** C3: the four totals of [calculateStats] are the sums over the items,
    with the density resolved as custom, else linked master, else 1; on
    the empty formula they are all zero. *)
Theorem calculateStats_totals (formula : list FormulaItem.t) :
  FormulationStats.totalWeight (calculateStats INGREDIENTS formula)
  == sumOver FormulaItem.weight formula
  /\ FormulationStats.totalVolume (calculateStats INGREDIENTS formula)
     == sumOver (fun i => FormulaItem.weight i / specDensity INGREDIENTS i)
                formula
  /\ FormulationStats.totalCost (calculateStats INGREDIENTS formula)
     == sumOver (fun i => FormulaItem.weight i / 1000
                          * FormulaItem.costPerKg i) formula
  /\ FormulationStats.concentrateMass (calculateStats INGREDIENTS formula)
     == sumOver (fun i => FormulaItem.weight i * FormulaItem.dilution i)
                formula
  /\ FormulationStats.totalWeight (calculateStats INGREDIENTS []) = 0
  /\ FormulationStats.totalVolume (calculateStats INGREDIENTS []) = 0
  /\ FormulationStats.totalCost (calculateStats INGREDIENTS []) = 0
  /\ FormulationStats.concentrateMass (calculateStats INGREDIENTS []) = 0.
Proof.
  destruct (calculateStats_sums formula) as (H1 & H2 & H3 & H4).
  repeat split; (assumption || reflexivity).
Qed.

(** The carrier mass of a formula: what separates the total weight from
    the concentrate. *)
Lemma carrier_sum (formula : list FormulaItem.t) :
  sumOver FormulaItem.weight formula
  - sumOver (fun i => FormulaItem.weight i * FormulaItem.dilution i) formula
  == sumOver (fun i => FormulaItem.weight i * (1 - FormulaItem.dilution i))
             formula.
Proof.
  unfold sumOver. induction formula as [| i formula IH]; cbn [map sumQ].
  - ring.
  - rewrite <- IH. ring.
Qed.

Lemma carrier_nonneg (formula : list FormulaItem.t) :
  Forall (fun i => 0 <= FormulaItem.weight i
                   /\ 0 < FormulaItem.dilution i
                   /\ FormulaItem.dilution i <= 1) formula ->
  0 <= sumOver (fun i => FormulaItem.weight i * (1 - FormulaItem.dilution i))
               formula
  /\ (sumOver (fun i => FormulaItem.weight i * (1 - FormulaItem.dilution i))
              formula == 0
      <-> Forall (fun i => 0 < FormulaItem.weight i ->
                           FormulaItem.dilution i == 1) formula).
Proof.
  unfold sumOver. induction 1 as [| i formula (Hw & Hd0 & Hd1) _ [IH1 IH2]];
    cbn [map sumQ].
  - split; [lra |]. split; [constructor | reflexivity].
  - set (w := FormulaItem.weight i) in *.
    set (d := FormulaItem.dilution i) in *.
    assert (Hi : 0 <= w * (1 - d)) by nra.
    split; [lra |]. rewrite Forall_cons, <- IH2. fold w d. split.
    + intros H. split; [| lra].
      intros Hpos. assert (Hz : w * (1 - d) == 0) by lra.
      apply Qmult_integral in Hz. destruct Hz; lra.
    + intros [Hd Hs]. rewrite Hs.
      destruct (Qlt_le_dec 0 w) as [Hpos | Hle].
      * rewrite (Hd Hpos). ring.
      * assert (Hz : w == 0) by lra. rewrite Hz. ring.
Qed.

(** C7, as the code has it: with non-negative weights and dilutions in
    (0, 1] the concentrate never exceeds the total weight, and equals it
    exactly when every item that has some weight is neat. *)
Theorem concentrate_le_total (formula : list FormulaItem.t) :
  Forall (fun i => 0 <= FormulaItem.weight i
                   /\ 0 < FormulaItem.dilution i
                   /\ FormulaItem.dilution i <= 1) formula ->
  FormulationStats.concentrateMass (calculateStats INGREDIENTS formula)
  <= FormulationStats.totalWeight (calculateStats INGREDIENTS formula)
  /\ (FormulationStats.concentrateMass (calculateStats INGREDIENTS formula)
      == FormulationStats.totalWeight (calculateStats INGREDIENTS formula)
      <-> Forall (fun i => 0 < FormulaItem.weight i ->
                           FormulaItem.dilution i == 1) formula).
Proof.
  intros Hwf.
  destruct (calculateStats_sums formula) as (Hw & _ & _ & Hc).
  destruct (carrier_nonneg formula Hwf) as [H1 H2].
  pose proof (carrier_sum formula) as Hs.
  rewrite Hw, Hc, <- H2. split; [lra |]. split; intros H; lra.
Qed.

End Stats.

Lemma concentrate_le_total_witness :
  FormulationStats.concentrateMass
    (calculateStats [] [Sample.tincture; Sample.neatMusk])
  <= FormulationStats.totalWeight
       (calculateStats [] [Sample.tincture; Sample.neatMusk]).
Proof.
  apply (concentrate_le_total [] [Sample.tincture; Sample.neatMusk]).
  repeat constructor; cbn; lra.
Defined.

(** C7, the equality case as stated: an unweighed dilution next to a neat
    item leaves concentrate and total equal, although not every item is
    neat and the batch has weight. *)
Lemma concentrate_equal_not_all_neat :
  let formula := [Sample.unweighedDilution; Sample.neatMusk] in
  Forall (fun i => 0 < FormulaItem.dilution i /\ FormulaItem.dilution i <= 1)
         formula
  /\ FormulationStats.concentrateMass (calculateStats [] formula)
     == FormulationStats.totalWeight (calculateStats [] formula)
  /\ ~ Forall (fun i => FormulaItem.dilution i == 1) formula
  /\ ~ FormulationStats.totalWeight (calculateStats [] formula) == 0.
Proof.
  cbv zeta. repeat split.
  - repeat constructor; cbn; lra.
  - intros H. apply Forall_cons in H as [H _]. cbn in H. lra.
  - discriminate.
Qed.

(** ** The compliance report on a batch without weight *)

(** C6: a zero batch weight gives the empty report for every formula and
    category, and the empty formula, whose total weight is 0, gives the
    empty report. *)
Theorem checkCompliance_zero_batch
    (INGREDIENTS : list Ingredient.t) (IFRA_LIBRARY : gmap string IFRAEntry.t)
    (formula : list FormulaItem.t) (totalBatchWeight : Q)
    (targetCategory : string) :
  (totalBatchWeight == 0 ->
   checkCompliance IFRA_LIBRARY formula totalBatchWeight targetCategory = [])
  /\ FormulationStats.totalWeight (calculateStats INGREDIENTS []) = 0
  /\ checkCompliance IFRA_LIBRARY []
       (FormulationStats.totalWeight (calculateStats INGREDIENTS []))
       targetCategory = [].
Proof.
  split; [| split; reflexivity].
  intros H. unfold checkCompliance.
  apply Qeq_bool_iff in H. now rewrite H.
Qed.

Lemma checkCompliance_zero_batch_witness :
  checkCompliance ∅ [Sample.bergamot; Sample.neatMusk] (0 # 5) "4" = [].
Proof.
  refine (proj1 (checkCompliance_zero_batch
                   [] ∅ [Sample.bergamot; Sample.neatMusk] (0 # 5) "4") _).
  reflexivity.
Defined.

(** ** The solvent analysis *)

Lemma orNum_nonzero (x d : Q) : ~ x == 0 -> Js.orNum x d = x.
Proof.
  intros H. unfold Js.orNum. apply Qeq_bool_false in H. now rewrite H.
Qed.

Lemma normalizeSolventName_None (name : string) :
  normalizeSolventName name = "None" <-> name = "None".
Proof.
  split.
  - unfold normalizeSolventName.
    repeat match goal with
      | |- context [if ?b then _ else _] => destruct b
      end; try discriminate; trivial.
  - intros ->. reflexivity.
Qed.

Lemma taggedSolvent_test (item : FormulaItem.t) :
  String.eqb (FormulaItem.family item) "Solvent"
  || String.eqb (FormulaItem.note item) "Solvent" = true
  <-> taggedSolvent item.
Proof.
  unfold taggedSolvent. rewrite orb_true_iff, !String.eqb_eq. reflexivity.
Qed.

Lemma massesOf_set (m : list (string * SolventData.t)) (k : string)
    (v : SolventData.t) :
  sumQ (massesOf (Js.set m k v))
  == sumQ (massesOf m)
     - SolventData.mass (default (SolventData.mk 0 0) (Js.get m k))
     + SolventData.mass v.
Proof.
  unfold massesOf.
  induction m as [| [k' v'] m IH]; cbn [Js.get Js.set map sumQ snd].
  - cbn [from_option SolventData.mass]. ring.
  - destruct (String.eqb k' k); cbn [map sumQ snd from_option id].
    + ring.
    + rewrite IH. ring.
Qed.

(** What one pass of the loop body does to the state, in terms of the
    name and mass the two cases have produced. *)
Lemma accumulateSolvent_effect (st : SolventState.t) (item : FormulaItem.t) :
  let name := (solventContribution item).1 in
  let addedMass := (solventContribution item).2 in
  let st' := accumulateSolvent st item in
  (0 < addedMass -> name <> "None" ->
   SolventState.totalSolventMass st'
   = SolventState.totalSolventMass st + addedMass
   /\ carrierMass st' name = carrierMass st name + addedMass
   /\ (forall other, other <> name -> carrierMass st' other = carrierMass st other)
   /\ (SolventState.solventMap st').*1
      = match Js.get (SolventState.solventMap st) name with
        | Some _ => (SolventState.solventMap st).*1
        | None => ((SolventState.solventMap st).*1 ++ [name])%list
        end
   /\ sumQ (massesOf (SolventState.solventMap st'))
      == sumQ (massesOf (SolventState.solventMap st)) + addedMass)
  /\ (~ (0 < addedMass /\ name <> "None") -> st' = st).
Proof.
  cbv zeta. unfold accumulateSolvent, carrierMass.
  destruct (solventContribution item) as [name addedMass]. cbn [fst snd].
  destruct (Js.Qltb 0 addedMass) eqn:Em; qprops;
    [destruct (String.eqb name "None") eqn:En |]; cbn [andb negb].
  - apply String.eqb_eq in En. split; [intros _ H; contradiction | reflexivity].
  - apply String.eqb_neq in En. split; [intros _ _ | tauto].
    cbn [SolventState.totalSolventMass SolventState.solventMap].
    split; [reflexivity |]. split; [now rewrite get_set_eq |].
    split; [intros other Ho; now rewrite get_set_ne by congruence |].
    split; [apply set_keys |].
    rewrite massesOf_set. cbn [SolventData.mass]. ring.
  - split; [intros H; exfalso; lra | reflexivity].
Qed.

Lemma accumulateSolvent_invariant (st : SolventState.t) (item : FormulaItem.t) :
  NoDup (SolventState.solventMap st).*1 ->
  sumQ (massesOf (SolventState.solventMap st))
  == SolventState.totalSolventMass st ->
  NoDup (SolventState.solventMap (accumulateSolvent st item)).*1
  /\ sumQ (massesOf (SolventState.solventMap (accumulateSolvent st item)))
     == SolventState.totalSolventMass (accumulateSolvent st item).
Proof.
  intros Hnd Hsum.
  destruct (accumulateSolvent_effect st item) as [Hyes Hno]. cbv zeta in *.
  destruct (Qlt_le_dec 0 (solventContribution item).2) as [Hm | Hm];
    [destruct (decide ((solventContribution item).1 = "None")) as [Hn | Hn] |].
  - rewrite Hno by tauto. now split.
  - destruct (Hyes Hm Hn) as (Ht & _ & _ & Hk & Hs). split.
    + rewrite Hk.
      destruct (Js.get (SolventState.solventMap st) _) eqn:E; [exact Hnd |].
      apply NoDup_app. split; [exact Hnd |]. split; [| apply NoDup_singleton].
      intros x Hx Hx'. apply list_elem_of_singleton in Hx'. subst x.
      now apply get_None_keys in E.
    + rewrite Hs, Ht, Hsum. reflexivity.
  - rewrite Hno; [now split |]. intros [H _]. lra.
Qed.

Lemma solventLoop_invariant (formula : list FormulaItem.t) :
  NoDup (SolventState.solventMap (solventLoop formula)).*1
  /\ sumQ (massesOf (SolventState.solventMap (solventLoop formula)))
     == SolventState.totalSolventMass (solventLoop formula).
Proof.
  unfold solventLoop.
  assert (H0 : NoDup (SolventState.solventMap (SolventState.mk [] 0 0)).*1
               /\ sumQ (massesOf (SolventState.solventMap
                                    (SolventState.mk [] 0 0)))
                  == SolventState.totalSolventMass (SolventState.mk [] 0 0)).
  { split; [apply NoDup_nil_2 | reflexivity]. }
  revert H0. generalize (SolventState.mk [] 0 0).
  induction formula as [| item formula IH]; intros st [H1 H2];
    cbn [fold_left]; [now split |].
  apply IH. now apply accumulateSolvent_invariant.
Qed.

Lemma breakdown_perm (formula : list FormulaItem.t) :
  SolventAnalysis.breakdown (calculateSolventBreakdown formula)
  ≡ₚ map (breakdownEntry
            (SolventState.totalSolventMass (solventLoop formula))
            (SolventState.totalSolventVolume (solventLoop formula)))
         (SolventState.solventMap (solventLoop formula)).
Proof.
  unfold calculateSolventBreakdown. cbn [SolventAnalysis.breakdown].
  apply sort_perm.
Qed.

Lemma breakdown_names (formula : list FormulaItem.t) :
  NoDup (map SolventBreakdownEntry.name
           (SolventAnalysis.breakdown (calculateSolventBreakdown formula))).
Proof.
  rewrite breakdown_perm, map_map.
  destruct (solventLoop_invariant formula) as [H _].
  erewrite map_ext; [exact H |]. now intros [k v].
Qed.

(** C9: the masses of the breakdown rows add up to [totalSolventMass], and
    their mass percentages to 100 whenever that total is positive. *)
Theorem solvent_breakdown_sums (formula : list FormulaItem.t) :
  sumQ (map SolventBreakdownEntry.mass
          (SolventAnalysis.breakdown (calculateSolventBreakdown formula)))
  == SolventAnalysis.totalSolventMass (calculateSolventBreakdown formula)
  /\ (0 < SolventAnalysis.totalSolventMass (calculateSolventBreakdown formula) ->
      sumQ (map SolventBreakdownEntry.massPct
              (SolventAnalysis.breakdown (calculateSolventBreakdown formula)))
      == 100).
Proof.
  destruct (solventLoop_invariant formula) as [_ Hsum].
  pose proof (breakdown_perm formula) as Hp.
  change (SolventAnalysis.totalSolventMass (calculateSolventBreakdown formula))
    with (SolventState.totalSolventMass (solventLoop formula)).
  set (T := SolventState.totalSolventMass (solventLoop formula)) in *.
  set (V := SolventState.totalSolventVolume (solventLoop formula)) in *.
  split.
  - rewrite (sumQ_perm _ _ (Permutation_map _ Hp)), map_map, <- Hsum.
    unfold massesOf. erewrite map_ext; [reflexivity |]. now intros [k v].
  - intros HT.
    rewrite (sumQ_perm _ _ (Permutation_map _ Hp)), map_map.
    rewrite (sumQ_map_ext _ (fun kv => SolventData.mass kv.2 * (/ T * 100))).
    + rewrite sumQ_map_scale. fold (massesOf (SolventState.solventMap
                                                (solventLoop formula))).
      rewrite Hsum. field. lra.
    + intros [k v]. unfold breakdownEntry.
      cbn [SolventBreakdownEntry.massPct snd].
      apply Qltb_lt in HT. rewrite HT. unfold Qdiv. ring.
Qed.

Lemma solvent_breakdown_sums_witness :
  sumQ (map SolventBreakdownEntry.massPct
          (SolventAnalysis.breakdown
             (calculateSolventBreakdown
                [Sample.tincture; Sample.perfumersAlcohol;
                 Sample.unweighedDilution])))
  == 100.
Proof.
  apply (solvent_breakdown_sums
           [Sample.tincture; Sample.perfumersAlcohol;
            Sample.unweighedDilution]).
  reflexivity.
Defined.

Lemma unique_by_name (b : list SolventBreakdownEntry.t)
    (e e' : SolventBreakdownEntry.t) :
  NoDup (map SolventBreakdownEntry.name b) ->
  e ∈ b -> e' ∈ b ->
  SolventBreakdownEntry.name e = SolventBreakdownEntry.name e' -> e = e'.
Proof.
  induction b as [| x b IH]; cbn [map]; intros Hnd He He' Hn.
  - now apply elem_of_nil in He.
  - apply NoDup_cons in Hnd as [Hx Hnd].
    apply elem_of_cons in He as [-> | He];
      apply elem_of_cons in He' as [-> | He']; [reflexivity | | | now apply IH];
      exfalso; apply Hx; apply list_elem_of_fmap.
    + exists e'. now split.
    + exists e. now split.
Qed.

(** C10: the legacy [ethanolMass] is the mass of the breakdown row named
    Ethanol of the embedded analysis (there is at most one such row), and 0
    when there is none. *)
Theorem ethanolMass_legacy (INGREDIENTS : list Ingredient.t)
    (formula : list FormulaItem.t) :
  let stats := calculateStats INGREDIENTS formula in
  let breakdown :=
    SolventAnalysis.breakdown (FormulationStats.solventAnalysis stats) in
  FormulationStats.solventAnalysis stats = calculateSolventBreakdown formula
  /\ (forall e, e ∈ breakdown -> SolventBreakdownEntry.name e = "Ethanol" ->
                FormulationStats.ethanolMass stats
                = SolventBreakdownEntry.mass e)
  /\ ((forall e, e ∈ breakdown -> SolventBreakdownEntry.name e <> "Ethanol") ->
      FormulationStats.ethanolMass stats = 0).
Proof.
  cbv zeta. unfold calculateStats.
  cbn [FormulationStats.solventAnalysis FormulationStats.ethanolMass].
  split; [reflexivity |].
  pose proof (breakdown_names formula) as Hnd.
  set (b := SolventAnalysis.breakdown (calculateSolventBreakdown formula)) in *.
  destruct (find isEthanol b) as [e' |] eqn:E.
  - apply find_some in E as [Hin He']. apply list_elem_of_In in Hin.
    apply String.eqb_eq in He'. split.
    + intros e He Hn. f_equal. apply (unique_by_name b); try assumption.
      congruence.
    + intros H. now destruct (H e' Hin).
  - split; [| reflexivity].
    intros e He Hn. apply list_elem_of_In in He.
    pose proof (find_none _ _ E e He) as Hf.
    unfold isEthanol in Hf. apply String.eqb_neq in Hf. contradiction.
Qed.

Lemma ethanolMass_legacy_witness :
  FormulationStats.ethanolMass
    (calculateStats [] [Sample.tincture; Sample.neatMusk]) = 10 * (1 - 0.2)
  /\ FormulationStats.ethanolMass (calculateStats [] [Sample.neatMusk]) = 0.
Proof.
  split.
  - refine (proj1 (proj2 (ethanolMass_legacy
                            [] [Sample.tincture; Sample.neatMusk]))
              (SolventBreakdownEntry.mk "Ethanol" (0 + 10 * (1 - 0.2))
                 (0 + 10 * (1 - 0.2) / 0.789)
                 ((0 + 10 * (1 - 0.2)) / (0 + 10 * (1 - 0.2)) * 100)
                 ((0 + 10 * (1 - 0.2) / 0.789)
                  / (0 + 10 * (1 - 0.2) / 0.789) * 100)) _ _).
    + apply list_elem_of_here.
    + reflexivity.
  - refine (proj2 (proj2 (ethanolMass_legacy [] [Sample.neatMusk])) _).
    intros e He. now apply elem_of_nil in He.
Defined.

Lemma declaredCarrier_code (item : FormulaItem.t) :
  (let solventName := Js.orStr (FormulaItem.solvent item) "Ethanol" in
   if String.eqb solventName "None" then "Ethanol" else solventName)
  = declaredCarrier item.
Proof.
  unfold declaredCarrier. destruct (FormulaItem.solvent item); reflexivity.
Qed.

Lemma declaredCarrier_not_None (item : FormulaItem.t) :
  declaredCarrier item <> "None".
Proof.
  unfold declaredCarrier.
  destruct (String.eqb (FormulaItem.solvent item) "") eqn:E1;
    [discriminate |].
  destruct (String.eqb (FormulaItem.solvent item) "None") eqn:E2;
    [discriminate |].
  now apply String.eqb_neq in E2.
Qed.

Lemma solventContribution_diluted (item : FormulaItem.t) :
  ~ FormulaItem.dilution item == 0 -> FormulaItem.dilution item < 1 ->
  solventCase item = DilutedCarrier
  /\ solventContribution item
     = (declaredCarrier item,
        FormulaItem.weight item * (1 - FormulaItem.dilution item)).
Proof.
  intros H0 H1. unfold solventContribution, solventCase.
  rewrite (orNum_nonzero _ _ H0). apply Qltb_lt in H1. rewrite H1.
  split; [reflexivity |]. now rewrite <- declaredCarrier_code.
Qed.

Lemma solventContribution_neat (item : FormulaItem.t) :
  FormulaItem.dilution item == 1 ->
  (taggedSolvent item ->
   solventCase item = DirectSolvent
   /\ solventContribution item
      = (normalizeSolventName (FormulaItem.name item), FormulaItem.weight item))
  /\ (~ taggedSolvent item ->
      solventCase item = NoSolvent /\ solventContribution item = ("None", 0)).
Proof.
  intros H1. unfold solventContribution, solventCase.
  rewrite orNum_nonzero by (rewrite H1; discriminate).
  assert (E1 : Js.Qltb (FormulaItem.dilution item) 1 = false)
    by (apply Qltb_ge; rewrite H1; discriminate).
  apply Qeq_bool_iff in H1. rewrite E1, H1, andb_true_r.
  pose proof (taggedSolvent_test item) as Ht.
  destruct (_ || _); split; intros H; try (split; reflexivity).
  - destruct H. now apply Ht.
  - assert (false = true) by now apply Ht. discriminate.
Qed.

(** C5, as the code has it.  An item of non-negative weight whose dilution
    is below 1 (and not 0) goes through the diluted-carrier case only and
    adds weight x (1 - dilution) under its declared carrier.  An item of
    positive weight and dilution 1 adds its full weight exactly when it is
    tagged Solvent and is not itself named None, the word the accumulation
    step discards; otherwise it leaves the analysis untouched. *)
Theorem solvent_contribution_cases (st : SolventState.t) (item : FormulaItem.t) :
  let w := FormulaItem.weight item in
  let d := FormulaItem.dilution item in
  let st' := accumulateSolvent st item in
  (0 <= w -> ~ d == 0 -> d < 1 ->
   solventCase item = DilutedCarrier
   /\ SolventState.totalSolventMass st'
      == SolventState.totalSolventMass st + w * (1 - d)
   /\ carrierMass st' (declaredCarrier item)
      == carrierMass st (declaredCarrier item) + w * (1 - d)
   /\ (forall other, other <> declaredCarrier item ->
                     carrierMass st' other = carrierMass st other))
  /\ (0 < w -> d == 1 ->
      solventCase item <> DilutedCarrier
      /\ (taggedSolvent item /\ FormulaItem.name item <> "None"
          <-> SolventState.totalSolventMass st'
              == SolventState.totalSolventMass st + w)
      /\ (taggedSolvent item -> FormulaItem.name item <> "None" ->
          solventCase item = DirectSolvent
          /\ carrierMass st' (normalizeSolventName (FormulaItem.name item))
             == carrierMass st (normalizeSolventName (FormulaItem.name item))
                + w
          /\ (forall other,
                other <> normalizeSolventName (FormulaItem.name item) ->
                carrierMass st' other = carrierMass st other))
      /\ (~ (taggedSolvent item /\ FormulaItem.name item <> "None") ->
          st' = st)).
Proof.
  cbv zeta.
  destruct (accumulateSolvent_effect st item) as [Hyes Hno]. cbv zeta in *.
  split.
  - intros Hw H0 H1.
    destruct (solventContribution_diluted item H0 H1) as [Hc Hs].
    rewrite Hs in Hyes, Hno. cbn [fst snd] in *.
    split; [exact Hc |].
    destruct (Qlt_le_dec 0 (FormulaItem.weight item
                            * (1 - FormulaItem.dilution item))) as [Hm | Hm].
    + destruct (Hyes Hm (declaredCarrier_not_None item)) as (Ht & Hn & Ho & _).
      rewrite Ht, Hn. repeat split; try reflexivity. exact Ho.
    + assert (Hz : FormulaItem.weight item * (1 - FormulaItem.dilution item)
                   == 0) by nra.
      rewrite Hno by (intros [H _]; lra). rewrite Hz.
      repeat split; try ring; reflexivity.
  - intros Hw H1.
    destruct (solventContribution_neat item H1) as [Htag Hnot].
    assert (Hsame : accumulateSolvent st item = st ->
                    ~ SolventState.totalSolventMass (accumulateSolvent st item)
                      == SolventState.totalSolventMass st
                         + FormulaItem.weight item).
    { intros -> H. lra. }
    destruct (decide (FormulaItem.family item = "Solvent"
                      \/ FormulaItem.note item = "Solvent")) as [Ht | Ht].
    + destruct (Htag Ht) as [Hc Hs]. rewrite Hs in Hyes, Hno.
      cbn [fst snd] in *. rewrite Hc.
      split; [discriminate |].
      destruct (decide (FormulaItem.name item = "None")) as [Hn | Hn].
      * assert (Hst : accumulateSolvent st item = st).
        { apply Hno. intros [_ H]. apply H.
          now apply normalizeSolventName_None. }
        split; [split; [tauto | intros H; now apply Hsame in H] |].
        split; [tauto | intros _; exact Hst].
      * assert (Hn' : normalizeSolventName (FormulaItem.name item) <> "None")
          by now rewrite normalizeSolventName_None.
        destruct (Hyes Hw Hn') as (Ht' & Hm & Ho & _).
        split; [split; [intros _; now rewrite Ht' | intros _; now split] |].
        split; [intros _ _; rewrite Hm; now repeat split |].
        intros H. exfalso. apply H. now split.
    + destruct (Hnot Ht) as [Hc Hs]. rewrite Hs in Hno. cbn [fst snd] in *.
      rewrite Hc. split; [discriminate |].
      assert (Hst : accumulateSolvent st item = st)
        by (apply Hno; intros [H _]; lra).
      split; [split; [tauto | intros H; now apply Hsame in H] |].
      split; [tauto | intros _; exact Hst].
Qed.

Lemma solvent_contribution_cases_witness :
  SolventState.totalSolventMass
    (accumulateSolvent (SolventState.mk [] 0 0) Sample.tincture)
  == 0 + 10 * (1 - 0.2)
  /\ SolventState.totalSolventMass
       (accumulateSolvent (SolventState.mk [] 0 0) Sample.perfumersAlcohol)
     == 0 + 80.
Proof.
  split.
  - destruct (proj1 (solvent_contribution_cases
                       (SolventState.mk [] 0 0) Sample.tincture))
      as (_ & H & _); [discriminate | discriminate | reflexivity | exact H].
  - destruct (proj2 (solvent_contribution_cases
                       (SolventState.mk [] 0 0) Sample.perfumersAlcohol))
      as (_ & H & _); [reflexivity | reflexivity |].
    apply H. split; [now left | discriminate].
Defined.

(** C5, the second half as stated: a line tagged Solvent, neat, weighing
    10 g and named None adds nothing to the analysis. *)
Lemma solvent_named_None_not_counted :
  taggedSolvent Sample.solventNamedNone
  /\ FormulaItem.dilution Sample.solventNamedNone == 1
  /\ FormulaItem.weight Sample.solventNamedNone == 10
  /\ SolventAnalysis.totalSolventMass
       (calculateSolventBreakdown [Sample.solventNamedNone]) = 0
  /\ SolventAnalysis.breakdown
       (calculateSolventBreakdown [Sample.solventNamedNone]) = [].
Proof.
  repeat split. now left.
Qed.

(** ** The compliance check *)

Lemma attribute_mass (st : CasState.t) (cas : string) (m : Q)
    (source other : string) :
  casMass (attribute st cas m source) other
  == casMass st other + (if String.eqb cas other then m else 0).
Proof.
  unfold casMass, attribute. cbn [CasState.massByCas].
  destruct (String.eqb cas other) eqn:E.
  - apply String.eqb_eq in E. subst other. rewrite get_set_eq.
    destruct (Js.get (CasState.massByCas st) cas); cbn [from_option id].
    + now rewrite orNum_zero.
    + reflexivity.
  - apply String.eqb_neq in E. rewrite get_set_ne by exact E. ring.
Qed.

Lemma attribute_NoDup (st : CasState.t) (cas : string) (m : Q)
    (source : string) :
  NoDup (CasState.massByCas st).*1 ->
  NoDup (CasState.massByCas (attribute st cas m source)).*1.
Proof. apply set_NoDup. Qed.

Lemma attributeItem_mass (st : CasState.t) (item : FormulaItem.t)
    (cas : string) :
  casMass (attributeItem st item) cas
  == casMass st cas + directMass item cas + hiddenMass item cas.
Proof.
  unfold attributeItem, directMass, hiddenMass.
  set (realMass := FormulaItem.weight item * FormulaItem.dilution item).
  set (directCas := Js.trim (FormulaItem.cas item)).
  set (direct := negb (String.eqb directCas "")
                 && negb (String.eqb directCas "Mixture")).
  set (st1 := if direct then attribute st directCas realMass _ else st).
  assert (H1 : casMass st1 cas
               == casMass st cas
                  + (if direct && String.eqb directCas cas
                     then realMass else 0)).
  { subst st1. destruct direct; cbn [andb].
    - apply attribute_mass.
    - ring. }
  destruct (Js.truthy (FormulaItem.ingredientId item)) as [ingredientId |];
    [destruct (findNcs ingredientId) as [ncsProfile |] |];
    try (rewrite H1; ring).
  rewrite <- H1. generalize st1. clear.
  induction (NCS.constituents ncsProfile) as [| k ks IH]; intros s;
    cbn [fold_left map sumQ].
  - ring.
  - rewrite IH, attribute_mass. ring.
Qed.

Lemma attributeItem_NoDup (st : CasState.t) (item : FormulaItem.t) :
  NoDup (CasState.massByCas st).*1 ->
  NoDup (CasState.massByCas (attributeItem st item)).*1.
Proof.
  intros H. unfold attributeItem.
  match goal with
  | |- context [if ?b then attribute st ?c ?m ?s else st] =>
      assert (H1 : NoDup (CasState.massByCas
                            (if b then attribute st c m s else st)).*1)
        by (destruct b; [now apply attribute_NoDup | exact H]);
      revert H1; generalize (if b then attribute st c m s else st)
  end.
  intros st1 H1.
  destruct (Js.truthy (FormulaItem.ingredientId item)) as [ingredientId |];
    [destruct (findNcs ingredientId) as [ncsProfile |] |]; try exact H1.
  revert st1 H1.
  induction (NCS.constituents ncsProfile) as [| k ks IH]; intros s Hs;
    cbn [fold_left]; [exact Hs |].
  apply IH. now apply attribute_NoDup.
Qed.

(** The accumulator after the loop: for every CAS number, the direct and
    the hidden contributions of all items, added up. *)
Lemma casLoop_mass (formula : list FormulaItem.t) (cas : string) :
  casMass (casLoop formula) cas
  == sumOver (fun i => directMass i cas + hiddenMass i cas) formula.
Proof.
  unfold casLoop, sumOver.
  assert (H : forall st,
             casMass (fold_left attributeItem formula st) cas
             == casMass st cas
                + sumQ (map (fun i => directMass i cas + hiddenMass i cas)
                            formula)).
  { induction formula as [| item formula IH]; intros st;
      cbn [fold_left map sumQ]; [ring |].
    rewrite IH, attributeItem_mass. ring. }
  rewrite H. unfold casMass. cbn. ring.
Qed.

Lemma casLoop_NoDup (formula : list FormulaItem.t) :
  NoDup (CasState.massByCas (casLoop formula)).*1.
Proof.
  unfold casLoop.
  assert (H : NoDup (CasState.massByCas (CasState.mk [] ∅)).*1)
    by apply NoDup_nil_2.
  revert H. generalize (CasState.mk [] ∅).
  induction formula as [| item formula IH]; intros st H; cbn [fold_left];
    [exact H |].
  apply IH. now apply attributeItem_NoDup.
Qed.

Section Compliance.
Context (IFRA_LIBRARY : gmap string IFRAEntry.t).

(** The rows of the report are the rows of the CAS numbers that have a
    mass and an entry in the library, whatever their order. *)
Lemma checkCompliance_rows (formula : list FormulaItem.t)
    (totalBatchWeight : Q) (targetCategory : string)
    (r : ComplianceResult.t) :
  ~ totalBatchWeight == 0 ->
  r ∈ checkCompliance IFRA_LIBRARY formula totalBatchWeight targetCategory
  <-> exists cas m,
        Js.get (CasState.massByCas (casLoop formula)) cas = Some m
        /\ complianceRow IFRA_LIBRARY
             (CasState.sourcesByCas (casLoop formula))
             totalBatchWeight targetCategory (cas, m) = Some r.
Proof.
  intros H. unfold checkCompliance.
  apply Qeq_bool_false in H. rewrite H.
  rewrite sort_perm, list_elem_of_omap. split.
  - intros [[cas m] [Hin Hrow]]. exists cas, m. split; [| exact Hrow].
    apply elem_get_Some; [apply casLoop_NoDup | exact Hin].
  - intros (cas & m & Hget & Hrow). exists (cas, m).
    split; [now apply get_Some_elem | exact Hrow].
Qed.

End Compliance.

Section ComplianceRows.
Context (IFRA_LIBRARY : gmap string IFRAEntry.t).

Lemma complianceRow_inv (sourcesByCas : gmap string (list string))
    (totalBatchWeight : Q) (targetCategory cas : string) (m : Q)
    (r : ComplianceResult.t) :
  complianceRow IFRA_LIBRARY sourcesByCas totalBatchWeight targetCategory
    (cas, m) = Some r
  <-> exists entry,
        IFRA_LIBRARY !! cas = Some entry
        /\ r = ComplianceResult.mk cas (IFRAEntry.name entry) m
                 (m / totalBatchWeight)
                 (limitPercentOf entry targetCategory / 100)
                 (Qle_bool (m / totalBatchWeight)
                           (limitPercentOf entry targetCategory / 100))
                 (default [] (sourcesByCas !! cas))
                 (if String.eqb (IFRAEntry.type entry) "prohibited"
                  then "Prohibited" else "Restriction").
Proof.
  unfold complianceRow. destruct (IFRA_LIBRARY !! cas) as [entry |]; split.
  - intros [= <-]. now exists entry.
  - intros (entry' & [= <-] & ->). reflexivity.
  - discriminate.
  - intros (entry' & H & _). discriminate.
Qed.

(** C1, as the code has it.  Every CAS number with accumulated mass and a
    library entry has a row, and every row comes from one.  The limit of
    the row is the entry's number for the category when the entry has
    one, even if the entry is typed prohibited; failing that it is 0 %
    for a prohibited entry and 100 % otherwise; the row is compliant
    exactly when the concentration does not exceed the limit. *)
Theorem applied_limit (formula : list FormulaItem.t) (totalBatchWeight : Q)
    (targetCategory : string) :
  ~ totalBatchWeight == 0 ->
  let report :=
    checkCompliance IFRA_LIBRARY formula totalBatchWeight targetCategory in
  let massByCas := CasState.massByCas (casLoop formula) in
  (forall cas m entry,
      Js.get massByCas cas = Some m -> IFRA_LIBRARY !! cas = Some entry ->
      exists r, r ∈ report
                /\ ComplianceResult.cas r = cas
                /\ ComplianceResult.totalMass r = m)
  /\ (forall r, r ∈ report ->
      exists entry,
        IFRA_LIBRARY !! ComplianceResult.cas r = Some entry
        /\ Js.get massByCas (ComplianceResult.cas r)
           = Some (ComplianceResult.totalMass r)
        /\ ComplianceResult.concentration r
           = ComplianceResult.totalMass r / totalBatchWeight
        /\ (ComplianceResult.isCompliant r = true
            <-> ComplianceResult.concentration r <= ComplianceResult.limit r)
        /\ (forall limits v,
              IFRAEntry.limits entry = Some limits ->
              limits !! targetCategory = Some v ->
              ComplianceResult.limit r = v / 100)
        /\ ((forall limits, IFRAEntry.limits entry = Some limits ->
                            limits !! targetCategory = None) ->
            (IFRAEntry.type entry = "prohibited" ->
             ComplianceResult.limit r = 0 / 100)
            /\ (IFRAEntry.type entry <> "prohibited" ->
                ComplianceResult.limit r = 100 / 100
                /\ (ComplianceResult.isCompliant r = true
                    <-> ComplianceResult.concentration r <= 1)))).
Proof.
  intros Hnz. cbv zeta. split.
  - intros cas m entry Hm He.
    eexists. split; [| split].
    + apply checkCompliance_rows; [exact Hnz |].
      exists cas, m. split; [exact Hm |].
      apply complianceRow_inv. exists entry. split; [exact He | reflexivity].
    + reflexivity.
    + reflexivity.
  - intros r Hr.
    apply checkCompliance_rows in Hr as (cas & m & Hm & Hrow); [| exact Hnz].
    apply complianceRow_inv in Hrow as (entry & He & ->).
    cbn [ComplianceResult.cas ComplianceResult.totalMass
         ComplianceResult.concentration ComplianceResult.limit
         ComplianceResult.isCompliant].
    exists entry. split; [exact He |]. split; [exact Hm |].
    split; [reflexivity |]. split; [apply Qle_bool_iff |].
    unfold limitPercentOf. split.
    + intros limits v -> ->. reflexivity.
    + intros Hnone.
      assert (Hl : limitPercentOf entry targetCategory
                   = if String.eqb (IFRAEntry.type entry) "prohibited"
                     then 0 else 100).
      { unfold limitPercentOf.
        destruct (IFRAEntry.limits entry) as [limits |]; [| reflexivity].
        now rewrite (Hnone limits eq_refl). }
      fold (limitPercentOf entry targetCategory). rewrite Hl. split.
      * intros Ht. apply String.eqb_eq in Ht. now rewrite Ht.
      * intros Ht. apply String.eqb_neq in Ht. rewrite Ht.
        split; [reflexivity |]. rewrite Qle_bool_iff.
        assert (H1 : 100 / 100 == 1) by reflexivity. now rewrite H1.
Qed.

End ComplianceRows.

Lemma applied_limit_witness :
  exists r,
    r ∈ checkCompliance SampleLibrary.bergaptenCategory4 [Sample.bergamot]
          1000 "4"
    /\ ComplianceResult.cas r = "484-20-8"
    /\ ComplianceResult.limit r = 0.4 / 100.
Proof.
  assert (Hnz : ~ 1000 == 0) by discriminate.
  destruct (applied_limit SampleLibrary.bergaptenCategory4 [Sample.bergamot]
              1000 "4" Hnz) as [Hrow Hlim].
  destruct (Hrow "484-20-8" (0 + 1000 * 1.0 * 0.002)
              (IFRAEntry.mk "Bergapten" "restricted" (Some {[ "4" := 0.4 ]}))
              eq_refl eq_refl) as (r & Hr & Hcas & _).
  exists r. split; [exact Hr |]. split; [exact Hcas |].
  destruct (Hlim r Hr) as (entry & He & _ & _ & _ & Hv & _).
  rewrite Hcas in He. injection He as <-.
  exact (Hv {[ "4" := 0.4 ]} 0.4 eq_refl eq_refl).
Defined.

(** C1, as stated, fails twice.  A prohibited entry that has a number for
    the category gets that number, not 0 %, and the row can be compliant.
    And with the default of 100 % a row is not always compliant: an oil
    entered under the CAS number of its own main constituent counts that
    constituent twice, here 1950 g in a batch of 1000 g. *)
Lemma prohibited_entry_keeps_category_limit :
  (let report :=
     checkCompliance SampleLibrary.prohibitedWithTable [Sample.bergamot]
       1000 "4" in
   map ComplianceResult.cas report = ["484-20-8"]
   /\ map ComplianceResult.reason report = ["Prohibited"]
   /\ map ComplianceResult.isCompliant report = [true]
   /\ Forall (fun r => ComplianceResult.limit r == 0.4 / 100
                       /\ ~ ComplianceResult.limit r == 0) report)
  /\ (let formula := [SampleLibrary.orangeAsLimonene] in
      let report :=
        checkCompliance SampleLibrary.limoneneCategory4 formula
          (FormulationStats.totalWeight (calculateStats [] formula)) "9" in
      map ComplianceResult.cas report = ["5989-27-5"]
      /\ map ComplianceResult.reason report = ["Restriction"]
      /\ map ComplianceResult.isCompliant report = [false]
      /\ Forall (fun r => ComplianceResult.limit r == 100 / 100
                          /\ ComplianceResult.totalMass r == 1950) report).
Proof.
  cbv zeta. repeat split; try reflexivity.
  - constructor; [| constructor]. split; [reflexivity | discriminate].
  - constructor; [| constructor]. split; reflexivity.
Qed.

(** C2: the accumulator of a CAS number holds the direct and the hidden
    contributions of all items, added; and 1000 g of neat bergamot oil
    entered as a mixture yields, for Berzapten, a row of 2 g at 0.2 %,
    compliant exactly when the applied limit is at least 0.2 %. *)
Theorem hidden_mass_additive (formula : list FormulaItem.t) (cas : string) :
  casMass (casLoop formula) cas
  == sumOver (fun i => directMass i cas + hiddenMass i cas) formula
  /\ (forall (IFRA_LIBRARY : gmap string IFRAEntry.t) (item : FormulaItem.t)
             (totalBatchWeight : Q) (targetCategory : string)
             (entry : IFRAEntry.t),
        FormulaItem.cas item = "Mixture" ->
        FormulaItem.ingredientId item = Some "bergamot_oil" ->
        FormulaItem.weight item == 1000 ->
        FormulaItem.dilution item == 1 ->
        totalBatchWeight == 1000 ->
        IFRA_LIBRARY !! "484-20-8" = Some entry ->
        exists r,
          r ∈ checkCompliance IFRA_LIBRARY [item] totalBatchWeight
                targetCategory
          /\ ComplianceResult.cas r = "484-20-8"
          /\ ComplianceResult.totalMass r == 1000 * 0.002
          /\ ComplianceResult.totalMass r == 2
          /\ ComplianceResult.concentration r == 2 / 1000
          /\ ComplianceResult.concentration r == 0.002
          /\ ComplianceResult.limit r
             = limitPercentOf entry targetCategory / 100
          /\ (ComplianceResult.isCompliant r = true
              <-> 0.2 <= limitPercentOf entry targetCategory)
          /\ (forall r',
                r' ∈ checkCompliance IFRA_LIBRARY [item] totalBatchWeight
                       targetCategory ->
                ComplianceResult.cas r' = "484-20-8" -> r' = r)).
Proof.
  split; [apply casLoop_mass |].
  intros lib item total cat entry Hc Hi Hw Hd Ht He.
  assert (Hnz : ~ total == 0) by (rewrite Ht; discriminate).
  set (m := 0 + FormulaItem.weight item * FormulaItem.dilution item * 0.002).
  assert (Hget : Js.get (CasState.massByCas (casLoop [item])) "484-20-8"
                 = Some m).
  { unfold casLoop. cbn [fold_left]. unfold attributeItem. rewrite Hc, Hi.
    lazy -[Qplus Qmult FormulaItem.weight FormulaItem.dilution].
    reflexivity. }
  assert (Hm : m == 2) by (unfold m; rewrite Hw, Hd; reflexivity).
  eexists. split.
  { apply checkCompliance_rows; [exact Hnz |].
    exists "484-20-8", m. split; [exact Hget |].
    apply complianceRow_inv. exists entry. split; [exact He | reflexivity]. }
  split; [reflexivity |].
  cbn [ComplianceResult.totalMass ComplianceResult.concentration
       ComplianceResult.limit ComplianceResult.isCompliant].
  assert (Hconc : m / total == 0.002) by (rewrite Hm, Ht; reflexivity).
  split; [rewrite Hm; reflexivity |]. split; [exact Hm |].
  split; [rewrite Hconc; reflexivity |]. split; [exact Hconc |].
  split; [reflexivity |]. split.
  - rewrite Qle_bool_iff, Hconc. unfold Qdiv. change (/ 100) with (1 # 100).
    split; intros H; lra.
  - intros r' Hr' Hcas.
    apply checkCompliance_rows in Hr' as (cas' & m' & Hm' & Hrow);
      [| exact Hnz].
    apply complianceRow_inv in Hrow as (entry' & He' & ->).
    cbn [ComplianceResult.cas] in Hcas. subst cas'.
    rewrite Hget in Hm'. injection Hm' as <-.
    rewrite He in He'. injection He' as <-. reflexivity.
Qed.

Lemma hidden_mass_additive_witness :
  exists r,
    r ∈ checkCompliance SampleLibrary.bergaptenCategory4 [Sample.bergamot]
          (2000 # 2) "4"
    /\ ComplianceResult.totalMass r == 2
    /\ ComplianceResult.concentration r == 0.002
    /\ ComplianceResult.isCompliant r = true.
Proof.
  destruct (proj2 (hidden_mass_additive [] "")
              SampleLibrary.bergaptenCategory4 Sample.bergamot (2000 # 2) "4"
              (IFRAEntry.mk "Bergapten" "restricted" (Some {[ "4" := 0.4 ]}))
              eq_refl eq_refl eq_refl eq_refl eq_refl eq_refl)
    as (r & Hr & _ & _ & Hm & _ & Hc & _ & Hok & _).
  exists r. split; [exact Hr |]. split; [exact Hm |]. split; [exact Hc |].
  apply Hok. discriminate.
Defined.


(** * Further properties of the engine *)

(** ** The order of the rows *)

Lemma insertSorted_heavier (x : SolventBreakdownEntry.t)
    (l : list SolventBreakdownEntry.t) :
  StronglySorted (fun a b => SolventBreakdownEntry.mass b
                             <= SolventBreakdownEntry.mass a) l ->
  StronglySorted (fun a b => SolventBreakdownEntry.mass b
                             <= SolventBreakdownEntry.mass a)
                 (Js.insertSorted heavier x l).
Proof.
  induction 1 as [| y l Hs IH Hy]; cbn [Js.insertSorted].
  - repeat constructor.
  - unfold heavier at 1.
    destruct (Js.Qltb _ 0) eqn:E; qprops.
    + constructor; [exact IH |].
      rewrite (insertSorted_perm heavier x l). constructor; [lra | exact Hy].
    + constructor; [now constructor |].
      constructor; [lra |].
      eapply Forall_impl; [exact Hy |]. cbn beta. intros z Hz. lra.
Qed.

(** The solvent rows come heaviest first. *)
Theorem breakdown_sorted_by_mass (formula : list FormulaItem.t) :
  StronglySorted (fun a b => SolventBreakdownEntry.mass b
                             <= SolventBreakdownEntry.mass a)
    (SolventAnalysis.breakdown (calculateSolventBreakdown formula)).
Proof.
  unfold calculateSolventBreakdown. cbn [SolventAnalysis.breakdown].
  induction (map _ (SolventState.solventMap (solventLoop formula)))
    as [| x l IH]; cbn [Js.sort].
  - constructor.
  - now apply insertSorted_heavier.
Qed.



Section ReportOrder.
Context (IFRA_LIBRARY : gmap string IFRAEntry.t).


(** No CAS number has two rows in the report. *)
Theorem report_one_row_per_cas (formula : list FormulaItem.t)
    (totalBatchWeight : Q) (targetCategory : string) :
  NoDup (map ComplianceResult.cas
           (checkCompliance IFRA_LIBRARY formula totalBatchWeight
              targetCategory)).
Proof.
  unfold checkCompliance. destruct (Qeq_bool totalBatchWeight 0);
    [apply NoDup_nil_2 |].
  rewrite sort_perm.
  pose proof (casLoop_NoDup formula) as Hnd. revert Hnd.
  generalize (CasState.massByCas (casLoop formula)).
  induction l as [| [cas m] l IH]; cbn [fmap list_fmap omap list_omap map];
    intros Hnd; [apply NoDup_nil_2 |].
  apply NoDup_cons in Hnd as [Hcas Hnd].
  destruct (complianceRow _ _ _ _ (cas, m)) as [r |] eqn:E; [| now apply IH].
  apply complianceRow_inv in E as (entry & _ & ->).
  cbn [map ComplianceResult.cas]. apply NoDup_cons. split; [| now apply IH].
  intros Hin. apply Hcas. apply list_elem_of_fmap in Hin as (r & Hr & Hin).
  apply list_elem_of_omap in Hin as ([cas' m'] & Hin & Hrow).
  apply complianceRow_inv in Hrow as (entry' & _ & ->).
  cbn [ComplianceResult.cas] in Hr. subst cas'.
  apply list_elem_of_fmap. exists (cas, m'). now split.
Qed.

End ReportOrder.


(** ** The rows of the solvent analysis *)

Lemma solventDensity_pos (solventName : string) : 0 < solventDensity solventName.
Proof.
  unfold solventDensity.
  destruct (SOLVENT_DENSITIES !! solventName) as [d |] eqn:E; [| reflexivity].
  unfold SOLVENT_DENSITIES in E. apply elem_of_list_to_map_2 in E.
  repeat (apply elem_of_cons in E as [[= -> ->] | E]; [reflexivity |]).
  now apply elem_of_nil in E.
Qed.

Lemma set_Forall {V : Type} (P : string * V -> Prop)
    (m : list (string * V)) (k : string) (v : V) :
  Forall P m -> P (k, v) -> Forall P (Js.set m k v).
Proof.
  intros Hm Hv. induction Hm as [| [k' v'] m Hk Hm IH]; cbn [Js.set].
  - now repeat constructor.
  - destruct (String.eqb k' k); constructor; assumption.
Qed.

Lemma get_Forall {V : Type} (P : string * V -> Prop)
    (m : list (string * V)) (k : string) (v : V) :
  Forall P m -> Js.get m k = Some v -> P (k, v).
Proof.
  intros Hm Hv. apply get_Some_elem in Hv.
  rewrite Forall_forall in Hm. now apply Hm.
Qed.

Lemma accumulateSolvent_unfold (st : SolventState.t) (item : FormulaItem.t) :
  accumulateSolvent st item
  = let name := (solventContribution item).1 in
    let addedMass := (solventContribution item).2 in
    if Js.Qltb 0 addedMass && negb (String.eqb name "None") then
      let addedVol := addedMass / solventDensity name in
      let current :=
        default (SolventData.mk 0 0)
                (Js.get (SolventState.solventMap st) name) in
      SolventState.mk
        (Js.set (SolventState.solventMap st) name
           (SolventData.mk (SolventData.mass current + addedMass)
                           (SolventData.volume current + addedVol)))
        (SolventState.totalSolventMass st + addedMass)
        (SolventState.totalSolventVolume st + addedVol)
    else st.
Proof.
  unfold accumulateSolvent, solventDensity.
  now destruct (solventContribution item).
Qed.

Lemma volumesOf_set (m : list (string * SolventData.t)) (k : string)
    (v : SolventData.t) :
  sumQ (volumesOf (Js.set m k v))
  == sumQ (volumesOf m)
     - SolventData.volume (default (SolventData.mk 0 0) (Js.get m k))
     + SolventData.volume v.
Proof.
  unfold volumesOf.
  induction m as [| [k' v'] m IH]; cbn [Js.get Js.set map sumQ snd].
  - cbn [from_option SolventData.volume]. ring.
  - destruct (String.eqb k' k); cbn [map sumQ snd from_option id].
    + ring.
    + rewrite IH. ring.
Qed.

(** The loop keeps: well-formed entries, the volumes adding up to the
    volume total, and the mass total being the sum of what the items add. *)
Lemma solventLoop_entries (formula : list FormulaItem.t) :
  Forall solventEntryOk (SolventState.solventMap (solventLoop formula))
  /\ sumQ (volumesOf (SolventState.solventMap (solventLoop formula)))
     == SolventState.totalSolventVolume (solventLoop formula)
  /\ SolventState.totalSolventMass (solventLoop formula)
     == sumOver solventMassOf formula.
Proof.
  unfold solventLoop, sumOver.
  assert (H : forall st,
             Forall solventEntryOk (SolventState.solventMap st) ->
             Forall solventEntryOk
               (SolventState.solventMap (fold_left accumulateSolvent formula st))
             /\ (sumQ (volumesOf (SolventState.solventMap st))
                 == SolventState.totalSolventVolume st ->
                 sumQ (volumesOf (SolventState.solventMap
                                    (fold_left accumulateSolvent formula st)))
                 == SolventState.totalSolventVolume
                      (fold_left accumulateSolvent formula st))
             /\ SolventState.totalSolventMass
                  (fold_left accumulateSolvent formula st)
                == SolventState.totalSolventMass st
                   + sumQ (map solventMassOf formula)).
  { induction formula as [| item formula IH]; intros st Hok;
      cbn [fold_left map sumQ].
    - split; [exact Hok |]. split; [tauto | ring].
    - assert (Hstep : Forall solventEntryOk
                        (SolventState.solventMap (accumulateSolvent st item))
                      /\ (sumQ (volumesOf (SolventState.solventMap st))
                          == SolventState.totalSolventVolume st ->
                          sumQ (volumesOf (SolventState.solventMap
                                             (accumulateSolvent st item)))
                          == SolventState.totalSolventVolume
                               (accumulateSolvent st item))
                      /\ SolventState.totalSolventMass (accumulateSolvent st item)
                         == SolventState.totalSolventMass st
                            + solventMassOf item).
      { rewrite accumulateSolvent_unfold. unfold solventMassOf. cbv zeta.
        destruct (solventContribution item) as [name addedMass].
        cbn [fst snd].
        destruct (Js.Qltb 0 addedMass) eqn:Em;
          [destruct (String.eqb name "None") eqn:En |]; cbn [andb negb];
          try (split; [exact Hok |]; split; [tauto | ring]).
        qprops. apply String.eqb_neq in En.
        cbn [SolventState.solventMap SolventState.totalSolventMass
             SolventState.totalSolventVolume].
        pose proof (solventDensity_pos name) as Hd.
        assert (Hv : 0 < addedMass / solventDensity name).
        { apply Qlt_shift_div_l; [exact Hd | lra]. }
        assert (Hcur : 0 <= SolventData.mass
                              (default (SolventData.mk 0 0)
                                 (Js.get (SolventState.solventMap st) name))
                       /\ 0 <= SolventData.volume
                                 (default (SolventData.mk 0 0)
                                    (Js.get (SolventState.solventMap st) name))).
        { destruct (Js.get (SolventState.solventMap st) name) as [d |] eqn:Eg;
            cbn [from_option id SolventData.mass SolventData.volume];
            [| split; lra].
          destruct (get_Forall _ _ _ _ Hok Eg) as (_ & H1 & H2).
          cbn [snd] in *. split; lra. }
        split; [| split; [| reflexivity]].
        - apply set_Forall; [exact Hok |].
          unfold solventEntryOk. cbn [fst snd SolventData.mass SolventData.volume].
          destruct Hcur. repeat split; [exact En | lra | lra].
        - intros Hsum. rewrite volumesOf_set, Hsum.
          cbn [SolventData.volume]. ring. }
      destruct Hstep as (H1 & H2 & H3).
      destruct (IH _ H1) as (I1 & I2 & I3).
      split; [exact I1 |]. split; [tauto |]. rewrite I3, H3. ring. }
  destruct (H (SolventState.mk [] 0 0)) as (H1 & H2 & H3); [constructor |].
  split; [exact H1 |]. split; [apply H2; reflexivity |].
  rewrite H3. cbn [SolventState.totalSolventMass]. ring.
Qed.

Lemma solventMap_entry_of_row (formula : list FormulaItem.t)
    (row : SolventBreakdownEntry.t) :
  row ∈ SolventAnalysis.breakdown (calculateSolventBreakdown formula) ->
  exists data,
    (SolventBreakdownEntry.name row, data)
      ∈ SolventState.solventMap (solventLoop formula)
    /\ SolventBreakdownEntry.mass row = SolventData.mass data
    /\ SolventBreakdownEntry.volume row = SolventData.volume data.
Proof.
  intros Hrow. rewrite breakdown_perm in Hrow.
  apply list_elem_of_fmap in Hrow as ([name data] & -> & Hin).
  exists data. now repeat split.
Qed.

(** Every row of the analysis has a name other than None, a positive mass
    and a positive volume: no item leaves an empty row behind. *)
Theorem breakdown_rows_positive (formula : list FormulaItem.t)
    (row : SolventBreakdownEntry.t) :
  row ∈ SolventAnalysis.breakdown (calculateSolventBreakdown formula) ->
  SolventBreakdownEntry.name row <> "None"
  /\ 0 < SolventBreakdownEntry.mass row
  /\ 0 < SolventBreakdownEntry.volume row.
Proof.
  intros Hrow.
  apply solventMap_entry_of_row in Hrow as (data & Hin & -> & ->).
  destruct (solventLoop_entries formula) as [Hok _].
  rewrite Forall_forall in Hok. exact (Hok _ Hin).
Qed.

Lemma breakdown_rows_positive_witness :
  0 < SolventBreakdownEntry.mass
        (SolventBreakdownEntry.mk "Ethanol" (0 + 10 * (1 - 0.2))
           (0 + 10 * (1 - 0.2) / 0.789)
           ((0 + 10 * (1 - 0.2)) / (0 + 10 * (1 - 0.2)) * 100)
           ((0 + 10 * (1 - 0.2) / 0.789)
            / (0 + 10 * (1 - 0.2) / 0.789) * 100)).
Proof.
  refine (proj1 (proj2 (breakdown_rows_positive
                          [Sample.tincture; Sample.neatMusk] _ _))).
  apply list_elem_of_here.
Defined.

Lemma breakdown_volume_sum (formula : list FormulaItem.t) :
  sumQ (map SolventBreakdownEntry.volume
          (SolventAnalysis.breakdown (calculateSolventBreakdown formula)))
  == SolventState.totalSolventVolume (solventLoop formula).
Proof.
  destruct (solventLoop_entries formula) as (_ & Hsum & _).
  rewrite (sumQ_perm _ _ (Permutation_map _ (breakdown_perm formula))),
    map_map, <- Hsum.
  unfold volumesOf. erewrite map_ext; [reflexivity |]. now intros [k v].
Qed.

(** The volumes of the rows add up to [totalSolventVolume], and their
    volume percentages to 100 whenever that total is positive. *)
Theorem solvent_breakdown_volumes (formula : list FormulaItem.t) :
  sumQ (map SolventBreakdownEntry.volume
          (SolventAnalysis.breakdown (calculateSolventBreakdown formula)))
  == SolventAnalysis.totalSolventVolume (calculateSolventBreakdown formula)
  /\ (0 < SolventAnalysis.totalSolventVolume
            (calculateSolventBreakdown formula) ->
      sumQ (map SolventBreakdownEntry.volPct
              (SolventAnalysis.breakdown (calculateSolventBreakdown formula)))
      == 100).
Proof.
  destruct (solventLoop_entries formula) as (_ & Hsum & _).
  pose proof (breakdown_perm formula) as Hp.
  change (SolventAnalysis.totalSolventVolume (calculateSolventBreakdown formula))
    with (SolventState.totalSolventVolume (solventLoop formula)).
  set (T := SolventState.totalSolventMass (solventLoop formula)) in *.
  set (V := SolventState.totalSolventVolume (solventLoop formula)) in *.
  split; [apply breakdown_volume_sum |].
  intros HV.
  rewrite (sumQ_perm _ _ (Permutation_map _ Hp)), map_map.
  rewrite (sumQ_map_ext _ (fun kv => SolventData.volume kv.2 * (/ V * 100))).
  - rewrite sumQ_map_scale.
    fold (volumesOf (SolventState.solventMap (solventLoop formula))).
    rewrite Hsum. field. lra.
  - intros [k v]. unfold breakdownEntry.
    cbn [SolventBreakdownEntry.volPct snd].
    apply Qltb_lt in HV. rewrite HV. unfold Qdiv. ring.
Qed.

Lemma solvent_breakdown_volumes_witness :
  sumQ (map SolventBreakdownEntry.volPct
          (SolventAnalysis.breakdown
             (calculateSolventBreakdown
                [Sample.tincture; Sample.perfumersAlcohol;
                 Sample.unweighedDilution])))
  == 100.
Proof.
  apply (solvent_breakdown_volumes
           [Sample.tincture; Sample.perfumersAlcohol;
            Sample.unweighedDilution]).
  reflexivity.
Defined.

Lemma sumQ_elem_le (l : list Q) (x : Q) :
  Forall (fun y => 0 <= y) l -> x ∈ l -> x <= sumQ l.
Proof.
  induction 1 as [| y l Hy Hl IH]; intros Hx.
  - now apply elem_of_nil in Hx.
  - assert (Hs : 0 <= sumQ l).
    { clear IH Hx. induction Hl as [| z l Hz _ IH]; cbn [sumQ]; lra. }
    cbn [sumQ]. apply elem_of_cons in Hx as [-> | Hx]; [lra |].
    specialize (IH Hx). lra.
Qed.

(** ** The ethanol share and the flash point of a formula *)

(** The ethanol share of the solvent system lies between 0 and 100 %, and
    the flash point of the analysis is rated Safe exactly when no row of
    the breakdown is named Ethanol. *)
Theorem analysis_safe_without_ethanol (formula : list FormulaItem.t) :
  let analysis := calculateSolventBreakdown formula in
  0 <= SolventAnalysis.ethanolVvPct analysis
  /\ SolventAnalysis.ethanolVvPct analysis <= 100
  /\ (FlashPoint.rating (SolventAnalysis.flashPointEstimate analysis) = Safe
      <-> forall row, row ∈ SolventAnalysis.breakdown analysis ->
                      SolventBreakdownEntry.name row <> "Ethanol").
Proof.
  cbv zeta.
  assert (Hpos : forall row,
             row ∈ SolventAnalysis.breakdown (calculateSolventBreakdown formula)
             -> 0 < SolventBreakdownEntry.volume row).
  { intros row Hrow.
    apply solventMap_entry_of_row in Hrow as (data & Hin & _ & ->).
    destruct (solventLoop_entries formula) as [Hok _].
    rewrite Forall_forall in Hok. now destruct (Hok _ Hin) as (_ & _ & H). }
  pose proof (breakdown_volume_sum formula) as Hsum.
  revert Hpos Hsum. unfold calculateSolventBreakdown.
  cbn [SolventAnalysis.breakdown SolventAnalysis.totalSolventVolume
       SolventAnalysis.ethanolVvPct SolventAnalysis.flashPointEstimate].
  set (b := Js.sort heavier _).
  set (V := SolventState.totalSolventVolume (solventLoop formula)).
  intros Hpos Hsum.
  destruct (find isEthanol b) as [e |] eqn:E.
  - apply find_some in E as [Hin He]. apply list_elem_of_In in Hin.
    apply String.eqb_eq in He.
    pose proof (Hpos e Hin) as Hv.
    assert (Hle : SolventBreakdownEntry.volume e <= V).
    { rewrite <- Hsum. apply sumQ_elem_le.
      - apply Forall_forall. intros y Hy.
        apply list_elem_of_fmap in Hy as (r & -> & Hr).
        pose proof (Hpos r Hr) as H. lra.
      - apply list_elem_of_fmap. now exists e. }
    assert (HV : 0 < V) by lra.
    assert (Hq : 0 < SolventBreakdownEntry.volume e / V
                 /\ SolventBreakdownEntry.volume e / V <= 1).
    { split; [apply Qlt_shift_div_l; lra | apply Qle_shift_div_r; lra]. }
    destruct Hq as [Hq0 Hq1].
    pose proof HV as HVb. apply Qltb_lt in HVb. rewrite HVb.
    split; [lra |]. split; [lra |].
    destruct (estimateFlashPoint_positive
                (SolventBreakdownEntry.volume e / V * 100)) as [_ Hr]; [lra |].
    rewrite Hr. split.
    + intros H. now apply classify_rating in H.
    + intros H. now destruct (H e Hin).
  - set (p := if Js.Qltb 0 V then 0 / V * 100 else 0).
    assert (Hpct : p == 0)
      by (subst p; destruct (Js.Qltb 0 V); [unfold Qdiv; ring | reflexivity]).
    split; [lra |]. split; [lra |].
    split.
    + intros _ row Hrow Hn. apply list_elem_of_In in Hrow.
      pose proof (find_none _ _ E row Hrow) as Hf.
      unfold isEthanol in Hf. apply String.eqb_neq in Hf. contradiction.
    + intros _. unfold estimateFlashPoint.
      assert (Hz : Qle_bool p 0 = true) by (apply Qle_bool_iff; lra).
      now rewrite Hz.
Qed.

(** Above 0 % ethanol the rating depends on the percentage alone: Low up
    to 75/13 %, Flammable from there up to 55 %, High beyond 55 %. *)
Theorem flash_rating_thresholds (pct : Q) :
  0 < pct ->
  (FlashPoint.rating (estimateFlashPoint pct) = Low <-> pct <= 75 # 13)
  /\ (FlashPoint.rating (estimateFlashPoint pct) = Flammable
      <-> (75 # 13) < pct /\ pct <= 55)
  /\ (FlashPoint.rating (estimateFlashPoint pct) = High <-> 55 < pct).
Proof.
  intros Hp.
  destruct (estimateFlashPoint_positive pct Hp) as [_ ->].
  assert (H23 : interpolate points pct < 23 <-> 55 < pct).
  { curve_cases pct Hp; qconst; split; intros; lra. }
  assert (H60 : interpolate points pct < 60 <-> (75 # 13) < pct).
  { curve_cases pct Hp; qconst; split; intros; lra. }
  unfold classify.
  destruct (Js.Qltb (interpolate points pct) 23) eqn:E1;
    [| destruct (Js.Qltb (interpolate points pct) 60) eqn:E2];
    qprops; cbn [fst].
  - apply H23 in E1.
    repeat split; intros; try discriminate; try lra.
  - assert (Hn55 : ~ 55 < pct) by (intros Hc; apply H23 in Hc; lra).
    apply H60 in E2.
    repeat split; intros; try discriminate; try lra.
  - assert (Hn55 : ~ 55 < pct) by (intros Hc; apply H23 in Hc; lra).
    assert (Hn75 : ~ (75 # 13) < pct) by (intros Hc; apply H60 in Hc; lra).
    repeat split; intros; try discriminate; try lra.
Qed.

Lemma flash_rating_thresholds_witness :
  FlashPoint.rating (estimateFlashPoint 5.5) = Low
  /\ FlashPoint.rating (estimateFlashPoint 55) = Flammable
  /\ FlashPoint.rating (estimateFlashPoint (551 # 10)) = High.
Proof.
  split; [| split].
  - apply (flash_rating_thresholds 5.5); [reflexivity | discriminate].
  - apply (flash_rating_thresholds 55); [reflexivity |].
    split; [reflexivity | discriminate].
  - apply (flash_rating_thresholds (551 # 10)); reflexivity.
Defined.

(** An estimated flash point is never below 13 nor above 100 degrees. *)
Theorem flash_point_range (pct c : Q) :
  FlashPoint.celsius (estimateFlashPoint pct) = Some c ->
  13 <= c /\ c <= 100.
Proof.
  unfold estimateFlashPoint.
  destruct (Qle_bool pct 0) eqn:E; [discriminate |].
  destruct (classify (interpolate points pct)). cbn [FlashPoint.celsius].
  intros [= <-]. qprops. now apply interpolate_bounds.
Qed.

Lemma flash_point_range_witness :
  13 <= interpolate points 45 /\ interpolate points 45 <= 100.
Proof.
  apply (flash_point_range 45 (interpolate points 45)). reflexivity.
Defined.

(** ** The solvent mass against the batch statistics *)

Lemma solventMassOf_bounds (item : FormulaItem.t) :
  0 <= FormulaItem.weight item ->
  0 < FormulaItem.dilution item -> FormulaItem.dilution item <= 1 ->
  FormulaItem.weight item * (1 - FormulaItem.dilution item)
  <= solventMassOf item
  /\ solventMassOf item <= FormulaItem.weight item.
Proof.
  intros Hw Hd0 Hd1. unfold solventMassOf.
  destruct (Qlt_le_dec (FormulaItem.dilution item) 1) as [Hlt | Hge].
  - destruct (solventContribution_diluted item) as [_ ->]; [lra | exact Hlt |].
    pose proof (declaredCarrier_not_None item) as Hn.
    apply String.eqb_neq in Hn. rewrite Hn, andb_true_r.
    destruct (Js.Qltb 0 _) eqn:E; qprops; cbv iota; nra.
  - assert (H1 : FormulaItem.dilution item == 1) by lra.
    destruct (solventContribution_neat item H1) as [Htag Hnot].
    destruct (decide (taggedSolvent item)) as [Ht | Ht].
    + destruct (Htag Ht) as [_ ->].
      destruct (_ && _); cbv iota; nra.
    + destruct (Hnot Ht) as [_ ->]. cbn [andb]. cbv iota.
      destruct (Js.Qltb 0 0 && _); nra.
Qed.

(** With non-negative weights and dilutions in (0, 1], the solvent mass of
    the analysis lies between the carrier mass of the batch (total weight
    minus concentrate) and the total weight. *)
Theorem solvent_mass_between (INGREDIENTS : list Ingredient.t)
    (formula : list FormulaItem.t) :
  Forall (fun i => 0 <= FormulaItem.weight i
                   /\ 0 < FormulaItem.dilution i
                   /\ FormulaItem.dilution i <= 1) formula ->
  let stats := calculateStats INGREDIENTS formula in
  FormulationStats.totalWeight stats - FormulationStats.concentrateMass stats
  <= SolventAnalysis.totalSolventMass (FormulationStats.solventAnalysis stats)
  /\ SolventAnalysis.totalSolventMass (FormulationStats.solventAnalysis stats)
     <= FormulationStats.totalWeight stats.
Proof.
  intros Hwf. cbv zeta.
  destruct (calculateStats_sums INGREDIENTS formula) as (Hw & _ & _ & Hc).
  destruct (solventLoop_entries formula) as (_ & _ & Hs).
  change (SolventAnalysis.totalSolventMass
            (FormulationStats.solventAnalysis
               (calculateStats INGREDIENTS formula)))
    with (SolventState.totalSolventMass (solventLoop formula)).
  rewrite Hw, Hc, Hs. rewrite carrier_sum. unfold sumOver. clear Hw Hc Hs.
  induction Hwf as [| i formula (H1 & H2 & H3) _ [IH1 IH2]]; cbn [map sumQ].
  - split; lra.
  - destruct (solventMassOf_bounds i H1 H2 H3). split; lra.
Qed.

Lemma solvent_mass_between_witness :
  SolventAnalysis.totalSolventMass
    (FormulationStats.solventAnalysis
       (calculateStats [] [Sample.tincture; Sample.perfumersAlcohol]))
  <= FormulationStats.totalWeight
       (calculateStats [] [Sample.tincture; Sample.perfumersAlcohol]).
Proof.
  refine (proj2 (solvent_mass_between
                   [] [Sample.tincture; Sample.perfumersAlcohol] _)).
  repeat constructor; cbn; lra.
Defined.

Lemma normalizeSolventName_cases (name : string) :
  normalizeSolventName name ∈ ["Ethanol"; "DPG"; "IPM"; "TEC"; "Water"; "BB"]
  \/ normalizeSolventName name = name.
Proof.
  unfold normalizeSolventName.
  repeat match goal with
    | |- context [if ?b then _ else _] =>
        destruct b; [left; repeat constructor |]
    end.
  now right.
Qed.

(** Normalising a solvent name twice changes nothing more. *)
Theorem normalizeSolventName_idempotent (name : string) :
  normalizeSolventName (normalizeSolventName name) = normalizeSolventName name.
Proof.
  destruct (normalizeSolventName_cases name) as [H | H].
  - repeat (apply elem_of_cons in H as [-> | H]; [reflexivity |]).
    now apply elem_of_nil in H.
  - rewrite H. exact H.
Qed.

(** * Properties of the batch tools and of the editor *)

(** ** Scaling a formula *)

Lemma scaleBy_sum (f : FormulaItem.t -> Q) (ratio : Q)
    (formula : list FormulaItem.t) :
  (forall i, f (withWeight i (FormulaItem.weight i * ratio)) == f i * ratio) ->
  sumOver f (scaleBy ratio formula) == sumOver f formula * ratio.
Proof.
  intros Hf. unfold sumOver, scaleBy.
  induction formula as [| i formula IH]; cbn [map sumQ]; [ring |].
  rewrite IH, Hf. ring.
Qed.

Lemma totalWeight_scaleBy (INGREDIENTS : list Ingredient.t) (ratio : Q)
    (formula : list FormulaItem.t) :
  FormulationStats.totalWeight
    (calculateStats INGREDIENTS (scaleBy ratio formula))
  == FormulationStats.totalWeight (calculateStats INGREDIENTS formula) * ratio.
Proof.
  destruct (calculateStats_sums INGREDIENTS formula) as (H1 & _).
  destruct (calculateStats_sums INGREDIENTS (scaleBy ratio formula))
    as (S1 & _).
  rewrite H1, S1. apply scaleBy_sum. intros i.
  cbn [withWeight FormulaItem.weight]. ring.
Qed.

(** Scaling every weight by a ratio scales weight, volume, cost and
    concentrate of the batch by that ratio. *)
Theorem stats_scale_linearly (INGREDIENTS : list Ingredient.t)
    (ratio : Q) (formula : list FormulaItem.t) :
  let before := calculateStats INGREDIENTS formula in
  let after := calculateStats INGREDIENTS (scaleBy ratio formula) in
  FormulationStats.totalWeight after
  == FormulationStats.totalWeight before * ratio
  /\ FormulationStats.totalVolume after
     == FormulationStats.totalVolume before * ratio
  /\ FormulationStats.totalCost after
     == FormulationStats.totalCost before * ratio
  /\ FormulationStats.concentrateMass after
     == FormulationStats.concentrateMass before * ratio.
Proof.
  cbv zeta.
  destruct (calculateStats_sums INGREDIENTS formula) as (H1 & H2 & H3 & H4).
  destruct (calculateStats_sums INGREDIENTS (scaleBy ratio formula))
    as (S1 & S2 & S3 & S4).
  rewrite H1, H2, H3, H4, S1, S2, S3, S4.
  repeat split; apply scaleBy_sum; intros i;
    unfold specDensity, linkedIngredient;
    cbn [withWeight FormulaItem.weight FormulaItem.dilution
         FormulaItem.costPerKg FormulaItem.customDensity
         FormulaItem.ingredientId];
    unfold Qdiv; ring.
Qed.







Section ScaleCompliance.
Context (IFRA_LIBRARY : gmap string IFRAEntry.t).




End ScaleCompliance.


Lemma handleScale_ratio (target : Q) (scaleMode : ScaleMode)
    (targetIngredientId : string) (formula formula' : list FormulaItem.t)
    (stats : FormulationStats.t) :
  handleScale target scaleMode targetIngredientId formula stats
  = Some formula' ->
  0 < target
  /\ exists divisor,
       ~ divisor == 0
       /\ formula' = scaleBy (target / divisor) formula
       /\ match scaleMode with
          | ScaleTotal => divisor = FormulationStats.totalWeight stats
          | ScaleIngredient =>
              exists item,
                find (fun i => sameId (FormulaItem.ingredientId i)
                                      targetIngredientId) formula = Some item
                /\ divisor = FormulaItem.weight item
          end.
Proof.
  unfold handleScale.
  destruct (Qeq_bool target 0) eqn:E0; [discriminate |].
  destruct (Qle_bool target 0) eqn:E1; [discriminate |]. cbn [orb].
  qprops. destruct scaleMode.
  - destruct (Qeq_bool (FormulationStats.totalWeight stats) 0) eqn:E2;
      [discriminate |].
    intros [= <-]. qprops. split; [exact E1 |]. eexists. repeat split.
    exact E2.
  - destruct (find _ formula) as [item |] eqn:Ef; [| discriminate].
    destruct (Qeq_bool (FormulaItem.weight item) 0) eqn:E2; [discriminate |].
    intros [= <-]. qprops. split; [exact E1 |].
    exists (FormulaItem.weight item). repeat split; [exact E2 |].
    now exists item.
Qed.

(** Scaling to a total batch weight gives a formula that weighs the
    target. *)
Theorem handleScale_reaches_total (INGREDIENTS : list Ingredient.t)
    (target : Q) (targetIngredientId : string)
    (formula formula' : list FormulaItem.t) :
  handleScale target ScaleTotal targetIngredientId formula
    (calculateStats INGREDIENTS formula) = Some formula' ->
  FormulationStats.totalWeight (calculateStats INGREDIENTS formula')
  == target.
Proof.
  intros H. apply handleScale_ratio in H as (_ & divisor & Hd & -> & ->).
  rewrite totalWeight_scaleBy. field. exact Hd.
Qed.

Lemma handleScale_reaches_total_witness :
  FormulationStats.totalWeight
    (calculateStats [] (scaleBy (250 / (0 + 10 + 80))
                          [Sample.tincture; Sample.perfumersAlcohol]))
  == 250.
Proof.
  apply (handleScale_reaches_total [] 250 ""
           [Sample.tincture; Sample.perfumersAlcohol]).
  reflexivity.
Defined.

Lemma find_scaleBy (p : FormulaItem.t -> bool) (ratio : Q)
    (formula : list FormulaItem.t) :
  (forall i w, p (withWeight i w) = p i) ->
  find p (scaleBy ratio formula)
  = option_map (fun i => withWeight i (FormulaItem.weight i * ratio))
               (find p formula).
Proof.
  intros Hp. unfold scaleBy.
  induction formula as [| i formula IH]; cbn [map find]; [reflexivity |].
  rewrite Hp. destruct (p i); [reflexivity | exact IH].
Qed.

(** Scaling by a reference ingredient gives that ingredient, the first line
    linked to the selected id, the target weight. *)
Theorem handleScale_reaches_ingredient (target : Q)
    (targetIngredientId : string) (formula formula' : list FormulaItem.t)
    (stats : FormulationStats.t) :
  handleScale target ScaleIngredient targetIngredientId formula stats
  = Some formula' ->
  exists item',
    find (fun i => sameId (FormulaItem.ingredientId i) targetIngredientId)
         formula' = Some item'
    /\ FormulaItem.weight item' == target.
Proof.
  intros H.
  apply handleScale_ratio in H as (_ & divisor & Hd & -> & item & Hf & ->).
  rewrite find_scaleBy by reflexivity. rewrite Hf. cbn [option_map].
  eexists. split; [reflexivity |].
  cbn [withWeight FormulaItem.weight]. field. exact Hd.
Qed.

Lemma handleScale_reaches_ingredient_witness :
  exists item',
    find (fun i => sameId (FormulaItem.ingredientId i) "bergamot_oil")
         (scaleBy (50 / 1000) [Sample.neatMusk; Sample.bergamot])
    = Some item'
    /\ FormulaItem.weight item' == 50.
Proof.
  apply (handleScale_reaches_ingredient 50 "bergamot_oil"
           [Sample.neatMusk; Sample.bergamot] _
           (calculateStats [] [Sample.neatMusk; Sample.bergamot])).
  reflexivity.
Defined.



(** ** The note breakdown *)

Lemma noteStep_total (acc : NoteBuckets.t) (item : FormulaItem.t) :
  bucketsTotal (noteStep acc item) == bucketsTotal acc + aromaticOf item.
Proof.
  unfold noteStep, aromaticOf, bucketsTotal.
  assert (Hn : Js.orStr (FormulaItem.note item) "" = FormulaItem.note item)
    by now destruct (FormulaItem.note item).
  rewrite Hn.
  destruct (String.eqb (Js.toLowerCase (FormulaItem.note item)) "top") eqn:E1.
  { apply String.eqb_eq in E1. rewrite E1. cbn. ring. }
  destruct (String.eqb (Js.toLowerCase (FormulaItem.note item)) "middle")
    eqn:E2.
  { apply String.eqb_eq in E2. rewrite E2. cbn. ring. }
  destruct (String.eqb (Js.toLowerCase (FormulaItem.note item)) "heart")
    eqn:E3.
  { apply String.eqb_eq in E3. rewrite E3. cbn. ring. }
  cbn [orb].
  destruct (String.eqb (Js.toLowerCase (FormulaItem.note item)) "base") eqn:E4.
  { apply String.eqb_eq in E4. rewrite E4. cbn. ring. }
  destruct (String.eqb (Js.toLowerCase (FormulaItem.note item)) "solvent");
    cbn [NoteBuckets.top NoteBuckets.mid NoteBuckets.base NoteBuckets.other];
    ring.
Qed.

Lemma noteLoop_total (formula : list FormulaItem.t) :
  bucketsTotal (fold_left noteStep formula (NoteBuckets.mk 0 0 0 0))
  == sumOver aromaticOf formula.
Proof.
  unfold sumOver.
  assert (H : forall acc,
             bucketsTotal (fold_left noteStep formula acc)
             == bucketsTotal acc + sumQ (map aromaticOf formula)).
  { induction formula as [| i formula IH]; intros acc;
      cbn [fold_left map sumQ]; [ring |].
    rewrite IH, noteStep_total. ring. }
  rewrite H. unfold bucketsTotal. cbn. ring.
Qed.

(** The solvent bucket of the note breakdown is never negative; with
    non-negative weights and dilutions between 0 and 1 the five buckets add
    up to the total weight of the batch. *)
Theorem noteBreakdown_partition (INGREDIENTS : list Ingredient.t)
    (formula : list FormulaItem.t) :
  let nb := noteBreakdown INGREDIENTS formula in
  0 <= NoteBreakdown.solvent nb
  /\ (Forall (fun i => 0 <= FormulaItem.weight i
                       /\ 0 <= FormulaItem.dilution i
                       /\ FormulaItem.dilution i <= 1) formula ->
      NoteBreakdown.top nb + NoteBreakdown.mid nb + NoteBreakdown.base nb
      + NoteBreakdown.other nb + NoteBreakdown.solvent nb
      == FormulationStats.totalWeight (calculateStats INGREDIENTS formula)).
Proof.
  cbv zeta. unfold noteBreakdown.
  cbn [NoteBreakdown.solvent NoteBreakdown.top NoteBreakdown.mid
       NoteBreakdown.base NoteBreakdown.other].
  pose proof (noteLoop_total formula) as Ht. unfold bucketsTotal in Ht.
  set (acc := fold_left noteStep formula (NoteBuckets.mk 0 0 0 0)) in *.
  destruct (calculateStats_sums INGREDIENTS formula) as (Hw & _).
  set (total := FormulationStats.totalWeight
                  (calculateStats INGREDIENTS formula)) in *.
  unfold mathMax. split.
  - destruct (Js.Qltb 0 _) eqn:E; qprops; lra.
  - intros Hwf.
    assert (Hle : sumOver aromaticOf formula
                  <= sumOver FormulaItem.weight formula).
    { unfold sumOver. clear -Hwf.
      induction Hwf as [| i formula (H1 & H2 & H3) _ IH]; cbn [map sumQ];
        [lra |].
      assert (aromaticOf i <= FormulaItem.weight i);
        [unfold aromaticOf; destruct (String.eqb _ _); nra | lra]. }
    destruct (Js.Qltb 0 _) eqn:E; qprops; lra.
Qed.

Lemma noteBreakdown_partition_witness :
  NoteBreakdown.top (noteBreakdown [] [Sample.bergamot; Sample.tincture])
  + NoteBreakdown.mid (noteBreakdown [] [Sample.bergamot; Sample.tincture])
  + NoteBreakdown.base (noteBreakdown [] [Sample.bergamot; Sample.tincture])
  + NoteBreakdown.other (noteBreakdown [] [Sample.bergamot; Sample.tincture])
  + NoteBreakdown.solvent (noteBreakdown [] [Sample.bergamot; Sample.tincture])
  == FormulationStats.totalWeight
       (calculateStats [] [Sample.bergamot; Sample.tincture]).
Proof.
  refine (proj2 (noteBreakdown_partition
                   [] [Sample.bergamot; Sample.tincture]) _).
  repeat constructor; cbn; lra.
Defined.

(** ** Shares and issues *)

(** The percentages shown beside the items add up to 100 whenever the batch
    has a positive weight. *)
Theorem percents_sum_to_100 (INGREDIENTS : list Ingredient.t)
    (formula : list FormulaItem.t) :
  0 < FormulationStats.totalWeight (calculateStats INGREDIENTS formula) ->
  sumOver (percentOf (calculateStats INGREDIENTS formula)) formula == 100.
Proof.
  intros Hpos.
  destruct (calculateStats_sums INGREDIENTS formula) as (Hw & _).
  set (total := FormulationStats.totalWeight
                  (calculateStats INGREDIENTS formula)) in *.
  unfold sumOver.
  rewrite (sumQ_map_ext _ (fun i => FormulaItem.weight i * (/ total * 100))).
  - rewrite sumQ_map_scale. fold (sumOver FormulaItem.weight formula).
    rewrite <- Hw. field. lra.
  - intros i. unfold percentOf. fold total.
    apply Qltb_lt in Hpos. rewrite Hpos. unfold Qdiv. ring.
Qed.

Lemma percents_sum_to_100_witness :
  sumOver (percentOf (calculateStats [] [Sample.tincture; Sample.neatMusk]))
          [Sample.tincture; Sample.neatMusk]
  == 100.
Proof.
  apply (percents_sum_to_100 [] [Sample.tincture; Sample.neatMusk]).
  reflexivity.
Defined.

(** A substance that the library bans outright (typed prohibited, no number
    for the category) is counted as an issue as soon as the formula names
    it, even when its accumulated mass is zero. *)
Theorem banned_substance_is_an_issue (IFRA_LIBRARY : gmap string IFRAEntry.t)
    (formula : list FormulaItem.t) (totalBatchWeight : Q)
    (targetCategory cas : string) (m : Q) (entry : IFRAEntry.t) :
  ~ totalBatchWeight == 0 ->
  Js.get (CasState.massByCas (casLoop formula)) cas = Some m ->
  IFRA_LIBRARY !! cas = Some entry ->
  bannedOutright entry targetCategory ->
  (exists r,
     r ∈ checkCompliance IFRA_LIBRARY formula totalBatchWeight targetCategory
     /\ ComplianceResult.cas r = cas
     /\ isIssue r = true)
  /\ (0 < nonCompliantCount
            (checkCompliance IFRA_LIBRARY formula totalBatchWeight
               targetCategory))%nat.
Proof.
  intros Hnz Hm He [Ht Hl].
  assert (Hlim : limitPercentOf entry targetCategory = 0).
  { unfold limitPercentOf. apply String.eqb_eq in Ht.
    destruct (IFRAEntry.limits entry) as [limits |]; [| now rewrite Ht].
    now rewrite (Hl limits eq_refl), Ht. }
  assert (Hex : exists r,
             r ∈ checkCompliance IFRA_LIBRARY formula totalBatchWeight
                   targetCategory
             /\ ComplianceResult.cas r = cas /\ isIssue r = true).
  { eexists. split.
    - apply checkCompliance_rows; [exact Hnz |].
      exists cas, m. split; [exact Hm |].
      apply complianceRow_inv. exists entry. split; [exact He | reflexivity].
    - split; [reflexivity |].
      unfold isIssue. cbn [ComplianceResult.limit]. rewrite Hlim.
      apply orb_true_r. }
  split; [exact Hex |].
  destruct Hex as (r & Hr & _ & Hi). unfold nonCompliantCount.
  apply list_elem_of_In in Hr.
  assert (Hin : In r (List.filter isIssue
                        (checkCompliance IFRA_LIBRARY formula totalBatchWeight
                           targetCategory)))
    by (apply filter_In; now split).
  destruct (List.filter isIssue _); [destruct Hin | cbn; lia].
Qed.

Lemma banned_substance_is_an_issue_witness :
  (0 < nonCompliantCount
         (checkCompliance SampleLibrary.prohibitedWithTable
            [withWeight Sample.bergamot 0; Sample.neatMusk] 10 "9"))%nat.
Proof.
  refine (proj2 (banned_substance_is_an_issue
                   SampleLibrary.prohibitedWithTable
                   [withWeight Sample.bergamot 0; Sample.neatMusk] 10 "9"
                   "484-20-8" (0 + 0 * 1.0 * 0.002)
                   (IFRAEntry.mk "Bergapten" "prohibited"
                      (Some {[ "4" := 0.4 ]})) _ eq_refl eq_refl _)).
  - discriminate.
  - split; [reflexivity |]. intros limits [= <-]. reflexivity.
Defined.

(** ** Scaling an accord *)

Lemma weightOf_sum (items : list FormulaItem.t) :
  weightOf items == sumOver FormulaItem.weight items.
Proof.
  unfold weightOf, sumOver.
  assert (H : forall acc,
             fold_left (fun sum i => sum + FormulaItem.weight i) items acc
             == acc + sumQ (map FormulaItem.weight items)).
  { induction items as [| i items IH]; intros acc; cbn [fold_left map sumQ];
      [ring |].
    rewrite IH. ring. }
  rewrite H. ring.
Qed.

Lemma scaleMembers_step (accordId : string) (ratio : Q) (i : FormulaItem.t) :
  sameId (FormulaItem.accordId
            (if sameId (FormulaItem.accordId i) accordId
             then withWeight i (FormulaItem.weight i * ratio) else i))
         accordId
  = sameId (FormulaItem.accordId i) accordId.
Proof. now destruct (sameId (FormulaItem.accordId i) accordId) eqn:E. Qed.

Lemma scaleMembers_weight (accordId : string) (ratio : Q)
    (formula : list FormulaItem.t) :
  sumOver FormulaItem.weight
    (List.filter (fun i => sameId (FormulaItem.accordId i) accordId)
       (map (fun item => if sameId (FormulaItem.accordId item) accordId
                         then withWeight item (FormulaItem.weight item * ratio)
                         else item) formula))
  == sumOver FormulaItem.weight
       (List.filter (fun i => sameId (FormulaItem.accordId i) accordId)
                    formula) * ratio.
Proof.
  unfold sumOver.
  induction formula as [| i formula IH]; cbn [map List.filter sumQ]; [ring |].
  rewrite scaleMembers_step.
  destruct (sameId (FormulaItem.accordId i) accordId);
    cbn [map sumQ withWeight FormulaItem.weight]; rewrite ?IH; [ring |].
  reflexivity.
Qed.

Lemma scaleMembers_others (accordId : string) (ratio : Q)
    (formula : list FormulaItem.t) :
  List.filter (fun i => negb (sameId (FormulaItem.accordId i) accordId))
    (map (fun item => if sameId (FormulaItem.accordId item) accordId
                      then withWeight item (FormulaItem.weight item * ratio)
                      else item) formula)
  = List.filter (fun i => negb (sameId (FormulaItem.accordId i) accordId))
                formula.
Proof.
  induction formula as [| i formula IH]; cbn [map List.filter]; [reflexivity |].
  rewrite scaleMembers_step.
  destruct (sameId (FormulaItem.accordId i) accordId); cbn [negb];
    now rewrite IH.
Qed.

Lemma scaleMembers_uuid (accordId : string) (ratio : Q)
    (formula : list FormulaItem.t) :
  map FormulaItem.uuid
    (map (fun item => if sameId (FormulaItem.accordId item) accordId
                      then withWeight item (FormulaItem.weight item * ratio)
                      else item) formula)
  = map FormulaItem.uuid formula.
Proof.
  induction formula as [| i formula IH]; cbn [map]; [reflexivity |].
  rewrite IH. now destruct (sameId (FormulaItem.accordId i) accordId).
Qed.

(** Scaling an accord gives its lines the target weight in total and
    leaves every other line of the formula as it was. *)
Theorem handleScaleAccord_reaches_target (accordId : string)
    (targetWeight : option Q) (formula formula' : list FormulaItem.t) :
  handleScaleAccord accordId targetWeight formula = Some formula' ->
  exists target,
    targetWeight = Some target
    /\ weightOf (List.filter
                   (fun i => sameId (FormulaItem.accordId i) accordId)
                   formula') == target
    /\ List.filter (fun i => negb (sameId (FormulaItem.accordId i) accordId))
                   formula'
       = List.filter (fun i => negb (sameId (FormulaItem.accordId i) accordId))
                     formula
    /\ map FormulaItem.uuid formula' = map FormulaItem.uuid formula.
Proof.
  unfold handleScaleAccord.
  destruct (List.filter _ formula) as [| g gs] eqn:Eg; [discriminate |].
  rewrite <- Eg. clear g gs Eg.
  destruct (Qle_bool (weightOf _) 0) eqn:Ec; [discriminate |].
  destruct targetWeight as [target |]; [| discriminate].
  destruct (Js.Qltb target 0) eqn:Et; [discriminate |].
  intros [= <-]. qprops. exists target. split; [reflexivity |].
  split; [| split].
  - rewrite weightOf_sum, scaleMembers_weight, <- weightOf_sum. field. lra.
  - apply scaleMembers_others.
  - apply scaleMembers_uuid.
Qed.

Lemma handleScaleAccord_reaches_target_witness :
  exists target,
    Some 30 = Some target
    /\ weightOf
         (List.filter (fun i => sameId (FormulaItem.accordId i) "a1")
            (map (fun item =>
                    if sameId (FormulaItem.accordId item) "a1"
                    then withWeight item
                           (FormulaItem.weight item * (30 / (0 + 10 + 10)))
                    else item)
                 [SampleLibrary.inAccord Sample.tincture;
                  Sample.perfumersAlcohol;
                  SampleLibrary.inAccord Sample.neatMusk]))
       == target.
Proof.
  destruct (handleScaleAccord_reaches_target "a1" (Some 30)
              [SampleLibrary.inAccord Sample.tincture;
               Sample.perfumersAlcohol;
               SampleLibrary.inAccord Sample.neatMusk] _ eq_refl)
    as (target & Ht & Hw & _).
  exists target. now split.
Defined.

(** ** Accord templates *)

Lemma template_ratios (totalWeight : Q) (items : list FormulaItem.t) :
  ~ totalWeight == 0 ->
  sumQ (map AccordTemplateItem.ratio (map (toTemplateItem totalWeight) items))
  == sumOver FormulaItem.weight items / totalWeight.
Proof.
  intros Hnz. unfold sumOver.
  induction items as [| i items IH]; cbn [map sumQ].
  - unfold Qdiv. ring.
  - rewrite IH. cbn [toTemplateItem AccordTemplateItem.ratio]. field. exact Hnz.
Qed.

Lemma handleSaveAsTemplate_inv (newId : string) (now : Q) (name : string)
    (saveTemplateGroupId : option string) (accordGroups : list AccordGroup.t)
    (formula : list FormulaItem.t) (template : AccordTemplate.t) :
  handleSaveAsTemplate newId now name saveTemplateGroupId accordGroups formula
  = Some template ->
  exists groupId,
    saveTemplateGroupId = Some groupId
    /\ 0 < weightOf (List.filter
                       (fun i => sameId (FormulaItem.accordId i) groupId)
                       formula)
    /\ template
       = AccordTemplate.mk newId (Js.trim name) now
           (map (toTemplateItem
                   (weightOf (List.filter
                                (fun i => sameId (FormulaItem.accordId i)
                                                 groupId) formula)))
                (List.filter (fun i => sameId (FormulaItem.accordId i) groupId)
                             formula)).
Proof.
  unfold handleSaveAsTemplate.
  destruct saveTemplateGroupId as [[| c g] |]; cbn [Js.truthy];
    try discriminate.
  destruct (find _ accordGroups); [| discriminate].
  destruct (List.filter _ formula) as [| i items] eqn:E; [discriminate |].
  rewrite <- E. clear i items E.
  destruct (Qle_bool (weightOf _) 0) eqn:Ew; [discriminate |].
  intros [= <-]. qprops. eexists. split; [reflexivity |]. now split.
Qed.

(** The shares stored in a saved template add up to 1. *)
Theorem saved_template_ratios_sum_to_1 (newId : string) (now : Q)
    (name : string) (saveTemplateGroupId : option string)
    (accordGroups : list AccordGroup.t) (formula : list FormulaItem.t)
    (template : AccordTemplate.t) :
  handleSaveAsTemplate newId now name saveTemplateGroupId accordGroups formula
  = Some template ->
  sumQ (map AccordTemplateItem.ratio (AccordTemplate.items template)) == 1.
Proof.
  intros H. apply handleSaveAsTemplate_inv in H as (g & _ & Hpos & ->).
  cbn [AccordTemplate.items].
  rewrite template_ratios by lra. rewrite <- weightOf_sum. field. lra.
Qed.

Lemma imap_fromTemplate_weight (newGroupId : string) (targetWeight : Q)
    (tItems : list AccordTemplateItem.t) :
  forall uuidOf : nat -> string,
    sumOver FormulaItem.weight
      (imap (fun k tItem =>
               fromTemplateItem (uuidOf k) newGroupId targetWeight tItem)
            tItems)
    == sumQ (map AccordTemplateItem.ratio tItems) * targetWeight.
Proof.
  unfold sumOver.
  induction tItems as [| t tItems IH]; intros uuidOf; cbn [imap map sumQ].
  - ring.
  - unfold compose. rewrite (IH (fun k => uuidOf (S k))).
    cbn [fromTemplateItem FormulaItem.weight]. ring.
Qed.

(** Inserting a template whose shares add up to 1 appends lines that weigh
    the requested weight in total, in a new accord of their own, and
    leaves the lines already there untouched. *)
Theorem handleInsertTemplate_weight (newGroupId : string)
    (uuidOf : nat -> string) (templateId : string) (targetWeight : Q)
    (accordTemplates : list AccordTemplate.t)
    (accordGroups accordGroups' : list AccordGroup.t)
    (formula formula' : list FormulaItem.t) (template : AccordTemplate.t) :
  find (fun t => String.eqb (AccordTemplate.id t) templateId) accordTemplates
  = Some template ->
  sumQ (map AccordTemplateItem.ratio (AccordTemplate.items template)) == 1 ->
  handleInsertTemplate newGroupId uuidOf templateId targetWeight
    accordTemplates accordGroups formula = Some (accordGroups', formula') ->
  exists newItems,
    formula' = (formula ++ newItems)%list
    /\ length newItems = length (AccordTemplate.items template)
    /\ weightOf newItems == targetWeight
    /\ Forall (fun i => FormulaItem.accordId i = Some newGroupId) newItems
    /\ accordGroups'
       = (accordGroups
          ++ [AccordGroup.mk newGroupId (AccordTemplate.name template)
                (Some false)])%list.
Proof.
  intros Hf Hsum. unfold handleInsertTemplate. rewrite Hf. intros [= <- <-].
  exists (imap (fun k tItem =>
                  fromTemplateItem (uuidOf k) newGroupId targetWeight tItem)
               (AccordTemplate.items template)).
  split; [reflexivity |]. split; [apply length_imap |].
  split; [| split; [| reflexivity]].
  - rewrite weightOf_sum, imap_fromTemplate_weight, Hsum. ring.
  - clear Hsum. generalize uuidOf.
    induction (AccordTemplate.items template) as [| t ts IH]; intros u;
      cbn [imap]; constructor.
    + reflexivity.
    + apply IH.
Qed.

Lemma saved_template_ratios_sum_to_1_witness :
  sumQ (map AccordTemplateItem.ratio
          (AccordTemplate.items SampleAccord.template)) == 1.
Proof.
  apply (saved_template_ratios_sum_to_1 "t1" 0 " Base " (Some "a1")
           SampleAccord.groups SampleAccord.formula SampleAccord.template).
  reflexivity.
Defined.

Lemma handleInsertTemplate_weight_witness :
  exists newItems,
    (SampleAccord.formula
     ++ imap (fun k tItem =>
                fromTemplateItem (SampleAccord.uuidOf k) "g2" 50 tItem)
             (AccordTemplate.items SampleAccord.template))%list
    = (SampleAccord.formula ++ newItems)%list
    /\ weightOf newItems == 50.
Proof.
  destruct (handleInsertTemplate_weight "g2" SampleAccord.uuidOf "t1" 50
              [SampleAccord.template] SampleAccord.groups _
              SampleAccord.formula _ SampleAccord.template
              eq_refl eq_refl eq_refl)
    as (newItems & H1 & _ & H2 & _).
  exists newItems. now split.
Defined.

Lemma imap_fromTemplate_lines (newGroupId : string) (totalWeight : Q)
    (items : list FormulaItem.t) :
  ~ totalWeight == 0 ->
  forall uuidOf : nat -> string,
    Forall2 sameLine items
      (imap (fun k tItem =>
               fromTemplateItem (uuidOf k) newGroupId totalWeight tItem)
            (map (toTemplateItem totalWeight) items)).
Proof.
  intros Hnz.
  induction items as [| i items IH]; intros uuidOf; cbn [map imap];
    constructor.
  - unfold sameLine.
    cbn [fromTemplateItem toTemplateItem FormulaItem.weight
         AccordTemplateItem.ratio].
    repeat split. field. exact Hnz.
  - apply IH.
Qed.

(** Saving an accord as a template and inserting that template at the
    weight the accord had gives back the lines of the accord: the same
    weights and the same copied fields, in the same order. *)
Theorem template_round_trip (newId : string) (now : Q) (name groupId : string)
    (accordGroups : list AccordGroup.t) (formula : list FormulaItem.t)
    (template : AccordTemplate.t) (newGroupId : string)
    (uuidOf : nat -> string) (accordTemplates : list AccordTemplate.t)
    (currentGroups : list AccordGroup.t) (currentFormula : list FormulaItem.t) :
  handleSaveAsTemplate newId now name (Some groupId) accordGroups formula
  = Some template ->
  find (fun t => String.eqb (AccordTemplate.id t) newId) accordTemplates
  = Some template ->
  let members :=
    List.filter (fun i => sameId (FormulaItem.accordId i) groupId) formula in
  exists newGroups newItems,
    handleInsertTemplate newGroupId uuidOf newId (weightOf members)
      accordTemplates currentGroups currentFormula
    = Some (newGroups, (currentFormula ++ newItems)%list)
    /\ Forall2 sameLine members newItems.
Proof.
  intros Hs Hf. cbv zeta.
  apply handleSaveAsTemplate_inv in Hs as (g & [= <-] & Hpos & ->).
  unfold handleInsertTemplate. rewrite Hf. cbn [AccordTemplate.items].
  eexists. eexists. split; [reflexivity |].
  apply imap_fromTemplate_lines. lra.
Qed.

Lemma template_round_trip_witness :
  exists newGroups newItems,
    handleInsertTemplate "g2" SampleAccord.uuidOf "t1"
      (weightOf (List.filter
                   (fun i => sameId (FormulaItem.accordId i) "a1")
                   SampleAccord.formula))
      [SampleAccord.template] SampleAccord.groups SampleAccord.formula
    = Some (newGroups, (SampleAccord.formula ++ newItems)%list)
    /\ Forall2 sameLine
         (List.filter (fun i => sameId (FormulaItem.accordId i) "a1")
                      SampleAccord.formula)
         newItems.
Proof.
  apply (template_round_trip "t1" 0 " Base " "a1" SampleAccord.groups
           SampleAccord.formula SampleAccord.template);
    reflexivity.
Defined.

(** ** Synchronising costs with the inventory *)

Lemma costOnly_refl (i : FormulaItem.t) : costOnly i i.
Proof. exists (FormulaItem.costPerKg i). now destruct i. Qed.

Lemma costOnly_casLoop (l l' : list FormulaItem.t) :
  Forall2 costOnly l l' -> casLoop l' = casLoop l.
Proof.
  unfold casLoop. generalize (CasState.mk [] ∅).
  intros st H. revert st.
  induction H as [| i i' l l' [c ->] _ IH]; intros st; cbn [fold_left];
    [reflexivity |].
  apply IH.
Qed.

Lemma costOnly_solventLoop (l l' : list FormulaItem.t) :
  Forall2 costOnly l l' -> solventLoop l' = solventLoop l.
Proof.
  unfold solventLoop. generalize (SolventState.mk [] 0 0).
  intros st H. revert st.
  induction H as [| i i' l l' [c ->] _ IH]; intros st; cbn [fold_left];
    [reflexivity |].
  apply IH.
Qed.

Lemma costOnly_sum (f : FormulaItem.t -> Q) (l l' : list FormulaItem.t) :
  (forall i c, f (withCostPerKg i c) = f i) ->
  Forall2 costOnly l l' -> sumOver f l' = sumOver f l.
Proof.
  intros Hf. unfold sumOver.
  induction 1 as [| i i' l l' [c ->] _ IH]; cbn [map sumQ]; [reflexivity |].
  now rewrite IH, Hf.
Qed.

Lemma handleSyncCosts_costOnly (INGREDIENTS : list Ingredient.t)
    (inventory : list InventoryItem.t) (formula formula' : list FormulaItem.t) :
  handleSyncCosts INGREDIENTS inventory formula = Some formula' ->
  Forall2 costOnly formula formula'.
Proof.
  unfold handleSyncCosts. destruct inventory as [| inv0 inventory];
    [discriminate |].
  intros [= <-]. generalize (inv0 :: inventory). intros inv.
  induction formula as [| i formula IH]; cbn [map]; constructor; [| exact IH].
  destruct (inventoryMatch INGREDIENTS inv i) as [m |];
    [now eexists | apply costOnly_refl].
Qed.

(** Synchronising costs with the inventory changes nothing but costs: the
    compliance report, the solvent analysis and the weight, volume and
    concentrate of the batch stay as they were. *)
Theorem handleSyncCosts_changes_costs_only (INGREDIENTS : list Ingredient.t)
    (IFRA_LIBRARY : gmap string IFRAEntry.t)
    (inventory : list InventoryItem.t) (formula formula' : list FormulaItem.t)
    (totalBatchWeight : Q) (targetCategory : string) :
  handleSyncCosts INGREDIENTS inventory formula = Some formula' ->
  Forall2 costOnly formula formula'
  /\ checkCompliance IFRA_LIBRARY formula' totalBatchWeight targetCategory
     = checkCompliance IFRA_LIBRARY formula totalBatchWeight targetCategory
  /\ calculateSolventBreakdown formula' = calculateSolventBreakdown formula
  /\ FormulationStats.totalWeight (calculateStats INGREDIENTS formula')
     == FormulationStats.totalWeight (calculateStats INGREDIENTS formula)
  /\ FormulationStats.totalVolume (calculateStats INGREDIENTS formula')
     == FormulationStats.totalVolume (calculateStats INGREDIENTS formula)
  /\ FormulationStats.concentrateMass (calculateStats INGREDIENTS formula')
     == FormulationStats.concentrateMass (calculateStats INGREDIENTS formula).
Proof.
  intros H. apply handleSyncCosts_costOnly in H.
  split; [exact H |]. split; [| split].
  - unfold checkCompliance. now rewrite (costOnly_casLoop _ _ H).
  - unfold calculateSolventBreakdown. now rewrite (costOnly_solventLoop _ _ H).
  - destruct (calculateStats_sums INGREDIENTS formula) as (H1 & H2 & _ & H4).
    destruct (calculateStats_sums INGREDIENTS formula') as (S1 & S2 & _ & S4).
    rewrite H1, H2, H4, S1, S2, S4.
    rewrite (costOnly_sum FormulaItem.weight _ _ (fun i c => eq_refl) H).
    rewrite (costOnly_sum
               (fun i => FormulaItem.weight i / specDensity INGREDIENTS i)
               _ _ (fun i c => eq_refl) H).
    rewrite (costOnly_sum
               (fun i => FormulaItem.weight i * FormulaItem.dilution i)
               _ _ (fun i c => eq_refl) H).
    now repeat split.
Qed.

Lemma handleSyncCosts_changes_costs_only_witness :
  checkCompliance SampleLibrary.bergaptenCategory4
    (map (fun fItem =>
            match inventoryMatch [] SampleAccord.inventory fItem with
            | Some m => withCostPerKg fItem (InventoryItem.costPerKg m)
            | None => fItem
            end) [Sample.bergamot; Sample.neatMusk]) 1010 "4"
  = checkCompliance SampleLibrary.bergaptenCategory4
      [Sample.bergamot; Sample.neatMusk] 1010 "4".
Proof.
  refine (proj1 (proj2 (handleSyncCosts_changes_costs_only
                          [] SampleLibrary.bergaptenCategory4
                          SampleAccord.inventory
                          [Sample.bergamot; Sample.neatMusk] _ 1010 "4" _))).
  reflexivity.
Defined.

(** ** The solvent calculator *)

Lemma weight_insert (l : list FormulaItem.t) (k : nat) (row : FormulaItem.t)
    (w : Q) :
  l !! k = Some row ->
  sumOver FormulaItem.weight (<[k := withWeight row w]> l)
  == sumOver FormulaItem.weight l - FormulaItem.weight row + w.
Proof.
  unfold sumOver. revert k.
  induction l as [| x l IH]; intros [| k] H; try discriminate.
  - injection H as ->.
    change (<[O := withWeight row w]> (row :: l)) with (withWeight row w :: l).
    cbn [map sumQ withWeight FormulaItem.weight]. ring.
  - cbn in H. change (<[S k := withWeight row w]> (x :: l))
      with (x :: <[k := withWeight row w]> l).
    cbn [map sumQ]. rewrite (IH k H). ring.
Qed.

Lemma weight_app (l1 l2 : list FormulaItem.t) :
  sumOver FormulaItem.weight (l1 ++ l2)
  == sumOver FormulaItem.weight l1 + sumOver FormulaItem.weight l2.
Proof. unfold sumOver. rewrite map_app. apply sumQ_app. Qed.

(** When the solvent calculator changes the formula, the new formula
    weighs exactly what makes the concentrate it had the target percentage
    of the batch: the old concentrate divided by target / 100.  It changes
    either the weight of one existing row or appends one row. *)
Theorem handleAdjustSolvent_total (INGREDIENTS : list Ingredient.t)
    (uuid : string) (targetPercent : Q) (selectedSolvent : string)
    (formula formula' : list FormulaItem.t) :
  handleAdjustSolvent INGREDIENTS uuid targetPercent selectedSolvent formula
    (calculateStats INGREDIENTS formula) = Some formula' ->
  0 < targetPercent /\ targetPercent < 100
  /\ FormulationStats.totalWeight (calculateStats INGREDIENTS formula')
     == FormulationStats.concentrateMass (calculateStats INGREDIENTS formula)
        / (targetPercent / 100)
  /\ exists w, 0 < w
       /\ ((exists k row, formula !! k = Some row
                          /\ formula' = <[k := withWeight row w]> formula)
           \/ formula' = (formula ++ [newSolventRow INGREDIENTS uuid
                                        selectedSolvent w])%list).
Proof.
  unfold handleAdjustSolvent.
  destruct (Qeq_bool targetPercent 0) eqn:E0; [discriminate |].
  destruct (Qle_bool targetPercent 0) eqn:E1; [discriminate |].
  destruct (Qle_bool 100 targetPercent) eqn:E2; [discriminate |].
  cbn [orb].
  destruct (Qeq_bool (FormulationStats.concentrateMass _) 0) eqn:E3;
    [discriminate |].
  cbv zeta.
  destruct (calculateStats_sums INGREDIENTS formula) as (Hw & _).
  set (C := FormulationStats.concentrateMass
              (calculateStats INGREDIENTS formula)) in *.
  set (T := FormulationStats.totalWeight
              (calculateStats INGREDIENTS formula)) in *.
  destruct (findIndex _ formula) as [k |].
  - destruct (formula !! k) as [row |] eqn:Ek.
    + destruct (Qle_bool (C / _ - _) 0) eqn:E4; [discriminate |].
      intros [= <-]. qprops. split; [exact E1 |]. split; [exact E2 |].
      split.
      * destruct (calculateStats_sums INGREDIENTS
                    (<[k := withWeight row
                              (C / (targetPercent / 100)
                               - (T - FormulaItem.weight row))]> formula))
          as (Hw' & _).
        rewrite Hw', (weight_insert _ _ _ _ Ek), <- Hw. ring.
      * eexists. split; [exact E4 |]. left. now exists k, row.
    + destruct (Qle_bool (C / _ - _) 0); discriminate.
  - destruct (Qle_bool (C / _ - _) 0) eqn:E4; [discriminate |].
    intros [= <-]. qprops. split; [exact E1 |]. split; [exact E2 |].
    split.
    + match goal with
      | |- FormulationStats.totalWeight (calculateStats _ ?f) == _ =>
          destruct (calculateStats_sums INGREDIENTS f) as (Hw' & _)
      end.
      rewrite Hw', weight_app, <- Hw. unfold sumOver.
      cbn [map sumQ newSolventRow FormulaItem.weight]. ring.
    + eexists. split; [exact E4 |]. now right.
Qed.

Lemma handleAdjustSolvent_total_witness :
  FormulationStats.totalWeight
    (calculateStats []
       ([Sample.neatMusk]
        ++ [newSolventRow [] "u9" "Ethanol" (10 / (20 / 100) - (10 - 0))])%list)
  == FormulationStats.concentrateMass (calculateStats [] [Sample.neatMusk])
     / (20 / 100).
Proof.
  refine (proj1 (proj2 (proj2 (handleAdjustSolvent_total
                                 [] "u9" 20 "Ethanol" [Sample.neatMusk] _ _)))).
  reflexivity.
Defined.

(** ** The sources of a row *)

Lemma setAdd_spec (s : list string) (x y : string) :
  y ∈ setAdd s x <-> y ∈ s \/ y = x.
Proof.
  unfold setAdd. destruct (existsb (String.eqb x) s) eqn:E.
  - split; [tauto |]. intros [H | ->]; [exact H |].
    apply existsb_exists in E as (z & Hz & Hx).
    apply String.eqb_eq in Hx. subst z. now apply list_elem_of_In.
  - rewrite elem_of_app, list_elem_of_singleton. reflexivity.
Qed.

Lemma setAdd_NoDup (s : list string) (x : string) :
  NoDup s -> NoDup (setAdd s x).
Proof.
  intros H. unfold setAdd. destruct (existsb (String.eqb x) s) eqn:E;
    [exact H |].
  apply NoDup_app. split; [exact H |]. split; [| apply NoDup_singleton].
  intros y Hy Hx. apply list_elem_of_singleton in Hx. subst y.
  assert (Ht : existsb (String.eqb x) s = true); [| congruence].
  apply existsb_exists. exists x. split; [now apply list_elem_of_In |].
  apply String.eqb_refl.
Qed.

Lemma attribute_sources (st : CasState.t) (cas : string) (m : Q)
    (source other : string) :
  casSources (attribute st cas m source) other
  = if String.eqb cas other then setAdd (casSources st cas) source
    else casSources st other.
Proof.
  unfold casSources, attribute. cbn [CasState.sourcesByCas].
  destruct (String.eqb cas other) eqn:E.
  - apply String.eqb_eq in E. subst other. now rewrite lookup_insert_eq.
  - apply String.eqb_neq in E. now rewrite lookup_insert_ne.
Qed.

Lemma attribute_sources_grow (st : CasState.t) (cas : string) (m : Q)
    (source other y : string) :
  y ∈ casSources st other ->
  y ∈ casSources (attribute st cas m source) other.
Proof.
  intros H. rewrite attribute_sources.
  destruct (String.eqb cas other) eqn:E; [| exact H].
  apply String.eqb_eq in E. subst other. apply setAdd_spec. now left.
Qed.

Lemma attribute_sources_NoDup (st : CasState.t) (cas : string) (m : Q)
    (source : string) :
  (forall c, NoDup (casSources st c)) ->
  forall c, NoDup (casSources (attribute st cas m source) c).
Proof.
  intros H c. rewrite attribute_sources.
  destruct (String.eqb cas c); [apply setAdd_NoDup |]; apply H.
Qed.

(** The expansion of an item over a list of constituents. *)
Lemma expansion_sources (item : FormulaItem.t) (ks : list NCSConstituent.t) :
  forall st,
    let st' :=
      fold_left
        (fun s constituent =>
           attribute s (NCSConstituent.cas constituent)
             (FormulaItem.weight item * FormulaItem.dilution item
              * NCSConstituent.percent constituent)
             (hiddenSource (FormulaItem.name item)
                           (NCSConstituent.name constituent)))
        ks st in
    (forall c y, y ∈ casSources st c -> y ∈ casSources st' c)
    /\ ((forall c, NoDup (casSources st c)) ->
        forall c, NoDup (casSources st' c))
    /\ (forall k, k ∈ ks ->
          hiddenSource (FormulaItem.name item) (NCSConstituent.name k)
            ∈ casSources st' (NCSConstituent.cas k)).
Proof.
  induction ks as [| k ks IH]; intros st; cbn [fold_left]; cbv zeta.
  - split; [tauto |]. split; [tauto |]. intros k Hk.
    now apply elem_of_nil in Hk.
  - destruct (IH (attribute st (NCSConstituent.cas k)
                    (FormulaItem.weight item * FormulaItem.dilution item
                     * NCSConstituent.percent k)
                    (hiddenSource (FormulaItem.name item)
                                  (NCSConstituent.name k))))
      as (Hg & Hn & Hk). cbv zeta in *.
    split; [| split].
    + intros c y Hy. apply Hg. now apply attribute_sources_grow.
    + intros H. apply Hn. now apply attribute_sources_NoDup.
    + intros k' Hk'. apply elem_of_cons in Hk' as [-> | Hk']; [| now apply Hk].
      apply Hg. rewrite attribute_sources, String.eqb_refl.
      apply setAdd_spec. now right.
Qed.

Lemma attributeItem_sources (st : CasState.t) (item : FormulaItem.t) :
  (forall c y, y ∈ casSources st c -> y ∈ casSources (attributeItem st item) c)
  /\ ((forall c, NoDup (casSources st c)) ->
      forall c, NoDup (casSources (attributeItem st item) c))
  /\ (forall c, directCasOf item = Some c ->
        FormulaItem.name item ∈ casSources (attributeItem st item) c)
  /\ (forall profile k,
        linkedProfile item = Some profile -> k ∈ NCS.constituents profile ->
        hiddenSource (FormulaItem.name item) (NCSConstituent.name k)
          ∈ casSources (attributeItem st item) (NCSConstituent.cas k)).
Proof.
  unfold attributeItem, directCasOf, linkedProfile.
  set (direct := negb (String.eqb (Js.trim (FormulaItem.cas item)) "")
                 && negb (String.eqb (Js.trim (FormulaItem.cas item))
                                     "Mixture")).
  set (st1 := if direct then attribute st _ _ _ else st).
  assert (H1 : (forall c y, y ∈ casSources st c -> y ∈ casSources st1 c)
               /\ ((forall c, NoDup (casSources st c)) ->
                   forall c, NoDup (casSources st1 c))
               /\ (forall c, (if direct
                              then Some (Js.trim (FormulaItem.cas item))
                              else None) = Some c ->
                     FormulaItem.name item ∈ casSources st1 c)).
  { subst st1. destruct direct.
    - split; [| split].
      + intros c y Hy. now apply attribute_sources_grow.
      + intros H. now apply attribute_sources_NoDup.
      + intros c [= <-]. rewrite attribute_sources, String.eqb_refl.
        apply setAdd_spec. now right.
    - split; [tauto |]. split; [tauto | discriminate]. }
  destruct H1 as (G1 & N1 & D1). clearbody st1.
  destruct (Js.truthy (FormulaItem.ingredientId item)) as [ingredientId |];
    [destruct (findNcs ingredientId) as [ncsProfile |] |];
    try (split; [exact G1 |]; split; [exact N1 |]; split; [exact D1 |];
         discriminate).
  destruct (expansion_sources item (NCS.constituents ncsProfile) st1)
    as (G2 & N2 & K2). cbv zeta in *.
  split; [| split; [| split]].
  - intros c y Hy. apply G2, G1, Hy.
  - intros H. apply N2, N1, H.
  - intros c Hc. apply G2, D1, Hc.
  - intros profile k [= <-]. apply K2.
Qed.

Lemma casLoop_sources (formula : list FormulaItem.t) :
  (forall c, NoDup (casSources (casLoop formula) c))
  /\ (forall item, item ∈ formula ->
        (forall c, directCasOf item = Some c ->
           FormulaItem.name item ∈ casSources (casLoop formula) c)
        /\ (forall profile k,
              linkedProfile item = Some profile ->
              k ∈ NCS.constituents profile ->
              hiddenSource (FormulaItem.name item) (NCSConstituent.name k)
                ∈ casSources (casLoop formula) (NCSConstituent.cas k))).
Proof.
  unfold casLoop.
  assert (H : forall st,
             (forall c y, y ∈ casSources st c ->
                y ∈ casSources (fold_left attributeItem formula st) c)
             /\ ((forall c, NoDup (casSources st c)) ->
                 forall c,
                   NoDup (casSources (fold_left attributeItem formula st) c))
             /\ (forall item, item ∈ formula ->
                   (forall c, directCasOf item = Some c ->
                      FormulaItem.name item
                        ∈ casSources (fold_left attributeItem formula st) c)
                   /\ (forall profile k,
                         linkedProfile item = Some profile ->
                         k ∈ NCS.constituents profile ->
                         hiddenSource (FormulaItem.name item)
                                      (NCSConstituent.name k)
                           ∈ casSources (fold_left attributeItem formula st)
                               (NCSConstituent.cas k)))).
  { induction formula as [| i formula IH]; intros st; cbn [fold_left].
    - split; [tauto |]. split; [tauto |]. intros item Hi.
      now apply elem_of_nil in Hi.
    - destruct (attributeItem_sources st i) as (G1 & N1 & D1 & K1).
      destruct (IH (attributeItem st i)) as (G2 & N2 & I2).
      split; [| split].
      + intros c y Hy. apply G2, G1, Hy.
      + intros Hn. apply N2, N1, Hn.
      + intros item Hi. apply elem_of_cons in Hi as [-> | Hi];
          [| now apply I2].
        split.
        * intros c Hc. apply G2, D1, Hc.
        * intros profile k Hp Hk. apply G2. now apply (K1 profile). }
  destruct (H (CasState.mk [] ∅)) as (_ & Hn & Hi).
  split; [| exact Hi]. apply Hn. intros c.
  unfold casSources. cbn [CasState.sourcesByCas]. rewrite lookup_empty.
  apply NoDup_nil_2.
Qed.

(** A row lists each of its sources once, and names every line that feeds
    it: by its name when the line carries the CAS number itself, by its
    name with the hidden constituent when the line is expanded to it. *)
Theorem report_sources (IFRA_LIBRARY : gmap string IFRAEntry.t)
    (formula : list FormulaItem.t) (totalBatchWeight : Q)
    (targetCategory : string) (r : ComplianceResult.t) :
  r ∈ checkCompliance IFRA_LIBRARY formula totalBatchWeight targetCategory ->
  NoDup (ComplianceResult.sources r)
  /\ (forall item, item ∈ formula ->
        directCasOf item = Some (ComplianceResult.cas r) ->
        FormulaItem.name item ∈ ComplianceResult.sources r)
  /\ (forall item profile k,
        item ∈ formula -> linkedProfile item = Some profile ->
        k ∈ NCS.constituents profile ->
        NCSConstituent.cas k = ComplianceResult.cas r ->
        hiddenSource (FormulaItem.name item) (NCSConstituent.name k)
          ∈ ComplianceResult.sources r).
Proof.
  intros Hr.
  assert (Hnz : ~ totalBatchWeight == 0).
  { intros Hz. unfold checkCompliance in Hr. apply Qeq_bool_iff in Hz.
    rewrite Hz in Hr. now apply elem_of_nil in Hr. }
  apply checkCompliance_rows in Hr as (cas & m & _ & Hrow); [| exact Hnz].
  apply complianceRow_inv in Hrow as (entry & _ & ->).
  cbn [ComplianceResult.sources ComplianceResult.cas].
  destruct (casLoop_sources formula) as [Hn Hi].
  fold (casSources (casLoop formula) cas).
  split; [apply Hn |]. split.
  - intros item Hin Hd. now apply (Hi item Hin).
  - intros item profile k Hin Hp Hk <-. now apply (Hi item Hin) with profile.
Qed.

Lemma report_sources_witness :
  exists r,
    r ∈ checkCompliance SampleLibrary.limoneneCategory4
          [SampleLibrary.orangeAsLimonene] 1000 "4"
    /\ NoDup (ComplianceResult.sources r)
    /\ "Sweet Orange Oil" ∈ ComplianceResult.sources r.
Proof.
  pose proof (report_sources SampleLibrary.limoneneCategory4
                [SampleLibrary.orangeAsLimonene] 1000 "4") as H.
  remember (checkCompliance SampleLibrary.limoneneCategory4
              [SampleLibrary.orangeAsLimonene] 1000 "4") as report eqn:E.
  vm_compute in E. subst report.
  destruct (H _ (list_elem_of_here _ _)) as (Hn & Hd & _).
  eexists. split; [apply list_elem_of_here |]. split; [exact Hn |].
  apply (Hd SampleLibrary.orangeAsLimonene);
    [apply list_elem_of_here | reflexivity].
Defined.

(** ** Editing a line *)

Lemma findIndex_Some {A : Type} (p : A -> bool) (l : list A) (k : nat) :
  findIndex p l = Some k ->
  exists x, l !! k = Some x /\ p x = true
            /\ forall j y, (j < k)%nat -> l !! j = Some y -> p y = false.
Proof.
  revert k. induction l as [| x l IH]; intros k; cbn [findIndex];
    [discriminate |].
  destruct (p x) eqn:E.
  - intros [= <-]. exists x. split; [reflexivity |]. split; [exact E |].
    intros j y Hj. lia.
  - destruct (findIndex p l) as [k' |]; [| discriminate].
    intros [= <-]. destruct (IH k' eq_refl) as (z & Hz & Hp & Hlt).
    exists z. split; [exact Hz |]. split; [exact Hp |].
    intros [| j] y Hj Hy.
    + now injection Hy as <-.
    + apply (Hlt j y); [lia | exact Hy].
Qed.

Lemma findIndex_None {A : Type} (p : A -> bool) (l : list A) :
  findIndex p l = None -> forall x, x ∈ l -> p x = false.
Proof.
  induction l as [| y l IH]; cbn [findIndex]; intros H x Hx.
  - now apply elem_of_nil in Hx.
  - destruct (p y) eqn:E; [discriminate |].
    destruct (findIndex p l); [discriminate |].
    apply elem_of_cons in Hx as [-> | Hx]; [exact E | now apply IH].
Qed.

Lemma sum_insert (f : FormulaItem.t -> Q) (l : list FormulaItem.t) (k : nat)
    (old new : FormulaItem.t) :
  l !! k = Some old ->
  sumOver f (<[k := new]> l) == sumOver f l - f old + f new.
Proof.
  unfold sumOver. revert k.
  induction l as [| x l IH]; intros [| k] H; try discriminate.
  - injection H as ->.
    change (<[O := new]> (old :: l)) with (new :: l).
    cbn [map sumQ]. ring.
  - cbn in H. change (<[S k := new]> (x :: l)) with (x :: <[k := new]> l).
    cbn [map sumQ]. rewrite (IH k H). ring.
Qed.

(** Typing a volume for a line makes the batch count exactly that volume
    for it: the total volume changes by the typed volume minus the volume
    the line had. *)
Theorem updateItem_volume (INGREDIENTS : list Ingredient.t) (uuid : string)
    (vol : Q) (prev : list FormulaItem.t) (k : nat) (old : FormulaItem.t) :
  findIndex (fun i => String.eqb (FormulaItem.uuid i) uuid) prev = Some k ->
  prev !! k = Some old ->
  ~ specDensity INGREDIENTS old == 0 ->
  FormulationStats.totalVolume
    (calculateStats INGREDIENTS
       (updateItem INGREDIENTS uuid (EditVolume vol) prev))
  == FormulationStats.totalVolume (calculateStats INGREDIENTS prev)
     - FormulaItem.weight old / specDensity INGREDIENTS old + vol.
Proof.
  intros Hk Hold Hd. unfold updateItem. rewrite Hk, Hold.
  destruct (calculateStats_sums INGREDIENTS prev) as (_ & H2 & _).
  destruct (calculateStats_sums INGREDIENTS
              (<[k := applyEdit INGREDIENTS (EditVolume vol) old]> prev))
    as (_ & S2 & _).
  rewrite H2, S2, (sum_insert _ _ _ _ _ Hold).
  cbn [applyEdit withWeight FormulaItem.weight].
  assert (Hs : specDensity INGREDIENTS
                 (withWeight old (safeFloat vol * densityOf INGREDIENTS old))
               = specDensity INGREDIENTS old) by reflexivity.
  rewrite Hs. unfold safeFloat. rewrite orNum_zero, densityOf_spec.
  field. exact Hd.
Qed.

Lemma updateItem_volume_witness :
  FormulationStats.totalVolume
    (calculateStats []
       (updateItem [] "" (EditVolume 25) [Sample.neatMusk; Sample.tincture]))
  == FormulationStats.totalVolume
       (calculateStats [] [Sample.neatMusk; Sample.tincture])
     - FormulaItem.weight Sample.neatMusk / specDensity [] Sample.neatMusk
     + 25.
Proof.
  apply (updateItem_volume [] "" 25 [Sample.neatMusk; Sample.tincture] 0
           Sample.neatMusk); [reflexivity | reflexivity | discriminate].
Defined.

(** An edit touches one line at most, the first with the given uuid: the
    formula keeps its length and its uuids in order, every line with
    another uuid stays as it was, and an unknown uuid changes nothing. *)
Theorem updateItem_frame (INGREDIENTS : list Ingredient.t) (uuid : string)
    (edit : Edit) (prev : list FormulaItem.t) :
  map FormulaItem.uuid (updateItem INGREDIENTS uuid edit prev)
  = map FormulaItem.uuid prev
  /\ (forall j x, prev !! j = Some x -> FormulaItem.uuid x <> uuid ->
                  updateItem INGREDIENTS uuid edit prev !! j = Some x)
  /\ ((forall x, x ∈ prev -> FormulaItem.uuid x <> uuid) ->
      updateItem INGREDIENTS uuid edit prev = prev).
Proof.
  unfold updateItem.
  destruct (findIndex _ prev) as [k |] eqn:Ek.
  - destruct (findIndex_Some _ _ _ Ek) as (old & Hold & Hp & _).
    apply String.eqb_eq in Hp. rewrite Hold.
    assert (Hu : FormulaItem.uuid (applyEdit INGREDIENTS edit old)
                 = FormulaItem.uuid old).
    { destruct edit as [v | v | v | f v | f v | v]; try reflexivity;
        destruct f; reflexivity. }
    split; [| split].
    + rewrite list_fmap_insert, Hu. apply list_insert_id.
      now rewrite list_lookup_fmap, Hold.
    + intros j x Hj Hx. rewrite list_lookup_insert_ne; [exact Hj |].
      intros <-. rewrite Hold in Hj. injection Hj as <-. contradiction.
    + intros H. exfalso. apply (H old); [| exact Hp].
      now apply list_elem_of_lookup_2 in Hold.
  - split; [reflexivity |]. split; [tauto | reflexivity].
Qed.

Lemma updateItem_frame_witness :
  updateItem [] "missing" (EditWeight 5) [Sample.neatMusk; Sample.tincture]
  = [Sample.neatMusk; Sample.tincture].
Proof.
  refine (proj2 (proj2 (updateItem_frame
                          [] "missing" (EditWeight 5)
                          [Sample.neatMusk; Sample.tincture])) _).
  intros x Hx.
  repeat (apply elem_of_cons in Hx as [-> | Hx]; [discriminate |]).
  now apply elem_of_nil in Hx.
Defined.

(** The row of a line splits its weight into an active and a carrier part.
    For a dilution other than 0 the active part is the concentrate the
    batch statistics count for the line, and for a diluted line of
    non-negative weight the carrier part is the solvent mass the analysis
    counts for it.  At dilution 0 the row shows the whole weight as active
    while the statistics count no concentrate for the line. *)
Theorem row_masses (INGREDIENTS : list Ingredient.t) (item : FormulaItem.t) :
  let stats := calculateStats INGREDIENTS [item] in
  rowRealMass item + rowSolventMass item == FormulaItem.weight item
  /\ (~ FormulaItem.dilution item == 0 ->
      rowRealMass item == FormulationStats.concentrateMass stats)
  /\ (0 <= FormulaItem.weight item -> ~ FormulaItem.dilution item == 0 ->
      FormulaItem.dilution item < 1 ->
      rowSolventMass item
      == SolventAnalysis.totalSolventMass
           (FormulationStats.solventAnalysis stats))
  /\ (FormulaItem.dilution item == 0 ->
      rowRealMass item == FormulaItem.weight item
      /\ FormulationStats.concentrateMass stats == 0).
Proof.
  cbv zeta.
  destruct (calculateStats_sums INGREDIENTS [item]) as (_ & _ & _ & Hc).
  destruct (solventLoop_entries [item]) as (_ & _ & Hs).
  change (SolventAnalysis.totalSolventMass
            (FormulationStats.solventAnalysis
               (calculateStats INGREDIENTS [item])))
    with (SolventState.totalSolventMass (solventLoop [item])).
  rewrite Hc, Hs. unfold sumOver. cbn [map sumQ].
  unfold rowRealMass, rowSolventMass.
  pose proof (orNum_zero (FormulaItem.weight item)) as Hw.
  split; [rewrite Hw; ring |]. split; [| split].
  - intros Hd. rewrite Hw, (orNum_nonzero _ _ Hd). ring.
  - intros H0 Hd H1. rewrite Hw, (orNum_nonzero _ _ Hd).
    unfold solventMassOf.
    destruct (solventContribution_diluted item Hd H1) as [_ ->].
    pose proof (declaredCarrier_not_None item) as Hn.
    apply String.eqb_neq in Hn. rewrite Hn, andb_true_r.
    destruct (Js.Qltb 0 _) eqn:E; qprops; cbv iota; [ring | nra].
  - intros Hd. unfold Js.orNum at 2.
    pose proof Hd as Hb. apply Qeq_bool_iff in Hb. rewrite Hb.
    split; [rewrite Hw; ring | rewrite Hd; ring].
Qed.

Lemma row_masses_witness :
  rowSolventMass Sample.tincture
  == SolventAnalysis.totalSolventMass
       (FormulationStats.solventAnalysis
          (calculateStats [] [Sample.tincture])).
Proof.
  refine (proj1 (proj2 (proj2 (row_masses [] Sample.tincture))) _ _ _);
    [discriminate | discriminate | reflexivity].
Defined.
